(** * streamsdk-express: the checkout handler and the webhook dispatch

    A shallow embedding of the Express adapter of the Stream SDK.  The
    handler built by the [Checkout] factory is translated statement by
    statement; the remote client it talks to ([streamClient]) and the
    ECMAScript built-ins it calls are parameters of the development, so every
    theorem holds for any behaviour of the remote platform. *)

From Stdlib Require Import List ZArith NArith Bool Lia String Ascii DecimalString
  DecimalN.
Import ListNotations.
Local Open Scope bool_scope.

(** ** ECMAScript strings *)

(** A string value is a finite sequence of UTF-16 code units. *)
Definition JSString : Type := list N.

Module JS.

Definition of_string (s : string) : JSString :=
  map N_of_ascii (list_ascii_of_string s).

Definition code_unit_eqb (a b : N) : bool := N.eqb a b.

Fixpoint eqb (a b : JSString) : bool :=
  match a, b with
  | [], [] => true
  | x :: a', y :: b' => code_unit_eqb x y && eqb a' b'
  | _, _ => false
  end.

(** ToBoolean on [string | undefined]: only a non-empty string is truthy. *)
Definition truthy (v : option JSString) : bool :=
  match v with
  | Some (_ :: _) => true
  | _ => false
  end.

(** [a || b] where [b] is always a string. *)
Definition or_else (a : option JSString) (b : JSString) : JSString :=
  match a with
  | Some (c :: r) => c :: r
  | _ => b
  end.

(** WhiteSpace and LineTerminator code points (all in the basic plane),
    the characters removed by [String.prototype.trim]. *)
Definition is_white_space (c : N) : bool :=
  match c with
  | 9%N | 10%N | 11%N | 12%N | 13%N | 32%N | 160%N
  | 5760%N | 8232%N | 8233%N | 8239%N | 8287%N | 12288%N | 65279%N => true
  | _ => (8192 <=? c)%N && (c <=? 8202)%N
  end.

Fixpoint trim_start (s : JSString) : JSString :=
  match s with
  | [] => []
  | c :: r => if is_white_space c then trim_start r else s
  end.

Definition trim_end (s : JSString) : JSString := rev (trim_start (rev s)).

Definition trim (s : JSString) : JSString := trim_end (trim_start s).

(** [s.split(sep)] for a one-code-unit separator: the segments between the
    occurrences of [sep], empty segments included. *)
Fixpoint split (sep : N) (s : JSString) : list JSString :=
  match s with
  | [] => [[]]
  | c :: r =>
      if code_unit_eqb c sep then [] :: split sep r
      else match split sep r with
           | seg :: segs => (c :: seg) :: segs
           | [] => [[c]]
           end
  end.

Definition comma : N := 44.

(** Template-literal conversion of a non-negative integral number. *)
Definition of_N (n : N) : JSString :=
  of_string (NilEmpty.string_of_uint (N.to_uint n)).

End JS.

(** ** Data model *)

(** An optional property of a remote object: missing, [null], or a string. *)
Inductive JSField : Type :=
| FUndefined
| FNull
| FString (s : JSString).

(** [f === v] for a property [f] and a query value [v : string | undefined]. *)
Definition strict_eq (f : JSField) (v : option JSString) : bool :=
  match f, v with
  | FUndefined, None => true
  | FString a, Some b => JS.eqb a b
  | _, _ => false
  end.

Module Consumer.
Record t : Type := make
  { id : JSString;
    name : JSField;
    phone_number : JSField;
    email : JSField }.
End Consumer.

Module ListParams.
Record t : Type := make
  { page : Z;
    size : Z;
    search_term : option JSString }.
End ListParams.

Module Pagination.
Record t : Type := make { has_next_page : option bool }.
End Pagination.

Module ListResponse.
Record t : Type := make
  { data : option (list Consumer.t);
    pagination : option Pagination.t }.
End ListResponse.

Module ConsumerData.
Record t : Type := make
  { name : JSString;
    phone_number : option JSString;
    email : option JSString }.
End ConsumerData.

Module Item.
Record t : Type := make
  { product_id : JSString;
    quantity : Z }.
End Item.

Module PaymentLinkData.
Record t (JSValue : Type) : Type := make
  { name : JSString;
    items : list Item.t;
    success_redirect_url : JSString;
    failure_redirect_url : JSString;
    coupons : list JSString;
    organization_consumer_id : option JSString;
    metadata : option JSValue }.
Arguments make {JSValue}.
Arguments name {JSValue}.
Arguments items {JSValue}.
Arguments success_redirect_url {JSValue}.
Arguments failure_redirect_url {JSValue}.
Arguments coupons {JSValue}.
Arguments organization_consumer_id {JSValue}.
Arguments metadata {JSValue}.
End PaymentLinkData.

Module CheckoutConfig.
Record t : Type := make
  { apiKey : JSString;
    successUrl : JSString;
    returnUrl : option JSString;
    baseUrl : option JSString;
    defaultName : option JSString }.
End CheckoutConfig.

(** [req.query]: every parameter is a string or missing. *)
Module CheckoutQuery.
Record t : Type := make
  { products : option JSString;
    name : option JSString;
    customerId : option JSString;
    customerEmail : option JSString;
    customerName : option JSString;
    customerPhone : option JSString;
    metadata : option JSString }.
End CheckoutQuery.

(** What the handler does with [res] and [next]. *)
Inductive Response (JSError : Type) : Type :=
| RespJson (status : Z) (error : JSString)
| RespRedirect (url : JSString)
| RespNext (error : JSError).
Arguments RespJson {JSError}.
Arguments RespRedirect {JSError}.
Arguments RespNext {JSError}.

(** Observable actions of one request, in order. *)
Inductive Event (JSValue : Type) : Type :=
| EvListConsumers (p : ListParams.t)
| EvCreateConsumer (d : ConsumerData.t)
| EvCreatePaymentLink (d : PaymentLinkData.t JSValue)
| EvWarn (msg : JSString).
Arguments EvListConsumers {JSValue}.
Arguments EvCreateConsumer {JSValue}.
Arguments EvCreatePaymentLink {JSValue}.
Arguments EvWarn {JSValue}.

(** ** Computations: world state, exceptions, and a log of events *)

(** How an awaited computation ends: with a value, with a thrown value, or,
    for the model alone, because a loop was given too few turns. *)
Inductive Outcome (E A : Type) : Type :=
| Ok (a : A)
| Throw (e : E)
| OutOfFuel.
Arguments Ok {E A}.
Arguments Throw {E A}.
Arguments OutOfFuel {E A}.

(** How one turn of a loop ends: at the end of its body or by [break]. *)
Inductive LoopCtl (S : Type) : Type :=
| Continue (s : S)
| Break (s : S).
Arguments Continue {S}.
Arguments Break {S}.

Definition M (W E Ev A : Type) : Type := W -> Outcome E A * W * list Ev.

Section Monad.
Context {W E Ev : Type}.

Definition ret {A} (a : A) : M W E Ev A := fun w => (Ok a, w, []).

Definition bind {A B} (m : M W E Ev A) (f : A -> M W E Ev B) : M W E Ev B :=
  fun w =>
    match m w with
    | (Ok a, w1, t1) =>
        match f a w1 with
        | (o, w2, t2) => (o, w2, t1 ++ t2)
        end
    | (Throw e, w1, t1) => (Throw e, w1, t1)
    | (OutOfFuel, w1, t1) => (OutOfFuel, w1, t1)
    end.

(** [try { m } catch (e) { h e }] *)
Definition try_catch {A} (m : M W E Ev A) (h : E -> M W E Ev A) : M W E Ev A :=
  fun w =>
    match m w with
    | (Throw e, w1, t1) =>
        match h e w1 with
        | (o, w2, t2) => (o, w2, t1 ++ t2)
        end
    | r => r
    end.

Definition emit (ev : Ev) : M W E Ev unit := fun w => (Ok tt, w, [ev]).

Definition out_of_fuel {A} : M W E Ev A := fun w => (OutOfFuel, w, []).

(** An awaited call of the outside world: it steps the world and either
    returns or throws. *)
Definition call {A} (ev : Ev) (f : W -> (A + E) * W) : M W E Ev A :=
  fun w =>
    match f w with
    | (inl a, w1) => (Ok a, w1, [ev])
    | (inr e, w1) => (Throw e, w1, [ev])
    end.

Definition read {A} (f : W -> A) : M W E Ev A := fun w => (Ok (f w), w, []).

(** [while (cond) { body }].  The loop is given a number of turns, [fuel];
    it ends [OutOfFuel] when the condition still holds and no turn is left.
    Nothing in its definition bounds the number of turns by itself. *)
Fixpoint while {S} (fuel : nat) (cond : S -> bool)
    (body : S -> M W E Ev (LoopCtl S)) (s : S) : M W E Ev S :=
  if cond s then
    match fuel with
    | O => out_of_fuel
    | Datatypes.S fuel' =>
        bind (body s) (fun r =>
          match r with
          | Break s' => ret s'
          | Continue s' => while fuel' cond body s'
          end)
    end
  else ret s.
End Monad.

Notation "x <- m ;; k" := (bind m (fun x => k))
  (at level 61, m at next level, right associativity).
Notation "m ;;; k" := (bind m (fun _ => k))
  (at level 61, right associativity).

(** ** The checkout handler *)

Section CheckoutHandler.

(** The state of the outside world, thrown values, parsed JSON values and
    the payment-link object of the remote platform are left abstract. *)
Variables W JSError JSValue PaymentLink : Type.

(** The client returned by [StreamSDK.init]; an awaited method returns a
    value or throws, and may change the remote state. *)
Record StreamClient : Type := mkStreamClient
  { listConsumers : ListParams.t -> W -> (ListResponse.t + JSError) * W;
    createConsumer : ConsumerData.t -> W -> (Consumer.t + JSError) * W;
    createPaymentLink :
      PaymentLinkData.t JSValue -> W -> (PaymentLink + JSError) * W;
    getPaymentUrl : PaymentLink -> option JSString }.

(** The built-ins used by the handler: [None] stands for a thrown
    [URIError] or [SyntaxError]. *)
Record Builtins : Type := mkBuiltins
  { decodeURIComponent : JSString -> option JSString;
    JSON_parse : JSString -> option JSValue;
    Date_now : W -> N }.

Variable streamClient : StreamClient.
Variable builtins : Builtins.

Definition Handler (A : Type) : Type := M W JSError (Event JSValue) A.

Definition await_listConsumers (p : ListParams.t) : Handler ListResponse.t :=
  call (EvListConsumers p) (listConsumers streamClient p).

Definition await_createConsumer (d : ConsumerData.t) : Handler Consumer.t :=
  call (EvCreateConsumer d) (createConsumer streamClient d).

Definition await_createPaymentLink (d : PaymentLinkData.t JSValue)
  : Handler PaymentLink :=
  call (EvCreatePaymentLink d) (createPaymentLink streamClient d).

Definition console_warn (msg : string) : Handler unit :=
  emit (EvWarn (JS.of_string msg)).

(** [data?.find(p)] *)
Definition find_in (p : Consumer.t -> bool) (data : option (list Consumer.t))
  : option Consumer.t :=
  match data with
  | Some l => find p l
  | None => None
  end.

Definition is_some {A} (o : option A) : bool :=
  match o with Some _ => true | None => false end.

(** [products ? products.split(',').map(id => id.trim()) : []] *)
Definition productIds (products : option JSString) : list JSString :=
  match products with
  | Some (c :: r) => map JS.trim (JS.split JS.comma (c :: r))
  | _ => []
  end.

(** [name || config.defaultName || `Checkout ${Date.now()}`] *)
Definition paymentLinkName (config : CheckoutConfig.t) (name : option JSString)
  : Handler JSString :=
  match name, CheckoutConfig.defaultName config with
  | Some (c :: r), _ => ret (c :: r)
  | _, Some (c :: r) => ret (c :: r)
  | _, _ =>
      now <- read (Date_now builtins) ;;
      ret (JS.of_string "Checkout " ++ JS.of_N now)
  end.

Definition line_items (ids : list JSString) : list Item.t :=
  map (fun id => Item.make id 1) ids.

(** Strategy 1: search by phone, keep an exact phone match. *)
Definition strategy1 (customerPhone : option JSString)
  : Handler (option Consumer.t) :=
  let existingConsumer := None in
  if JS.truthy customerPhone then
    try_catch
      (searchResults <-
         await_listConsumers (ListParams.make 1 100 customerPhone) ;;
       ret (find_in
              (fun c => strict_eq (Consumer.phone_number c) customerPhone)
              (ListResponse.data searchResults)))
      (fun searchError =>
         console_warn "Search by phone failed, trying email search" ;;;
         ret existingConsumer)
  else ret existingConsumer.

(** Strategy 2: search by email when Strategy 1 found nothing. *)
Definition strategy2 (customerPhone customerEmail : option JSString)
    (existingConsumer : option Consumer.t) : Handler (option Consumer.t) :=
  if negb (is_some existingConsumer) && JS.truthy customerEmail then
    try_catch
      (searchResults <-
         await_listConsumers (ListParams.make 1 100 customerEmail) ;;
       ret (find_in
              (fun c => strict_eq (Consumer.email c) customerEmail
                        || strict_eq (Consumer.phone_number c) customerPhone)
              (ListResponse.data searchResults)))
      (fun searchError =>
         console_warn "Search by email failed, falling back to pagination" ;;;
         ret existingConsumer)
  else ret existingConsumer.

(** Strategy 3: page through all consumers. *)
Record PageLoop : Type := mkPageLoop
  { currentPage : Z;
    hasMorePages : bool;
    found : option Consumer.t }.

Definition pageSize : Z := 100.

Definition page_match (customerPhone customerEmail : option JSString)
    (c : Consumer.t) : bool :=
  (JS.truthy customerPhone && strict_eq (Consumer.phone_number c) customerPhone)
  || (JS.truthy customerEmail && strict_eq (Consumer.email c) customerEmail).

(** [consumers.pagination?.has_next_page || false] *)
Definition has_next (consumers : ListResponse.t) : bool :=
  match ListResponse.pagination consumers with
  | Some p =>
      match Pagination.has_next_page p with
      | Some b => b
      | None => false
      end
  | None => false
  end.

Definition page_cond (st : PageLoop) : bool :=
  hasMorePages st && negb (is_some (found st)).

Definition page_body (customerPhone customerEmail : option JSString)
    (st : PageLoop) : Handler (LoopCtl PageLoop) :=
  consumers <-
    await_listConsumers (ListParams.make (currentPage st) pageSize None) ;;
  let existingConsumer :=
    find_in (page_match customerPhone customerEmail)
            (ListResponse.data consumers) in
  if is_some existingConsumer then
    ret (Break (mkPageLoop (currentPage st) (hasMorePages st) existingConsumer))
  else
    let hasMorePages := has_next consumers in
    let currentPage := (currentPage st + 1)%Z in
    if (currentPage >? 50)%Z then
      console_warn
        "Reached maximum page limit (50), stopping consumer search" ;;;
      ret (Break (mkPageLoop currentPage hasMorePages existingConsumer))
    else ret (Continue (mkPageLoop currentPage hasMorePages existingConsumer)).

Definition strategy3 (fuel : nat) (customerPhone customerEmail : option JSString)
    (existingConsumer : option Consumer.t) : Handler (option Consumer.t) :=
  if negb (is_some existingConsumer)
     && (JS.truthy customerPhone || JS.truthy customerEmail) then
    st <- while fuel page_cond (page_body customerPhone customerEmail)
            (mkPageLoop 1 true existingConsumer) ;;
    ret (found st)
  else ret existingConsumer.

(** The three strategies in order. *)
Definition findConsumer (fuel : nat) (customerPhone customerEmail : option JSString)
  : Handler (option Consumer.t) :=
  c1 <- strategy1 customerPhone ;;
  c2 <- strategy2 customerPhone customerEmail c1 ;;
  strategy3 fuel customerPhone customerEmail c2.

(** [if (v) consumerData.prop = v]: the property is set only when truthy. *)
Definition own_property (v : option JSString) : option JSString :=
  if JS.truthy v then v else None.

Definition consumerData (customerName customerPhone customerEmail : option JSString)
  : ConsumerData.t :=
  ConsumerData.make
    (JS.or_else customerName (JS.of_string "Customer"))
    (own_property customerPhone)
    (own_property customerEmail).

(** [if (existingConsumer) ... else if (customerName) ...] *)
Definition useOrCreate (q : CheckoutQuery.t) (consumerId : option JSString)
    (existingConsumer : option Consumer.t) : Handler (option JSString) :=
  match existingConsumer with
  | Some c => ret (Some (Consumer.id c))
  | None =>
      if JS.truthy (CheckoutQuery.customerName q) then
        newConsumer <-
          await_createConsumer
            (consumerData (CheckoutQuery.customerName q)
                          (CheckoutQuery.customerPhone q)
                          (CheckoutQuery.customerEmail q)) ;;
        ret (Some (Consumer.id newConsumer))
      else ret consumerId
  end.

(** The consumer block: [let consumerId = customerId; if (!consumerId && ...)]. *)
Definition resolveConsumer (fuel : nat) (q : CheckoutQuery.t)
  : Handler (option JSString) :=
  let consumerId := CheckoutQuery.customerId q in
  if negb (JS.truthy consumerId)
     && (JS.truthy (CheckoutQuery.customerPhone q)
         || JS.truthy (CheckoutQuery.customerEmail q)) then
    existingConsumer <-
      findConsumer fuel (CheckoutQuery.customerPhone q)
                   (CheckoutQuery.customerEmail q) ;;
    useOrCreate q consumerId existingConsumer
  else ret consumerId.

(** The object literal [paymentLinkData], before a consumer or metadata
    is attached. *)
Definition initialData (config : CheckoutConfig.t) (linkName : JSString)
    (ids : list JSString) : PaymentLinkData.t JSValue :=
  PaymentLinkData.make
    linkName
    (line_items ids)
    (CheckoutConfig.successUrl config)
    (JS.or_else (CheckoutConfig.returnUrl config)
                (CheckoutConfig.successUrl config))
    []
    None
    None.

(** [if (consumerId) paymentLinkData.organization_consumer_id = consumerId] *)
Definition attachConsumer (consumerId : option JSString)
    (d : PaymentLinkData.t JSValue) : PaymentLinkData.t JSValue :=
  if JS.truthy consumerId then
    PaymentLinkData.make
      (PaymentLinkData.name d) (PaymentLinkData.items d)
      (PaymentLinkData.success_redirect_url d)
      (PaymentLinkData.failure_redirect_url d)
      (PaymentLinkData.coupons d) consumerId (PaymentLinkData.metadata d)
  else d.

(** [JSON.parse(decodeURIComponent(metadata))]; [None] when either throws. *)
Definition parsedMetadata (metadata : JSString) : option JSValue :=
  match decodeURIComponent builtins metadata with
  | Some decoded => JSON_parse builtins decoded
  | None => None
  end.

(** [if (metadata) { try { paymentLinkData.metadata = ... } catch (e) {} }] *)
Definition attachMetadata (metadata : option JSString)
    (d : PaymentLinkData.t JSValue) : PaymentLinkData.t JSValue :=
  if JS.truthy metadata then
    match parsedMetadata (JS.or_else metadata []) with
    | Some value =>
        PaymentLinkData.make
          (PaymentLinkData.name d) (PaymentLinkData.items d)
          (PaymentLinkData.success_redirect_url d)
          (PaymentLinkData.failure_redirect_url d)
          (PaymentLinkData.coupons d)
          (PaymentLinkData.organization_consumer_id d) (Some value)
    | None => d
    end
  else d.

Definition error_no_product : JSString :=
  JS.of_string "At least one product ID is required".

Definition error_no_url : JSString :=
  JS.of_string "Failed to generate payment URL".

(** The body of the handler's outer [try]. *)
Definition checkout_try (fuel : nat) (config : CheckoutConfig.t)
    (q : CheckoutQuery.t) : Handler (Response JSError) :=
  let ids := productIds (CheckoutQuery.products q) in
  if (List.length ids =? 0)%nat then ret (RespJson 400 error_no_product)
  else
    linkName <- paymentLinkName config (CheckoutQuery.name q) ;;
    let paymentLinkData := initialData config linkName ids in
    consumerId <- resolveConsumer fuel q ;;
    let paymentLinkData := attachConsumer consumerId paymentLinkData in
    let paymentLinkData :=
      attachMetadata (CheckoutQuery.metadata q) paymentLinkData in
    paymentLink <- await_createPaymentLink paymentLinkData ;;
    match getPaymentUrl streamClient paymentLink with
    | Some (c :: r) => ret (RespRedirect (c :: r))
    | _ => ret (RespJson 500 error_no_url)
    end.

(** The request handler returned by [Checkout(config)]. *)
Definition Checkout (fuel : nat) (config : CheckoutConfig.t)
    (q : CheckoutQuery.t) : Handler (Response JSError) :=
  try_catch (checkout_try fuel config q) (fun error => ret (RespNext error)).

End CheckoutHandler.

Arguments mkStreamClient {W JSError JSValue PaymentLink}.
Arguments listConsumers {W JSError JSValue PaymentLink}.
Arguments createConsumer {W JSError JSValue PaymentLink}.
Arguments createPaymentLink {W JSError JSValue PaymentLink}.
Arguments getPaymentUrl {W JSError JSValue PaymentLink}.
Arguments mkBuiltins {W JSValue}.
Arguments decodeURIComponent {W JSValue}.
Arguments JSON_parse {W JSValue}.
Arguments Date_now {W JSValue}.
Arguments productIds : simpl never.
Arguments strategy1 {W JSError JSValue PaymentLink}.
Arguments strategy2 {W JSError JSValue PaymentLink}.
Arguments strategy3 {W JSError JSValue PaymentLink}.
Arguments page_body {W JSError JSValue PaymentLink}.
Arguments findConsumer {W JSError JSValue PaymentLink}.
Arguments useOrCreate {W JSError JSValue PaymentLink}.
Arguments resolveConsumer {W JSError JSValue PaymentLink}.
Arguments paymentLinkName {W JSError JSValue}.
Arguments parsedMetadata {W JSValue}.
Arguments attachMetadata {W JSValue}.
Arguments attachConsumer {JSValue}.
Arguments initialData {JSValue}.
Arguments checkout_try {W JSError JSValue PaymentLink}.
Arguments Checkout {W JSError JSValue PaymentLink}.

(** ** The webhook handler *)

Module Webhook.

(** The optional event callbacks of [WebhookConfig]. *)
Inductive CallbackField : Type :=
| onPaymentCreated
| onPaymentCompleted
| onPaymentFailed
| onSubscriptionCreated
| onSubscriptionUpdated
| onSubscriptionCancelled
| onInvoiceCreated
| onInvoicePaid.

Inductive WebhookResponse (JSError : Type) : Type :=
| Ack
| Unauthorized
| Next (error : JSError).
Arguments Ack {JSError}.
Arguments Unauthorized {JSError}.
Arguments Next {JSError}.

Inductive Invocation (Payload : Type) : Type :=
| Specific (field : CallbackField) (data : Payload)
| CatchAll (event : JSString) (data : Payload).
Arguments Specific {Payload}.
Arguments CatchAll {Payload}.

Definition is_specific {Payload} (i : Invocation Payload) : bool :=
  match i with Specific _ _ => true | CatchAll _ _ => false end.

(** Modelled from the spec: the event-name table of the webhook handler
    ([Webhooks]), whose source file is missing.  It follows the table of
    section 6, with the callback of [invoice.paid] under the name the
    README's [WebhookConfig] declares. *)
Definition event_callback (event : JSString) : option CallbackField :=
  if JS.eqb event (JS.of_string "payment.created") then Some onPaymentCreated
  else if JS.eqb event (JS.of_string "payment.completed") then Some onPaymentCompleted
  else if JS.eqb event (JS.of_string "payment.paid") then Some onPaymentCompleted
  else if JS.eqb event (JS.of_string "payment.failed") then Some onPaymentFailed
  else if JS.eqb event (JS.of_string "subscription.created") then Some onSubscriptionCreated
  else if JS.eqb event (JS.of_string "subscription.updated") then Some onSubscriptionUpdated
  else if JS.eqb event (JS.of_string "subscription.cancelled") then Some onSubscriptionCancelled
  else if JS.eqb event (JS.of_string "invoice.created") then Some onInvoiceCreated
  else if JS.eqb event (JS.of_string "invoice.paid") then Some onInvoicePaid
  else None.

Section Handler.

Variables W JSError Payload : Type.

Definition Callback : Type := Payload -> W -> (unit + JSError) * W.

Record WebhookConfig : Type := mkWebhookConfig
  { apiKey : JSString;
    webhookSecret : option JSString;
    callbacks : CallbackField -> option Callback;
    onWebhook : option (JSString -> Callback) }.

(** One delivery: the raw body, the signature the sender supplied, and the
    event envelope carried by the body. *)
Record WebhookRequest : Type := mkWebhookRequest
  { rawBody : JSString;
    signature : option JSString;
    type : JSString;
    data : Payload }.

(** HMAC-SHA256 of the raw body under the secret, as the sender encodes it. *)
Variable hmac_sha256 : JSString -> JSString -> JSString.

Definition Dispatch (A : Type) : Type := M W JSError (Invocation Payload) A.

(** Modelled from the spec: step 1 of the webhook algorithm, the signature
    check made when a secret is configured. *)
Definition verified (config : WebhookConfig) (req : WebhookRequest) : bool :=
  match webhookSecret config with
  | Some secret =>
      match signature req with
      | Some s => JS.eqb s (hmac_sha256 secret (rawBody req))
      | None => false
      end
  | None => true
  end.

(** An awaited callback whose failure is kept for later. *)
Definition settle (m : Dispatch unit) : Dispatch (option JSError) :=
  try_catch (m ;;; ret None) (fun e => ret (Some e)).

(** Modelled from the spec: steps 3 to 5, the specific callback of the event
    if one is registered, then the catch-all whatever the first did; a
    failure of either goes to the framework. *)
Definition dispatch (config : WebhookConfig) (req : WebhookRequest)
  : Dispatch (WebhookResponse JSError) :=
  r1 <- match event_callback (type req) with
        | Some f =>
            match callbacks config f with
            | Some cb => settle (call (Specific f (data req)) (cb (data req)))
            | None => ret None
            end
        | None => ret None
        end ;;
  r2 <- match onWebhook config with
        | Some cb =>
            settle (call (CatchAll (type req) (data req)) (cb (type req) (data req)))
        | None => ret None
        end ;;
  match r1, r2 with
  | Some e, _ => ret (Next e)
  | None, Some e => ret (Next e)
  | None, None => ret Ack
  end.

(** Modelled from the spec: the request handler built by [Webhooks(config)]
    (section 4.2), whose source file is missing. *)
Definition Webhooks (config : WebhookConfig) (req : WebhookRequest)
  : Dispatch (WebhookResponse JSError) :=
  if verified config req then dispatch config req
  else ret Unauthorized.

End Handler.

Arguments mkWebhookConfig {W JSError Payload}.
Arguments mkWebhookRequest {Payload}.
Arguments callbacks {W JSError Payload}.
Arguments onWebhook {W JSError Payload}.
Arguments webhookSecret {W JSError Payload}.
Arguments type {Payload}.
Arguments data {Payload}.
Arguments rawBody {Payload}.
Arguments signature {Payload}.
Arguments verified {W JSError Payload}.
Arguments dispatch {W JSError Payload}.
Arguments Webhooks {W JSError Payload}.

End Webhook.

(** ** A small remote platform

    A concrete remote directory against which the handler can be run: the
    consumers it holds, a clock, and switches that make its search or its
    listing fail. *)

Module Demo.

Record World : Type := mkWorld
  { directory : list Consumer.t;
    clock : N;
    search_down : bool;
    listing_down : bool }.

Definition Error : Type := JSString.
Definition Value : Type := JSString.
Definition Link : Type := option JSString.

Definition nth_page (page size : Z) (l : list Consumer.t) : list Consumer.t :=
  firstn (Z.to_nat size) (skipn (Z.to_nat ((page - 1) * size)) l).

(** The search is approximate: it hands back candidates, not exact matches. *)
Definition demo_listConsumers (p : ListParams.t) (w : World)
  : (ListResponse.t + Error) * World :=
  match ListParams.search_term p with
  | Some _ =>
      if search_down w then (inr (JS.of_string "search unavailable"), w)
      else (inl (ListResponse.make
                   (Some (nth_page (ListParams.page p) (ListParams.size p)
                                   (directory w)))
                   (Some (Pagination.make (Some false)))), w)
  | None =>
      if listing_down w then (inr (JS.of_string "listing unavailable"), w)
      else
        let more :=
          (ListParams.page p * ListParams.size p
           <? Z.of_nat (List.length (directory w)))%Z in
        (inl (ListResponse.make
                (Some (nth_page (ListParams.page p) (ListParams.size p)
                                (directory w)))
                (Some (Pagination.make (Some more)))), w)
  end.

Definition to_field (v : option JSString) : JSField :=
  match v with
  | Some s => FString s
  | None => FUndefined
  end.

Definition fresh_id (w : World) : JSString :=
  JS.of_string "cons_new_" ++ JS.of_N (N.of_nat (List.length (directory w))).

Definition demo_createConsumer (d : ConsumerData.t) (w : World)
  : (Consumer.t + Error) * World :=
  let c := Consumer.make (fresh_id w) (FString (ConsumerData.name d))
             (to_field (ConsumerData.phone_number d))
             (to_field (ConsumerData.email d)) in
  (inl c,
   mkWorld (directory w ++ [c]) (clock w) (search_down w) (listing_down w)).

Definition demo_createPaymentLink (d : PaymentLinkData.t Value) (w : World)
  : (Link + Error) * World :=
  (inl (Some (JS.of_string "https://pay.example/" ++ PaymentLinkData.name d)), w).

Definition client : StreamClient World Error Value Link :=
  mkStreamClient demo_listConsumers demo_createConsumer demo_createPaymentLink
    (fun link => link).

(** A platform whose directory has no end: every listing hands back a page
    with the same consumer and announces a further page. *)
Definition endless_listConsumers (p : ListParams.t) (w : World)
  : (ListResponse.t + Error) * World :=
  (inl (ListResponse.make
          (Some [Consumer.make (JS.of_string "cons_0")
                   (FString (JS.of_string "Nobody")) FNull FNull])
          (Some (Pagination.make (Some true)))), w).

Definition endless_client : StreamClient World Error Value Link :=
  mkStreamClient endless_listConsumers demo_createConsumer
    demo_createPaymentLink (fun link => link).

Definition percent : N := 37.

Definition is_hex (c : N) : bool :=
  ((48 <=? c) && (c <=? 57) || (65 <=? c) && (c <=? 70)
   || (97 <=? c) && (c <=? 102))%N.

(** A stand-in for [decodeURIComponent] that only checks the escapes: a
    percent sign must be followed by two hexadecimal digits. *)
Fixpoint escapes_ok (s : JSString) : bool :=
  match s with
  | [] => true
  | c :: r =>
      if N.eqb c percent then
        match r with
        | h1 :: h2 :: _ => is_hex h1 && is_hex h2 && escapes_ok r
        | _ => false
        end
      else escapes_ok r
  end.

Definition demo_decode (s : JSString) : option JSString :=
  if escapes_ok s then Some s else None.

(** A stand-in for [JSON.parse] that accepts a text in braces or brackets. *)
Definition demo_parse (s : JSString) : option Value :=
  match s, rev s with
  | 123%N :: _, 125%N :: _ => Some s
  | 91%N :: _, 93%N :: _ => Some s
  | _, _ => None
  end.

Definition builtins : Builtins World Value :=
  mkBuiltins demo_decode demo_parse clock.

Definition config : CheckoutConfig.t :=
  CheckoutConfig.make (JS.of_string "sk_test") (JS.of_string "https://shop.example/success")
    (Some (JS.of_string "https://shop.example/cancel")) None
    (Some (JS.of_string "Store Checkout")).

Definition s (x : string) : option JSString := Some (JS.of_string x).

Definition ahmad : Consumer.t :=
  Consumer.make (JS.of_string "cons_1") (FString (JS.of_string "Ahmad Ali"))
    (FString (JS.of_string "+966501234567")) (FString (JS.of_string "ahmad@example.com")).

(** A consumer record without phone number and without email. *)
Definition walk_in : Consumer.t :=
  Consumer.make (JS.of_string "cons_2") (FString (JS.of_string "Walk-in"))
    FUndefined FUndefined.

Definition world (dir : list Consumer.t) : World :=
  mkWorld dir 1700000000000 false false.

Definition run (fuel : nat) (q : CheckoutQuery.t) (w : World) :=
  Checkout client builtins fuel config q w.

End Demo.

(** ** Vocabulary of the statements *)

Section Observations.

Context {JSValue : Type}.

(** A page fetch of the pagination fallback: a listing call without term. *)
Definition is_page_fetch (ev : Event JSValue) : bool :=
  match ev with
  | EvListConsumers p => negb (is_some (ListParams.search_term p))
  | _ => false
  end.

Definition is_list (ev : Event JSValue) : bool :=
  match ev with EvListConsumers _ => true | _ => false end.

Definition is_create (ev : Event JSValue) : bool :=
  match ev with EvCreateConsumer _ => true | _ => false end.

Definition is_link (ev : Event JSValue) : bool :=
  match ev with EvCreatePaymentLink _ => true | _ => false end.

Definition is_warn (ev : Event JSValue) : bool :=
  match ev with EvWarn _ => true | _ => false end.

(** The remote calls of a trace, the warnings left out. *)
Definition remote_calls (tr : list (Event JSValue)) : list (Event JSValue) :=
  filter (fun ev => negb (is_warn ev)) tr.

Definition count (p : Event JSValue -> bool) (tr : list (Event JSValue)) : nat :=
  List.length (filter p tr).

(** The page numbers asked for by the page fetches of a trace. *)
Definition pages_fetched (tr : list (Event JSValue)) : list Z :=
  flat_map (fun ev =>
              match ev with
              | EvListConsumers p =>
                  if is_some (ListParams.search_term p) then []
                  else [ListParams.page p]
              | _ => []
              end) tr.

End Observations.


Definition with_metadata (q : CheckoutQuery.t) (v : option JSString)
  : CheckoutQuery.t :=
  CheckoutQuery.make (CheckoutQuery.products q) (CheckoutQuery.name q)
    (CheckoutQuery.customerId q)
    (CheckoutQuery.customerEmail q) (CheckoutQuery.customerName q)
    (CheckoutQuery.customerPhone q) v.

(** A string made of white space and commas only. *)
Definition blank (s : JSString) : bool :=
  forallb (fun c => JS.is_white_space c || JS.code_unit_eqb c JS.comma) s.

Definition non_empty (s : JSString) : bool :=
  match s with [] => false | _ :: _ => true end.

(** The line items as the specification words them: one per trimmed segment
    that is not empty, the empty ones dropped. *)
Definition items_of_non_empty_segments (products : JSString) : list Item.t :=
  map (fun id => Item.make id 1)
      (filter non_empty (map JS.trim (JS.split JS.comma products))).

(** The line items the handler builds: one per segment, trimmed. *)
Definition items_of_segments (products : JSString) : list Item.t :=
  map (fun seg => Item.make (JS.trim seg) 1) (JS.split JS.comma products).

Definition empty_response : ListResponse.t := ListResponse.make None None.

(** A client whose searches never throw: a search that would throw hands
    back an empty result instead.  Page fetches and the other methods are
    those of the given client. *)
Definition quiet {W JSError JSValue PaymentLink : Type}
    (c : StreamClient W JSError JSValue PaymentLink)
  : StreamClient W JSError JSValue PaymentLink :=
  mkStreamClient
    (fun p w =>
       match ListParams.search_term p, listConsumers c p w with
       | Some _, (inr _, w1) => (inl empty_response, w1)
       | _, r => r
       end)
    (createConsumer c) (createPaymentLink c) (getPaymentUrl c).

(** Two runs that agree on the response, on the remote state and on the
    remote calls made. *)
Definition same_behaviour {W E JSValue A : Type}
    (r1 r2 : Outcome E A * W * list (Event JSValue)) : Prop :=
  fst (fst r1) = fst (fst r2)
  /\ snd (fst r1) = snd (fst r2)
  /\ remote_calls (snd r1) = remote_calls (snd r2).

(** A directory without end: every page fetch succeeds, holds no consumer
    with the wanted phone number or email, and announces a further page. *)
Definition unbounded {W JSError JSValue PaymentLink : Type}
    (c : StreamClient W JSError JSValue PaymentLink)
    (customerPhone customerEmail : option JSString) : Prop :=
  forall page w,
    exists r w1,
      listConsumers c (ListParams.make page pageSize None) w = (inl r, w1)
      /\ find_in (page_match customerPhone customerEmail) (ListResponse.data r)
         = None
      /\ has_next r = true.

(** Every event a computation logs satisfies [P], whatever the world. *)
Definition emits {W E Ev A : Type} (P : Ev -> Prop) (m : M W E Ev A) : Prop :=
  forall w, Forall P (snd (m w)).

(** A computation that never runs out of fuel and makes at most [n] page
    fetches, whatever the world. *)
Definition within {W E JSValue A : Type} (n : nat)
    (m : M W E (Event JSValue) A) : Prop :=
  forall w,
    fst (fst (m w)) <> OutOfFuel
    /\ (count is_page_fetch (snd (m w)) <= n)%nat.

(** The page numbers [first], [first + 1], ... ([n] of them). *)
Fixpoint pages_from (first : Z) (n : nat) : list Z :=
  match n with
  | O => []
  | S n' => first :: pages_from (first + 1) n'
  end.

(** Requests used as examples. *)
Module Sample.

Definition query (products customerId customerEmail customerName customerPhone
                  metadata : option JSString) : CheckoutQuery.t :=
  CheckoutQuery.make products None customerId customerEmail customerName
    customerPhone metadata.

Definition no_products : CheckoutQuery.t :=
  query (Demo.s "") None None (Demo.s "Ahmad Ali") (Demo.s "+966501234567") None.

Definition blank_products : CheckoutQuery.t :=
  query (Demo.s " , ") None None None None None.

Definition sparse_products : CheckoutQuery.t :=
  query (Demo.s "prod_1,, prod_2 ") None None None None None.

Definition by_email : CheckoutQuery.t :=
  query (Demo.s "prod_1") None (Demo.s "sara@example.com") None None None.

Definition by_phone : CheckoutQuery.t :=
  query (Demo.s "prod_1") None None (Demo.s "Sara") (Demo.s "+966500000000") None.


Definition with_id : CheckoutQuery.t :=
  query (Demo.s "prod_1") (Demo.s "cons_123") (Demo.s "sara@example.com")
    (Demo.s "Sara") (Demo.s "+966500000000") None.


Definition bad_metadata : CheckoutQuery.t :=
  query (Demo.s "prod_1") None None None None (Demo.s "%7B%22orderId%22%3A%2").

Definition all_down : Demo.World :=
  Demo.mkWorld [Demo.ahmad] 1700000000000 true true.

(** A webhook configuration that records the payments it is told about:
    the world is the list of the payloads seen by [onPaymentCompleted]. *)
Definition record_payment : Webhook.Callback (list JSString) JSString JSString :=
  fun data seen => (inl tt, data :: seen).

Definition webhook_config
  : Webhook.WebhookConfig (list JSString) JSString JSString :=
  Webhook.mkWebhookConfig (JS.of_string "sk_test") None
    (fun f =>
       match f with
       | Webhook.onPaymentCompleted => Some record_payment
       | _ => None
       end)
    None.

Definition delivery (event : string) : Webhook.WebhookRequest JSString :=
  Webhook.mkWebhookRequest (JS.of_string "{}") None (JS.of_string event)
    (JS.of_string "pay_1").

(** A stand-in for the keyed hash, for configurations without secret. *)
Definition no_hmac (secret body : JSString) : JSString := body.

End Sample.

(** The name given to the payment link when the clock reads [Date_now w]. *)
Definition link_name {W JSValue : Type} (b : Builtins W JSValue)
    (config : CheckoutConfig.t) (name : option JSString) (w : W) : JSString :=
  match name, CheckoutConfig.defaultName config with
  | Some (c :: r), _ => c :: r
  | _, Some (c :: r) => c :: r
  | _, _ => JS.of_string "Checkout " ++ JS.of_N (Date_now b w)
  end.

(** The payment-link request of a checkout that resolved [consumerId]. *)
Definition requestData {W JSValue : Type} (b : Builtins W JSValue)
    (config : CheckoutConfig.t) (q : CheckoutQuery.t) (w : W)
    (consumerId : option JSString) : PaymentLinkData.t JSValue :=
  attachMetadata b (CheckoutQuery.metadata q)
    (attachConsumer consumerId
       (initialData config (link_name b config (CheckoutQuery.name q) w)
          (productIds (CheckoutQuery.products q)))).

(** The answer given once the payment link exists. *)
Definition respond {W JSError JSValue PaymentLink : Type}
    (c : StreamClient W JSError JSValue PaymentLink) (link : PaymentLink)
  : Response JSError :=
  match getPaymentUrl c link with
  | Some (x :: r) => RespRedirect (x :: r)
  | _ => RespJson 500 error_no_url
  end.

(** ** Further vocabulary *)

(** A string that neither starts nor ends with white space. *)
Definition trimmed (s : JSString) : Prop :=
  match s with
  | [] => True
  | c :: _ => JS.is_white_space c = false
              /\ JS.is_white_space (last s c) = false
  end.

(** The segments joined again, the separator between them. *)
Fixpoint join (sep : N) (segs : list JSString) : JSString :=
  match segs with
  | [] => []
  | [seg] => seg
  | seg :: rest => seg ++ sep :: join sep rest
  end.

(** A character that [JSON.stringify] copies as it is. *)
Definition plain (c : N) : Prop :=
  (32 <= c)%N /\ c <> 34%N /\ c <> 92%N /\ (c < 55296)%N.

(** A consumer search: a listing call that carries a search term. *)
Definition is_search {JSValue : Type} (ev : Event JSValue) : bool :=
  match ev with
  | EvListConsumers p => is_some (ListParams.search_term p)
  | _ => false
  end.

(** What every listing call of the handler looks like: 100 consumers a
    page, and page 1 when it is a search. *)
Definition listing_well_formed {JSValue : Type} (ev : Event JSValue) : Prop :=
  match ev with
  | EvListConsumers p =>
      ListParams.size p = 100%Z
      /\ (is_some (ListParams.search_term p) = true -> ListParams.page p = 1%Z)
  | _ => True
  end.

(** A computation whose page fetches ask for the pages 1, 2, 3, ... *)
Definition scans_in_order {W E JSValue A : Type}
    (m : M W E (Event JSValue) A) : Prop :=
  forall w,
    pages_fetched (snd (m w))
    = pages_from 1 (count is_page_fetch (snd (m w))).

(** ** More built-ins *)

(** [Map<string, V>]: the entries in insertion order, one per key. *)
Module JSMap.

Definition t (V : Type) : Type := list (JSString * V).

Definition empty {V : Type} : t V := [].

Fixpoint get {V : Type} (k : JSString) (m : t V) : option V :=
  match m with
  | [] => None
  | (k', v) :: r => if JS.eqb k' k then Some v else get k r
  end.

(** [set] replaces the value of a key in place and puts a new key last. *)
Fixpoint set {V : Type} (k : JSString) (v : V) (m : t V) : t V :=
  match m with
  | [] => [(k, v)]
  | (k', v') :: r =>
      if JS.eqb k' k then (k', v) :: r else (k', v') :: set k v r
  end.

Definition keys {V : Type} (m : t V) : list JSString := map fst m.

(** [Array.from(m.values())] *)
Definition values {V : Type} (m : t V) : list V := map snd m.

End JSMap.

(** [JSON.stringify] of a string and of flat objects of strings. *)
Module JSON.

Definition hex_digit (n : N) : N :=
  if (n <? 10)%N then (48 + n)%N else (87 + n)%N.

(** [\uXXXX], the four digits in lower case. *)
Definition unicode_escape (c : N) : JSString :=
  [92%N; 117%N; hex_digit (c / 4096); hex_digit ((c / 256) mod 16);
   hex_digit ((c / 16) mod 16); hex_digit (c mod 16)].

Definition is_lead (c : N) : bool := ((55296 <=? c) && (c <=? 56319))%N.
Definition is_trail (c : N) : bool := ((56320 <=? c) && (c <=? 57343))%N.

Definition escape (c : N) : JSString :=
  if (c =? 8)%N then [92%N; 98%N]
  else if (c =? 9)%N then [92%N; 116%N]
  else if (c =? 10)%N then [92%N; 110%N]
  else if (c =? 12)%N then [92%N; 102%N]
  else if (c =? 13)%N then [92%N; 114%N]
  else if (c =? 34)%N then [92%N; 34%N]
  else if (c =? 92)%N then [92%N; 92%N]
  else if (c <? 32)%N then unicode_escape c
  else [c].

Fixpoint quote_body (s : JSString) : JSString :=
  match s with
  | [] => []
  | c :: r =>
      if is_lead c then
        match r with
        | d :: r' =>
            if is_trail d then c :: d :: quote_body r'
            else unicode_escape c ++ quote_body r
        | [] => unicode_escape c
        end
      else if is_trail c then unicode_escape c ++ quote_body r
      else escape c ++ quote_body r
  end.

(** [JSON.stringify(s)] for a string [s]. *)
Definition quote (s : JSString) : JSString := 34%N :: quote_body s ++ [34%N].

Fixpoint members (fields : list (string * JSString)) : JSString :=
  match fields with
  | [] => []
  | [(k, v)] => quote (JS.of_string k) ++ 58%N :: quote v
  | (k, v) :: rest =>
      quote (JS.of_string k) ++ 58%N :: quote v ++ 44%N :: members rest
  end.

(** [JSON.stringify({k1: v1, ...})] for string values, the keys in the order
    of the object literal. *)
Definition stringify_object (fields : list (string * JSString)) : JSString :=
  123%N :: members fields ++ [125%N].

End JSON.


(** ** The framework

    The example applications put a handler of their own before the checkout
    handler and let it write to [req.query].  Whether the checkout handler
    sees what was written depends on the version of Express, which the
    repository does not pin.  Version 4 sets [req.query] once for a
    request, as a property of the request object: the next handler reads
    the object that the first one wrote to.  Version 5 makes [req.query] a
    getter that parses the URL at every read: the write goes to the object
    of that one read and is lost, and the next handler reads the query of
    the URL. *)

Inductive Express : Type :=
| Express4
| Express5.

(** What the next handler reads as [req.query], the URL giving [original]
    and the first handler having made [written] of it. *)
Definition handed_over (express : Express)
    (original written : CheckoutQuery.t) : CheckoutQuery.t :=
  match express with
  | Express4 => written
  | Express5 => original
  end.

(** ** The TypeScript example application

    The order table of its [Database], its [OrderService], and the route
    [GET /checkout/:productId], which stores an order and hands the request
    over to the checkout handler. *)

Module TSApp.

Inductive OrderStatus : Type :=
| pending
| paid
| failed
| cancelled.

Section App.

(** Amounts are stored and never computed with. *)
Variable Number : Type.

Record Order : Type := mkOrder
  { id : JSString;
    productId : JSString;
    customerId : option JSString;
    customerName : JSString;
    customerPhone : JSString;
    customerEmail : option JSString;
    amount : option Number;
    status : OrderStatus;
    paymentId : option JSString;
    createdAt : N;
    updatedAt : option N }.

(** [Partial<Order>]: [None] for a property that the object does not have. *)
Record OrderUpdates : Type := mkOrderUpdates
  { new_id : option JSString;
    new_productId : option JSString;
    new_customerId : option (option JSString);
    new_customerName : option JSString;
    new_customerPhone : option JSString;
    new_customerEmail : option (option JSString);
    new_amount : option (option Number);
    new_status : option OrderStatus;
    new_paymentId : option (option JSString);
    new_createdAt : option N;
    new_updatedAt : option (option N) }.

Definition no_updates : OrderUpdates :=
  mkOrderUpdates None None None None None None None None None None None.

Definition override {A : Type} (old : A) (new : option A) : A :=
  match new with
  | Some a => a
  | None => old
  end.

(** [{ ...order, ...updates }] *)
Definition spread (order : Order) (updates : OrderUpdates) : Order :=
  mkOrder
    (override (id order) (new_id updates))
    (override (productId order) (new_productId updates))
    (override (customerId order) (new_customerId updates))
    (override (customerName order) (new_customerName updates))
    (override (customerPhone order) (new_customerPhone updates))
    (override (customerEmail order) (new_customerEmail updates))
    (override (amount order) (new_amount updates))
    (override (status order) (new_status updates))
    (override (paymentId order) (new_paymentId updates))
    (override (createdAt order) (new_createdAt updates))
    (override (updatedAt order) (new_updatedAt updates)).

Definition with_updatedAt (order : Order) (now : N) : Order :=
  mkOrder (id order) (productId order) (customerId order) (customerName order)
    (customerPhone order) (customerEmail order) (amount order) (status order)
    (paymentId order) (createdAt order) (Some now).

(** The [orders] table of the [Database]. *)
Definition Orders : Type := JSMap.t Order.

(** [Database.createOrder] *)
Definition db_createOrder (order : Order) (db : Orders) : Order * Orders :=
  (order, JSMap.set (id order) order db).

(** [Database.getOrder] *)
Definition db_getOrder (key : JSString) (db : Orders) : option Order :=
  JSMap.get key db.

(** [Database.updateOrder]; [now] is the clock reading of its [new Date()]. *)
Definition db_updateOrder (key : JSString) (updates : OrderUpdates) (now : N)
    (db : Orders) : option Order * Orders :=
  match JSMap.get key db with
  | None => (None, db)
  | Some order =>
      let updated := with_updatedAt (spread order updates) now in
      (Some updated, JSMap.set key updated db)
  end.

(** [Database.listOrders] *)
Definition db_listOrders (db : Orders) : list Order := JSMap.values db.

(** The argument of [OrderService.createOrder]. *)
Record OrderRequest : Type := mkOrderRequest
  { req_productId : JSString;
    req_customerName : JSString;
    req_customerPhone : JSString;
    req_customerEmail : option JSString }.

Definition order_id (now : N) : JSString := JS.of_string "ORD-" ++ JS.of_N now.

(** [OrderService.createOrder]; [t_id] is the reading of [Date.now()] and
    [t_created] the one of [new Date()]. *)
Definition createOrder (data : OrderRequest) (t_id t_created : N) (db : Orders)
  : Order * Orders :=
  db_createOrder
    (mkOrder (order_id t_id) (req_productId data) None (req_customerName data)
       (req_customerPhone data) (req_customerEmail data) None pending None
       t_created None)
    db.

(** [OrderService.markOrderAsPaid]; [t1] is the reading of the service's
    [new Date()], [t2] the one of the database's. *)
Definition markOrderAsPaid (orderId payment : JSString) (t1 t2 : N)
    (db : Orders) : option Order * Orders :=
  db_updateOrder orderId
    (mkOrderUpdates None None None None None None None (Some paid)
       (Some (Some payment)) None (Some (Some t1)))
    t2 db.

(** [OrderService.markOrderAsFailed] *)
Definition markOrderAsFailed (orderId : JSString) (t1 t2 : N) (db : Orders)
  : option Order * Orders :=
  db_updateOrder orderId
    (mkOrderUpdates None None None None None None None (Some failed)
       None None (Some (Some t1)))
    t2 db.

(** Every order is stored under its own id. *)
Definition keyed_by_id (db : Orders) : Prop :=
  forall key order, In (key, order) db -> id order = key.

Variables W JSError JSValue PaymentLink : Type.
Variable streamClient : StreamClient W JSError JSValue PaymentLink.
Variable builtins : Builtins W JSValue.

(** [process.env]: the API key and the port. *)
Record Env : Type := mkEnv
  { STREAM_API_KEY : JSString;
    PORT : option JSString }.

(** [const PORT = process.env.PORT || 3000], as it prints in a template. *)
Definition port (env : Env) : JSString :=
  JS.or_else (PORT env) (JS.of_string "3000").

Definition checkoutConfig (env : Env) : CheckoutConfig.t :=
  CheckoutConfig.make (STREAM_API_KEY env)
    (JS.of_string "http://localhost:" ++ port env ++ JS.of_string "/success")
    (Some (JS.of_string "http://localhost:" ++ port env
           ++ JS.of_string "/cancel"))
    None
    (Some (JS.of_string "TypeScript Store Checkout")).

Definition error_missing_fields : JSString :=
  JS.of_string "Missing required fields: customerName, customerPhone".

(** [JSON.stringify({ orderId: order.id, source: 'typescript-app' })] *)
Definition order_metadata (orderId : JSString) : JSString :=
  JSON.stringify_object
    [("orderId"%string, orderId);
     ("source"%string, JS.of_string "typescript-app")].

(** The query after [req.query.products = productId] and
    [req.query.metadata = JSON.stringify(...)]. *)
Definition written_query (productId : JSString) (q : CheckoutQuery.t)
    (order : Order) : CheckoutQuery.t :=
  CheckoutQuery.make (Some productId) (CheckoutQuery.name q)
    (CheckoutQuery.customerId q) (CheckoutQuery.customerEmail q)
    (CheckoutQuery.customerName q) (CheckoutQuery.customerPhone q)
    (Some (order_metadata (id order))).

(** The query that the checkout handler reads after the first handler. *)
Definition forwarded_query (express : Express) (productId : JSString)
    (q : CheckoutQuery.t) (order : Order) : CheckoutQuery.t :=
  handed_over express q (written_query productId q order).

(** The route [GET /checkout/:productId] under a version of Express: its
    own handler, then, through [next()], the checkout handler. *)
Definition checkout_route (express : Express) (fuel : nat) (env : Env)
    (productId : JSString)
    (q : CheckoutQuery.t) (t_id t_created : N) (w : W) (db : Orders)
  : Outcome JSError (Response JSError) * W * Orders * list (Event JSValue) :=
  if negb (JS.truthy (CheckoutQuery.customerName q))
     || negb (JS.truthy (CheckoutQuery.customerPhone q)) then
    (Ok (RespJson 400 error_missing_fields), w, db, [])
  else
    let (order, db1) :=
      createOrder
        (mkOrderRequest productId
           (JS.or_else (CheckoutQuery.customerName q) [])
           (JS.or_else (CheckoutQuery.customerPhone q) [])
           (CheckoutQuery.customerEmail q))
        t_id t_created db in
    match Checkout streamClient builtins fuel (checkoutConfig env)
            (forwarded_query express productId q order) w with
    | (o, w1, tr) => (o, w1, db1, tr)
    end.

(** The order that the route stores for a request with a name and a phone
    number. *)
Definition route_order (productId : JSString) (q : CheckoutQuery.t)
    (t_id t_created : N) : Order :=
  mkOrder (order_id t_id) productId None
    (JS.or_else (CheckoutQuery.customerName q) [])
    (JS.or_else (CheckoutQuery.customerPhone q) [])
    (CheckoutQuery.customerEmail q) None pending None t_created None.

End App.

Arguments route_order {Number}.
Arguments id {Number}.
Arguments productId {Number}.
Arguments customerId {Number}.
Arguments customerName {Number}.
Arguments customerPhone {Number}.
Arguments customerEmail {Number}.
Arguments amount {Number}.
Arguments status {Number}.
Arguments paymentId {Number}.
Arguments createdAt {Number}.
Arguments updatedAt {Number}.
Arguments db_createOrder {Number}.
Arguments db_getOrder {Number}.
Arguments db_updateOrder {Number}.
Arguments db_listOrders {Number}.
Arguments createOrder {Number}.
Arguments markOrderAsPaid {Number}.
Arguments markOrderAsFailed {Number}.
Arguments keyed_by_id {Number}.
Arguments written_query {Number}.
Arguments forwarded_query {Number}.
Arguments checkout_route {Number W JSError JSValue PaymentLink}.

End TSApp.

(** Runs of the example application against the small remote platform. *)
Module TSSample.

Definition env : TSApp.Env := TSApp.mkEnv (JS.of_string "sk_test") None.

Definition query : CheckoutQuery.t :=
  CheckoutQuery.make (Demo.s "ignored") None None None (Demo.s "Sara")
    (Demo.s "+966500000000") None.

Definition no_phone : CheckoutQuery.t :=
  CheckoutQuery.make None None None None (Demo.s "Sara") None None.

Definition route (express : Express) (q : CheckoutQuery.t)
    (db : TSApp.Orders Z) :=
  TSApp.checkout_route Demo.client Demo.builtins express 50 env
    (JS.of_string "prod_9") q 1700000000000 1700000000001
    (Demo.world [Demo.ahmad]) db.

Definition order : TSApp.Order Z :=
  TSApp.mkOrder Z (JS.of_string "ORD-1700000000000") (JS.of_string "prod_9")
    None (JS.of_string "Sara") (JS.of_string "+966500000000") None None
    TSApp.pending None 1700000000001 None.

End TSSample.

(** ** The comprehensive example application

    Its routes [GET /checkout/product/:productId] and [GET /checkout/cart],
    for query parameters that are strings or missing.  Either stores an
    object in [db.orders] and hands the request over to the checkout
    handler. *)

Module Comprehensive.

(** The objects that the two routes put in [db.orders]. *)
Inductive StoredOrder : Type :=
| ProductOrder (id productId : JSString)
    (customerName customerPhone customerEmail : option JSString)
    (status : JSString) (createdAt : N)
| CartOrder (id : JSString) (productIds : list JSString)
    (customerName customerPhone customerEmail : option JSString)
    (status : JSString) (createdAt : N).

Definition Orders : Type := JSMap.t StoredOrder.

Definition error_no_products : JSString :=
  JS.of_string "Products are required".

Definition config (env : TSApp.Env) (defaultName : string) : CheckoutConfig.t :=
  CheckoutConfig.make (TSApp.STREAM_API_KEY env)
    (JS.of_string "http://localhost:" ++ TSApp.port env
     ++ JS.of_string "/success")
    (Some (JS.of_string "http://localhost:" ++ TSApp.port env
           ++ JS.of_string "/cancel"))
    None
    (Some (JS.of_string defaultName)).

Definition product_order_id (now : N) : JSString :=
  JS.of_string "ORD-" ++ JS.of_N now.

Definition cart_order_id (now : N) : JSString :=
  JS.of_string "CART-" ++ JS.of_N now.

(** [JSON.stringify({ orderId, source: 'web' })] *)
Definition product_metadata (orderId : JSString) : JSString :=
  JSON.stringify_object
    [("orderId"%string, orderId); ("source"%string, JS.of_string "web")].

(** [JSON.stringify({ orderId, type: 'cart', source: 'web' })] *)
Definition cart_metadata (orderId : JSString) : JSString :=
  JSON.stringify_object
    [("orderId"%string, orderId); ("type"%string, JS.of_string "cart");
     ("source"%string, JS.of_string "web")].

Section Routes.

Variables W JSError JSValue PaymentLink : Type.
Variable streamClient : StreamClient W JSError JSValue PaymentLink.
Variable builtins : Builtins W JSValue.

(** The route [GET /checkout/product/:productId] under a version of
    Express; [t_id] is the reading of [Date.now()] and [t_created] the one
    of [new Date()]. *)
Definition product_route (express : Express) (fuel : nat) (env : TSApp.Env)
    (productId : JSString) (q : CheckoutQuery.t) (t_id t_created : N) (w : W) (db : Orders)
  : Outcome JSError (Response JSError) * W * Orders * list (Event JSValue) :=
  let orderId := product_order_id t_id in
  let db1 :=
    JSMap.set orderId
      (ProductOrder orderId productId (CheckoutQuery.customerName q)
         (CheckoutQuery.customerPhone q) (CheckoutQuery.customerEmail q)
         (JS.of_string "pending") t_created)
      db in
  let q1 :=
    CheckoutQuery.make (Some productId) (CheckoutQuery.name q)
      (CheckoutQuery.customerId q) (CheckoutQuery.customerEmail q)
      (CheckoutQuery.customerName q) (CheckoutQuery.customerPhone q)
      (Some (product_metadata orderId)) in
  match Checkout streamClient builtins fuel (config env "Product Checkout")
          (handed_over express q q1) w with
  | (o, w1, tr) => (o, w1, db1, tr)
  end.

(** The route [GET /checkout/cart] under a version of Express. *)
Definition cart_route (express : Express) (fuel : nat) (env : TSApp.Env)
    (q : CheckoutQuery.t)
    (t_id t_created : N) (w : W) (db : Orders)
  : Outcome JSError (Response JSError) * W * Orders * list (Event JSValue) :=
  match CheckoutQuery.products q with
  | Some (ch :: rest) =>
      let products := ch :: rest in
      let orderId := cart_order_id t_id in
      let db1 :=
        JSMap.set orderId
          (CartOrder orderId (JS.split JS.comma products)
             (CheckoutQuery.customerName q) (CheckoutQuery.customerPhone q)
             (CheckoutQuery.customerEmail q) (JS.of_string "pending")
             t_created)
          db in
      let q1 :=
        CheckoutQuery.make (CheckoutQuery.products q) (CheckoutQuery.name q)
          (CheckoutQuery.customerId q) (CheckoutQuery.customerEmail q)
          (CheckoutQuery.customerName q) (CheckoutQuery.customerPhone q)
          (Some (cart_metadata orderId)) in
      match Checkout streamClient builtins fuel
              (config env "Shopping Cart Checkout") (handed_over express q q1)
              w with
      | (o, w1, tr) => (o, w1, db1, tr)
      end
  | _ => (Ok (RespJson 400 error_no_products), w, db, [])
  end.

End Routes.

Arguments product_route {W JSError JSValue PaymentLink}.
Arguments cart_route {W JSError JSValue PaymentLink}.

End Comprehensive.

(** More runs against the small remote platform. *)
Module Sample2.

(** A platform that refuses to create consumers. *)
Definition no_signup_client
  : StreamClient Demo.World Demo.Error Demo.Value Demo.Link :=
  mkStreamClient Demo.demo_listConsumers
    (fun _ w => (inr (JS.of_string "creation refused"), w))
    Demo.demo_createPaymentLink (fun link => link).

Definition known_phone : CheckoutQuery.t :=
  Sample.query (Demo.s "prod_1") None None (Demo.s "Ahmad Ali")
    (Demo.s "+966501234567") None.

Definition unnamed_phone : CheckoutQuery.t :=
  Sample.query (Demo.s "prod_1") None None None (Demo.s "+966500000000") None.

Definition good_metadata : CheckoutQuery.t :=
  Sample.query (Demo.s " prod_1 , prod_2") None None None None (Demo.s "{}").

Definition search_for (term : string) : Event Demo.Value :=
  EvListConsumers (ListParams.make 1 100 (Demo.s term)).

Definition fetch_page (page : Z) : Event Demo.Value :=
  EvListConsumers (ListParams.make page 100 None).

Definition cart : CheckoutQuery.t :=
  Sample.query (Demo.s "prod_1, prod_2") None None None None None.

End Sample2.

(** * Facts *)

(** ** Computations *)

Section MonadFacts.

Context {W E Ev : Type}.

Lemma bind_ok {A B} (m : M W E Ev A) (f : A -> M W E Ev B) w a w1 t1 :
  m w = (Ok a, w1, t1) ->
  bind m f w = (fst (fst (f a w1)), snd (fst (f a w1)), t1 ++ snd (f a w1)).
Proof.
  intros H. unfold bind. rewrite H.
  destruct (f a w1) as [[o w2] t2]. reflexivity.
Qed.

Lemma bind_throw {A B} (m : M W E Ev A) (f : A -> M W E Ev B) w e w1 t1 :
  m w = (Throw e, w1, t1) -> bind m f w = (Throw e, w1, t1).
Proof. intros H. unfold bind. now rewrite H. Qed.

Lemma bind_out_of_fuel {A B} (m : M W E Ev A) (f : A -> M W E Ev B) w w1 t1 :
  m w = (OutOfFuel, w1, t1) -> bind m f w = (OutOfFuel, w1, t1).
Proof. intros H. unfold bind. now rewrite H. Qed.

Lemma bind_assoc {A B C} (m : M W E Ev A) (f : A -> M W E Ev B)
    (g : B -> M W E Ev C) w :
  bind (bind m f) g w = bind m (fun a => bind (f a) g) w.
Proof.
  unfold bind. destruct (m w) as [[[a | e |] w1] t1]; try reflexivity.
  destruct (f a w1) as [[[x | e |] w2] t2]; try reflexivity.
  destruct (g x w2) as [[o w3] t3]. now rewrite app_assoc.
Qed.

Lemma bind_ext {A B} (m : M W E Ev A) (f g : A -> M W E Ev B) w :
  (forall a w1, f a w1 = g a w1) -> bind m f w = bind m g w.
Proof.
  intros H. unfold bind. destruct (m w) as [[[a | e |] w1] t1]; try reflexivity.
  now rewrite H.
Qed.

Lemma bind_ext_l {A B} (m m' : M W E Ev A) (f : A -> M W E Ev B) w :
  m w = m' w -> bind m f w = bind m' f w.
Proof. intros H. unfold bind. now rewrite H. Qed.

Lemma emits_ret {A} (P : Ev -> Prop) (a : A) : emits P (@ret W E Ev A a).
Proof. intros w. constructor. Qed.

Lemma emits_read {A} (P : Ev -> Prop) (f : W -> A) : emits P (@read W E Ev A f).
Proof. intros w. constructor. Qed.

Lemma emits_out_of_fuel {A} (P : Ev -> Prop) : emits P (@out_of_fuel W E Ev A).
Proof. intros w. constructor. Qed.

Lemma emits_emit (P : Ev -> Prop) ev : P ev -> emits P (@emit W E Ev ev).
Proof. intros H w. simpl. auto. Qed.

Lemma emits_call {A} (P : Ev -> Prop) ev (f : W -> (A + E) * W) : P ev -> emits P (call ev f).
Proof.
  intros H w. unfold call.
  destruct (f w) as [[a | e] w1]; simpl; auto.
Qed.

Lemma emits_bind {A B} (P : Ev -> Prop) (m : M W E Ev A) (f : A -> M W E Ev B) :
  emits P m -> (forall a, emits P (f a)) -> emits P (bind m f).
Proof.
  intros Hm Hf w. unfold bind. specialize (Hm w).
  destruct (m w) as [[[a | e |] w1] t1]; simpl in *; auto.
  specialize (Hf a w1). destruct (f a w1) as [[o w2] t2]. simpl in *.
  apply Forall_app; auto.
Qed.

Lemma emits_try_catch {A} (P : Ev -> Prop) (m : M W E Ev A) (h : E -> M W E Ev A) :
  emits P m -> (forall e, emits P (h e)) -> emits P (try_catch m h).
Proof.
  intros Hm Hh w. unfold try_catch. specialize (Hm w).
  destruct (m w) as [[[a | e |] w1] t1]; simpl in *; auto.
  specialize (Hh e w1). destruct (h e w1) as [[o w2] t2]. simpl in *.
  apply Forall_app; auto.
Qed.

Lemma emits_while {S} (P : Ev -> Prop) fuel cond (body : S -> M W E Ev (LoopCtl S)) :
  (forall s, emits P (body s)) -> forall s, emits P (while fuel cond body s).
Proof.
  intros Hb. induction fuel as [| fuel IH]; intros s; simpl.
  - destruct (cond s); [apply emits_out_of_fuel | apply emits_ret].
  - destruct (cond s); [| apply emits_ret].
    apply emits_bind; [apply Hb |].
    intros [s' | s']; [apply IH | apply emits_ret].
Qed.

Lemma emits_weaken {A} (P Q : Ev -> Prop) (m : M W E Ev A) :
  (forall ev, P ev -> Q ev) -> emits P m -> emits Q m.
Proof.
  intros H Hm w. eapply Forall_impl; [exact H | apply Hm].
Qed.

End MonadFacts.

Ltac emits_step :=
  match goal with
  | |- emits _ (bind _ _) => apply emits_bind; [| intros ?]
  | |- emits _ (try_catch _ _) => apply emits_try_catch; [| intros ?]
  | |- emits _ (while _ _ _ _) => apply emits_while; intros ?
  | |- emits _ (call _ _) => apply emits_call
  | |- emits _ (emit _) => apply emits_emit
  | |- emits _ (ret _) => apply emits_ret
  | |- emits _ (read _) => apply emits_read
  | |- emits _ out_of_fuel => apply emits_out_of_fuel
  | |- emits _ (if ?c then _ else _) => destruct c
  | |- emits _ (match ?c with _ => _ end) => destruct c
  end.

(** ** Strings *)

Lemma split_not_nil sep s : JS.split sep s <> [].
Proof.
  destruct s as [| c r]; simpl; [discriminate |].
  destruct (JS.code_unit_eqb c sep); [discriminate |].
  destruct (JS.split sep r); discriminate.
Qed.

Lemma productIds_truthy p :
  JS.truthy (Some p) = true ->
  productIds (Some p) = map JS.trim (JS.split JS.comma p).
Proof. destruct p; [discriminate | reflexivity]. Qed.

Lemma productIds_falsy v : JS.truthy v = false -> productIds v = [].
Proof. destruct v as [[| c r] |]; [reflexivity | discriminate | reflexivity]. Qed.

Lemma productIds_length v :
  (List.length (productIds v) =? 0)%nat = negb (JS.truthy v).
Proof.
  destruct v as [[| c r] |]; try reflexivity.
  unfold productIds. rewrite length_map.
  pose proof (split_not_nil JS.comma (c :: r)) as H.
  destruct (JS.split JS.comma (c :: r)); [congruence | reflexivity].
Qed.

(** ** The handler, step by step *)

Section CheckoutFacts.

Context {W JSError JSValue PaymentLink : Type}.
Variable c : StreamClient W JSError JSValue PaymentLink.
Variable b : Builtins W JSValue.

Lemma paymentLinkName_run config name w :
  paymentLinkName (JSError := JSError) b config name w
  = (Ok (link_name b config name w), w, []).
Proof.
  unfold paymentLinkName, link_name.
  destruct name as [[| x r] |];
    destruct (CheckoutConfig.defaultName config) as [[| y r'] |]; reflexivity.
Qed.

(** The run of the handler in terms of the run of the consumer block. *)
Lemma Checkout_run fuel config q w :
  Checkout c b fuel config q w =
  if JS.truthy (CheckoutQuery.products q) then
    match resolveConsumer c fuel q w with
    | (Ok consumerId, w1, t1) =>
        let d := requestData b config q w consumerId in
        match createPaymentLink c d w1 with
        | (inl link, w2) => (Ok (respond c link), w2, t1 ++ [EvCreatePaymentLink d])
        | (inr e, w2) => (Ok (RespNext e), w2, t1 ++ [EvCreatePaymentLink d])
        end
    | (Throw e, w1, t1) => (Ok (RespNext e), w1, t1)
    | (OutOfFuel, w1, t1) => (OutOfFuel, w1, t1)
    end
  else (Ok (RespJson 400 error_no_product), w, []).
Proof.
  unfold Checkout, checkout_try, try_catch.
  rewrite productIds_length.
  destruct (JS.truthy (CheckoutQuery.products q)); simpl; [| reflexivity].
  unfold bind at 1. rewrite paymentLinkName_run.
  unfold bind at 1.
  destruct (resolveConsumer c fuel q w) as [[[cid | e |] w1] t1]; simpl;
    try (rewrite app_nil_r; reflexivity); try reflexivity.
  unfold bind, await_createPaymentLink, call, requestData.
  destruct (createPaymentLink c _ w1) as [[link | e] w2]; simpl.
  - unfold respond.
    destruct (getPaymentUrl c link) as [[| x r] |]; simpl;
      rewrite ?app_nil_r; reflexivity.
  - rewrite ?app_nil_r. reflexivity.
Qed.

(** The consumer block never asks for a payment link. *)
Lemma findConsumer_emits (P : Event JSValue -> Prop) fuel phone email :
  (forall p, P (EvListConsumers p)) -> (forall m, P (EvWarn m)) ->
  emits P (findConsumer c fuel phone email).
Proof.
  intros Hl Hw.
  unfold findConsumer, strategy1, strategy2, strategy3, page_body,
    await_listConsumers, console_warn.
  repeat (emits_step; auto).
Qed.

Lemma resolveConsumer_emits (P : Event JSValue -> Prop) fuel q :
  (forall p, P (EvListConsumers p)) -> (forall m, P (EvWarn m)) ->
  (forall d, P (EvCreateConsumer d)) ->
  emits P (resolveConsumer c fuel q).
Proof.
  intros Hl Hw Hc. unfold resolveConsumer.
  emits_step; [| apply emits_ret].
  emits_step; [apply findConsumer_emits; auto |].
  unfold useOrCreate, await_createConsumer.
  repeat (emits_step; auto).
Qed.

Lemma resolveConsumer_no_link fuel q w :
  Forall (fun ev => is_link ev = false) (snd (resolveConsumer c fuel q w)).
Proof.
  apply (resolveConsumer_emits (fun ev => is_link ev = false)); reflexivity.
Qed.

(** With a truthy [customerId] the consumer block does nothing. *)
Lemma resolveConsumer_supplied fuel q w :
  JS.truthy (CheckoutQuery.customerId q) = true ->
  resolveConsumer c fuel q w = (Ok (CheckoutQuery.customerId q), w, []).
Proof. intros H. unfold resolveConsumer. rewrite H. reflexivity. Qed.

(** Without phone and email the consumer block does nothing either. *)
Lemma resolveConsumer_no_contact fuel q w :
  JS.truthy (CheckoutQuery.customerPhone q) = false ->
  JS.truthy (CheckoutQuery.customerEmail q) = false ->
  resolveConsumer c fuel q w = (Ok (CheckoutQuery.customerId q), w, []).
Proof.
  intros H1 H2. unfold resolveConsumer. rewrite H1, H2, andb_false_r.
  reflexivity.
Qed.

(** Every payment-link request of a run is the one built from the query. *)
Lemma Checkout_link_events fuel config q w d :
  In (EvCreatePaymentLink d) (snd (Checkout c b fuel config q w)) ->
  JS.truthy (CheckoutQuery.products q) = true
  /\ exists consumerId, d = requestData b config q w consumerId.
Proof.
  rewrite Checkout_run.
  destruct (JS.truthy (CheckoutQuery.products q)); [| intros []].
  pose proof (resolveConsumer_no_link fuel q w) as Hn.
  destruct (resolveConsumer c fuel q w) as [[[cid | e |] w1] t1]; simpl in *.
  - intros H. split; [reflexivity |]. exists cid.
    assert (In (EvCreatePaymentLink d)
              (t1 ++ [EvCreatePaymentLink (requestData b config q w cid)])) as H'.
    { destruct (createPaymentLink c _ w1) as [[link | e] w2]; exact H. }
    apply in_app_or in H'. destruct H' as [H' | [H' | []]].
    + rewrite Forall_forall in Hn. specialize (Hn _ H'). discriminate.
    + congruence.
  - intros H. rewrite Forall_forall in Hn. specialize (Hn _ H). discriminate.
  - intros H. rewrite Forall_forall in Hn. specialize (Hn _ H). discriminate.
Qed.

Lemma requestData_items config q w consumerId :
  PaymentLinkData.items (requestData b config q w consumerId)
  = line_items (productIds (CheckoutQuery.products q)).
Proof.
  unfold requestData, attachMetadata, attachConsumer.
  destruct (JS.truthy (CheckoutQuery.metadata q));
    [destruct (parsedMetadata b _) |];
    destruct (JS.truthy consumerId); reflexivity.
Qed.

Lemma requestData_consumer config q w consumerId :
  PaymentLinkData.organization_consumer_id (requestData b config q w consumerId)
  = own_property consumerId.
Proof.
  unfold requestData, attachMetadata, attachConsumer, own_property.
  destruct (JS.truthy (CheckoutQuery.metadata q));
    [destruct (parsedMetadata b _) |];
    destruct (JS.truthy consumerId); reflexivity.
Qed.

Lemma requestData_metadata config q w consumerId :
  PaymentLinkData.metadata (requestData b config q w consumerId)
  = if JS.truthy (CheckoutQuery.metadata q)
    then parsedMetadata b (JS.or_else (CheckoutQuery.metadata q) [])
    else None.
Proof.
  unfold requestData, attachMetadata, attachConsumer.
  destruct (JS.truthy (CheckoutQuery.metadata q));
    [destruct (parsedMetadata b _) |];
    destruct (JS.truthy consumerId); reflexivity.
Qed.

End CheckoutFacts.

(** ** Product identifiers and line items *)

Section Products.

Context {W JSError JSValue PaymentLink : Type}.
Variable c : StreamClient W JSError JSValue PaymentLink.
Variable b : Builtins W JSValue.

(** C1 (amended): a checkout request whose [products] value is missing or
    is the empty string is answered with HTTP 400 and the body
    [{error: "At least one product ID is required"}]; no remote call is
    made and the remote state is untouched. *)
Theorem C1_missing_products_rejected fuel config q w :
  JS.truthy (CheckoutQuery.products q) = false ->
  Checkout c b fuel config q w = (Ok (RespJson 400 error_no_product), w, []).
Proof.
  intros H. rewrite Checkout_run, H. reflexivity.
Qed.

(** C5 (amended): for a non-empty [products] value, every payment-link
    request of the run carries one line item per comma-separated segment, in
    the original order, with the trimmed segment as product id and quantity
    1; a segment that is empty once trimmed keeps its entry.  When no
    trimmed segment is empty, this is the list of the non-empty segments. *)
Theorem C5_one_item_per_segment fuel config q w p d :
  CheckoutQuery.products q = Some p ->
  p <> [] ->
  In (EvCreatePaymentLink d) (snd (Checkout c b fuel config q w)) ->
  PaymentLinkData.items d = items_of_segments p
  /\ List.length (PaymentLinkData.items d)
     = List.length (JS.split JS.comma p)
  /\ (forallb non_empty (map JS.trim (JS.split JS.comma p)) = true ->
      PaymentLinkData.items d = items_of_non_empty_segments p).
Proof.
  intros Hp Hne Hin.
  apply Checkout_link_events in Hin. destruct Hin as [_ [cid ->]].
  rewrite requestData_items, Hp.
  assert (productIds (Some p) = map JS.trim (JS.split JS.comma p)) as ->.
  { destruct p; [congruence | reflexivity]. }
  unfold line_items, items_of_segments, items_of_non_empty_segments.
  rewrite map_map. repeat split.
  - now rewrite length_map.
  - intros Hall.
    assert (forall l, forallb non_empty l = true -> filter non_empty l = l) as Hf.
    { induction l as [| x l IH]; simpl; [reflexivity |].
      intros H. apply andb_prop in H. destruct H as [-> H].
      now rewrite IH. }
    rewrite Hf by exact Hall. now rewrite map_map.
Qed.

End Products.

(** C1, the claim as worded fails: a [products] value made of a space, a
    comma and a space is not rejected; the payment link is requested with two
    line items whose product id is empty. *)
Lemma C1_blank_products_accepted :
  blank (JS.of_string " , ") = true
  /\ CheckoutQuery.products Sample.blank_products = Some (JS.of_string " , ")
  /\ fst (fst (Demo.run 50 Sample.blank_products (Demo.world [])))
     <> Ok (RespJson 400 error_no_product)
  /\ exists d,
       snd (Demo.run 50 Sample.blank_products (Demo.world []))
       = [EvCreatePaymentLink d]
       /\ PaymentLinkData.items d = [Item.make [] 1; Item.make [] 1].
Proof.
  split; [reflexivity |]. split; [reflexivity |]. split.
  - vm_compute. discriminate.
  - eexists. split; vm_compute; reflexivity.
Qed.

Lemma C1_missing_products_rejected_witness :
  JS.truthy (CheckoutQuery.products Sample.no_products) = false
  /\ Demo.run 50 Sample.no_products (Demo.world [Demo.ahmad])
     = (Ok (RespJson 400 error_no_product), Demo.world [Demo.ahmad], []).
Proof.
  split; [reflexivity |].
  apply (C1_missing_products_rejected Demo.client Demo.builtins 50 Demo.config
           Sample.no_products (Demo.world [Demo.ahmad])).
  reflexivity.
Defined.

(** C5, the claim as worded fails: with [products] = "prod_1,, prod_2 " the
    request carries three line items, the middle one with an empty product
    id, where the non-empty segments are two. *)
Lemma C5_empty_segment_kept :
  exists d,
    snd (Demo.run 50 Sample.sparse_products (Demo.world []))
    = [EvCreatePaymentLink d]
    /\ PaymentLinkData.items d
       = [Item.make (JS.of_string "prod_1") 1; Item.make [] 1;
          Item.make (JS.of_string "prod_2") 1]
    /\ items_of_non_empty_segments (JS.of_string "prod_1,, prod_2 ")
       = [Item.make (JS.of_string "prod_1") 1;
          Item.make (JS.of_string "prod_2") 1]
    /\ PaymentLinkData.items d
       <> items_of_non_empty_segments (JS.of_string "prod_1,, prod_2 ").
Proof.
  eexists. split; [vm_compute; reflexivity |].
  split; [vm_compute; reflexivity |].
  split; [vm_compute; reflexivity |].
  vm_compute. discriminate.
Qed.

Lemma C5_one_item_per_segment_witness :
  exists d,
    In (EvCreatePaymentLink d)
       (snd (Demo.run 50 Sample.sparse_products (Demo.world [])))
    /\ PaymentLinkData.items d
       = items_of_segments (JS.of_string "prod_1,, prod_2 ")
    /\ List.length (PaymentLinkData.items d) = 3%nat.
Proof.
  eexists. split; [vm_compute; left; reflexivity |].
  match goal with
  | |- PaymentLinkData.items ?d = _ /\ _ =>
      destruct (C5_one_item_per_segment Demo.client Demo.builtins 50
                  Demo.config Sample.sparse_products (Demo.world [])
                  (JS.of_string "prod_1,, prod_2 ") d)
        as [H1 [H2 _]]
  end.
  - reflexivity.
  - discriminate.
  - vm_compute. left. reflexivity.
  - split; [exact H1 | rewrite H2; reflexivity].
Defined.

(** ** The consumer id and the metadata of the request *)

Section Attachments.

Context {W JSError JSValue PaymentLink : Type}.
Variable c : StreamClient W JSError JSValue PaymentLink.
Variable b : Builtins W JSValue.

Lemma own_property_truthy v : JS.truthy v = true -> own_property v = v.
Proof. intros H. unfold own_property. now rewrite H. Qed.



(** C6: when a non-empty [customerId] is supplied, the run holds no listing
    call (neither search nor page fetch) and no consumer creation, whatever
    the other customer fields are; every payment-link request of the run
    carries that id, and when [products] passes validation the run is that
    single request. *)
Theorem C6_customerId_short_circuit fuel config q w cid :
  CheckoutQuery.customerId q = Some cid ->
  cid <> [] ->
  let tr := snd (Checkout c b fuel config q w) in
  (forall ev, In ev tr -> is_list ev = false /\ is_create ev = false)
  /\ (forall d, In (EvCreatePaymentLink d) tr ->
        PaymentLinkData.organization_consumer_id d = Some cid)
  /\ (JS.truthy (CheckoutQuery.products q) = true ->
      exists d, tr = [EvCreatePaymentLink d]
                /\ PaymentLinkData.organization_consumer_id d = Some cid).
Proof.
  intros Hid Hne tr.
  assert (JS.truthy (CheckoutQuery.customerId q) = true) as Ht.
  { rewrite Hid. destruct cid; [congruence | reflexivity]. }
  assert (tr = if JS.truthy (CheckoutQuery.products q)
               then [EvCreatePaymentLink
                       (requestData b config q w (CheckoutQuery.customerId q))]
               else []) as Htr.
  { unfold tr. rewrite Checkout_run, (resolveConsumer_supplied c fuel q w Ht).
    destruct (JS.truthy (CheckoutQuery.products q)); [| reflexivity].
    cbv zeta. destruct (createPaymentLink c _ w) as [[link | e] w2]; reflexivity. }
  assert (PaymentLinkData.organization_consumer_id
            (requestData b config q w (CheckoutQuery.customerId q)) = Some cid)
    as Hd.
  { rewrite requestData_consumer, own_property_truthy by exact Ht. exact Hid. }
  rewrite Htr. destruct (JS.truthy (CheckoutQuery.products q)).
  - split; [| split].
    + intros ev [<- | []]. split; reflexivity.
    + intros d [Heq | []]. inversion Heq. subst d. exact Hd.
    + intros _. eexists. split; [reflexivity | exact Hd].
  - split; [| split].
    + intros ev [].
    + intros d [].
    + discriminate.
Qed.


Lemma parsedMetadata_malformed m :
  decodeURIComponent b m = None
  \/ (exists s, decodeURIComponent b m = Some s /\ JSON_parse b s = None) ->
  parsedMetadata b m = None.
Proof.
  unfold parsedMetadata. intros [-> | [s [-> ->]]]; reflexivity.
Qed.

(** C8: when the [metadata] value cannot be URL-decoded, or decodes to a
    text that is not JSON, the request is handled exactly as the same
    request without [metadata] (same response, same remote state, same
    calls), and every payment-link request of the run has no metadata.
    The request does not fail for it: when the products are given and the
    consumer block returns, the payment-link request is submitted, right
    after the calls of that block, built as for the request without
    [metadata], and the answer is the one that this submission gives. *)
Theorem C8_malformed_metadata_omitted fuel config q w m :
  CheckoutQuery.metadata q = Some m ->
  decodeURIComponent b m = None
  \/ (exists s, decodeURIComponent b m = Some s /\ JSON_parse b s = None) ->
  Checkout c b fuel config q w
  = Checkout c b fuel config (with_metadata q None) w
  /\ (forall d,
        In (EvCreatePaymentLink d) (snd (Checkout c b fuel config q w)) ->
        PaymentLinkData.metadata d = None)
  /\ (JS.truthy (CheckoutQuery.products q) = true ->
      forall consumerId w1 t1,
        resolveConsumer c fuel q w = (Ok consumerId, w1, t1) ->
        exists d,
          snd (Checkout c b fuel config q w) = t1 ++ [EvCreatePaymentLink d]
          /\ PaymentLinkData.metadata d = None
          /\ d = requestData b config (with_metadata q None) w consumerId
          /\ fst (Checkout c b fuel config q w)
             = match createPaymentLink c d w1 with
               | (inl link, w2) => (Ok (respond c link), w2)
               | (inr e, w2) => (Ok (RespNext e), w2)
               end).
Proof.
  intros Hm Hbad. apply parsedMetadata_malformed in Hbad.
  assert (forall w0 cid, requestData b config q w0 cid
                         = requestData b config (with_metadata q None) w0 cid)
    as Hd.
  { intros w0 cid. unfold requestData, attachMetadata. simpl. rewrite Hm.
    destruct m as [| x r]; [reflexivity |]. simpl. now rewrite Hbad. }
  assert (forall cid, PaymentLinkData.metadata (requestData b config q w cid)
                      = None) as Hnone.
  { intros cid. rewrite requestData_metadata, Hm.
    destruct m as [| x r]; [reflexivity |]. simpl. exact Hbad. }
  split; [| split].
  - rewrite !Checkout_run.
    change (CheckoutQuery.products (with_metadata q None))
      with (CheckoutQuery.products q).
    change (resolveConsumer c fuel (with_metadata q None) w)
      with (resolveConsumer c fuel q w).
    destruct (JS.truthy (CheckoutQuery.products q)); [| reflexivity].
    destruct (resolveConsumer c fuel q w) as [[[a | e |] w1] t1]; try reflexivity.
    cbv zeta. rewrite Hd. reflexivity.
  - intros d Hin. apply Checkout_link_events in Hin.
    destruct Hin as [_ [cid ->]]. apply Hnone.
  - intros Hprod cid w1 t1 Hres.
    exists (requestData b config q w cid).
    rewrite Checkout_run, Hprod, Hres. cbv zeta.
    split; [| split; [apply Hnone | split; [apply Hd |]]];
      destruct (createPaymentLink c _ w1) as [[link | e] w2]; reflexivity.
Qed.

End Attachments.

Lemma C6_customerId_short_circuit_witness :
  CheckoutQuery.customerId Sample.with_id = Some (JS.of_string "cons_123")
  /\ exists d,
       snd (Demo.run 50 Sample.with_id (Demo.world [Demo.ahmad]))
       = [EvCreatePaymentLink d]
       /\ PaymentLinkData.organization_consumer_id d
          = Some (JS.of_string "cons_123").
Proof.
  split; [reflexivity |].
  apply (C6_customerId_short_circuit Demo.client Demo.builtins 50 Demo.config
           Sample.with_id (Demo.world [Demo.ahmad]) (JS.of_string "cons_123"));
    [reflexivity | discriminate | reflexivity].
Defined.

Lemma C8_malformed_metadata_omitted_witness :
  decodeURIComponent Demo.builtins (JS.of_string "%7B%22orderId%22%3A%2") = None
  /\ Demo.run 50 Sample.bad_metadata (Demo.world [])
     = Demo.run 50 (with_metadata Sample.bad_metadata None) (Demo.world [])
  /\ exists d,
       snd (Demo.run 50 Sample.bad_metadata (Demo.world []))
       = [EvCreatePaymentLink d]
       /\ PaymentLinkData.metadata d = None.
Proof.
  split; [reflexivity |].
  destruct (C8_malformed_metadata_omitted Demo.client Demo.builtins 50
              Demo.config Sample.bad_metadata (Demo.world [])
              (JS.of_string "%7B%22orderId%22%3A%2"))
    as [Hsame [_ Hsent]].
  - reflexivity.
  - left. reflexivity.
  - split; [exact Hsame |].
    destruct (Hsent eq_refl None (Demo.world []) [] eq_refl)
      as [d [Htr [Hnone _]]].
    exists d. split; [exact Htr | exact Hnone].
Defined.

(** ** Creating a consumer *)

Section Creation.

Context {W JSError JSValue PaymentLink : Type}.
Variable c : StreamClient W JSError JSValue PaymentLink.
Variable b : Builtins W JSValue.

Lemma count_app (p : Event JSValue -> bool) t1 t2 :
  count p (t1 ++ t2) = (count p t1 + count p t2)%nat.
Proof. unfold count. now rewrite filter_app, length_app. Qed.

Lemma count_none (p : Event JSValue -> bool) t :
  Forall (fun ev => p ev = false) t -> count p t = 0%nat.
Proof.
  unfold count. induction 1 as [| ev t Hev _ IH]; simpl; [reflexivity |].
  now rewrite Hev.
Qed.

Lemma findConsumer_no_create fuel phone email w :
  count is_create (snd (findConsumer c fuel phone email w)) = 0%nat.
Proof.
  apply count_none.
  apply (findConsumer_emits c (fun ev => is_create ev = false)); reflexivity.
Qed.

(** The consumer block when the three strategies found nobody and a name was
    given: one creation, whose id is the result. *)
Lemma resolveConsumer_creates fuel q w w1 t1 :
  JS.truthy (CheckoutQuery.customerId q) = false ->
  JS.truthy (CheckoutQuery.customerPhone q)
  || JS.truthy (CheckoutQuery.customerEmail q) = true ->
  JS.truthy (CheckoutQuery.customerName q) = true ->
  findConsumer c fuel (CheckoutQuery.customerPhone q)
    (CheckoutQuery.customerEmail q) w = (Ok None, w1, t1) ->
  let data := consumerData (CheckoutQuery.customerName q)
                (CheckoutQuery.customerPhone q) (CheckoutQuery.customerEmail q) in
  resolveConsumer c fuel q w =
  match createConsumer c data w1 with
  | (inl newConsumer, w2) =>
      (Ok (Some (Consumer.id newConsumer)), w2, t1 ++ [EvCreateConsumer data])
  | (inr e, w2) => (Throw e, w2, t1 ++ [EvCreateConsumer data])
  end.
Proof.
  intros Hid Hcontact Hname Hfind data.
  unfold resolveConsumer. rewrite Hid, Hcontact. simpl.
  unfold bind at 1. rewrite Hfind. unfold useOrCreate. rewrite Hname.
  unfold bind, await_createConsumer, call. fold data.
  destruct (createConsumer c data w1) as [[nc | e] w2]; simpl;
    rewrite ?app_nil_r; reflexivity.
Qed.


End Creation.



(** ** The email search *)

Section EmailSearch.

Context {W JSError JSValue PaymentLink : Type}.
Variable c : StreamClient W JSError JSValue PaymentLink.

(** What Strategy 2 accepts: the consumer it returns passed the test
    [c.email === customerEmail || c.phone_number === customerPhone]. *)
Lemma strategy2_accepts phone email w found w1 t :
  strategy2 c phone email None w = (Ok (Some found), w1, t) ->
  strict_eq (Consumer.email found) email = true
  \/ strict_eq (Consumer.phone_number found) phone = true.
Proof.
  unfold strategy2. simpl.
  destruct (JS.truthy email); [| discriminate].
  unfold try_catch, bind, await_listConsumers, call, console_warn, emit, ret.
  destruct (listConsumers c _ w) as [[r | e] w2]; simpl; [| discriminate].
  intros H. inversion H as [[Hf Hw Ht]]. clear H Hw Ht.
  destruct (ListResponse.data r) as [l |]; simpl in Hf; [| discriminate].
  apply find_some in Hf. destruct Hf as [_ Hf].
  now apply orb_prop in Hf.
Qed.

(** The test compares with the phone number of the request even when the
    request has none: a consumer without phone number then passes it. *)
Lemma strict_eq_both_missing : strict_eq FUndefined None = true.
Proof. reflexivity. Qed.

(** The page scan, for its part, compares a field only when the request
    has it. *)
Lemma page_match_needs_contact email (x : Consumer.t) :
  Consumer.email x = FUndefined -> page_match None email x = false.
Proof.
  intros H. unfold page_match. rewrite H. simpl.
  destruct email as [[| y r] |]; reflexivity.
Qed.

End EmailSearch.

(** C2, the handler at the failing request: no [customerId], no
    [customerPhone], an email; the search hands back a consumer that has
    neither email nor phone number.  Its email is not the one asked for and
    it has no phone number, yet Strategy 2 accepts it, and its id goes into
    the payment-link request.  The page scan rejects the same consumer. *)
Lemma C2_fieldless_consumer_accepted :
  let q := Sample.by_email in
  let w := Demo.world [Demo.walk_in] in
  CheckoutQuery.customerId q = None
  /\ CheckoutQuery.customerPhone q = None
  /\ Consumer.email Demo.walk_in = FUndefined
  /\ Consumer.phone_number Demo.walk_in = FUndefined
  /\ strategy1 Demo.client (CheckoutQuery.customerPhone q) w = (Ok None, w, [])
  /\ strategy2 Demo.client (CheckoutQuery.customerPhone q)
       (CheckoutQuery.customerEmail q) None w
     = (Ok (Some Demo.walk_in), w,
        [EvListConsumers (ListParams.make 1 100 (CheckoutQuery.customerEmail q))])
  /\ page_match (CheckoutQuery.customerPhone q) (CheckoutQuery.customerEmail q)
       Demo.walk_in = false
  /\ exists d,
       Demo.run 50 q w
       = (Ok (respond Demo.client (Some (JS.of_string "https://pay.example/Store Checkout"))),
          w,
          [EvListConsumers (ListParams.make 1 100 (CheckoutQuery.customerEmail q));
           EvCreatePaymentLink d])
       /\ PaymentLinkData.organization_consumer_id d
          = Some (Consumer.id Demo.walk_in).
Proof.
  cbv zeta. repeat (split; [vm_compute; reflexivity |]).
  eexists. split; vm_compute; reflexivity.
Qed.

(** ** Searches that fail *)

Section FailedSearch.

Context {W JSError JSValue PaymentLink : Type}.
Variable c : StreamClient W JSError JSValue PaymentLink.
Variable b : Builtins W JSValue.

Lemma remote_calls_app (t1 t2 : list (Event JSValue)) :
  remote_calls (t1 ++ t2) = remote_calls t1 ++ remote_calls t2.
Proof. apply filter_app. Qed.

Lemma same_behaviour_refl {A} (r : Outcome JSError A * W * list (Event JSValue)) :
  same_behaviour r r.
Proof. repeat split. Qed.

Lemma same_behaviour_bind {A B}
    (m m' : M W JSError (Event JSValue) A)
    (f f' : A -> M W JSError (Event JSValue) B) w :
  same_behaviour (m w) (m' w) ->
  (forall a w1, same_behaviour (f a w1) (f' a w1)) ->
  same_behaviour (bind m f w) (bind m' f' w).
Proof.
  unfold same_behaviour, bind. intros [Ho [Hw Ht]] Hf.
  destruct (m w) as [[o w1] t1], (m' w) as [[o' w1'] t1']. simpl in *.
  subst o' w1'. destruct o as [a | e |]; simpl; auto.
  specialize (Hf a w1).
  destruct (f a w1) as [[o2 w2] t2], (f' a w1) as [[o2' w2'] t2']. simpl in *.
  destruct Hf as [-> [-> Ht2]]. rewrite !remote_calls_app, Ht, Ht2. auto.
Qed.

(** A search that throws in Strategy 1 leaves a warning and no match. *)
Lemma strategy1_search_fails phone w e w1 :
  JS.truthy phone = true ->
  listConsumers c (ListParams.make 1 100 phone) w = (inr e, w1) ->
  strategy1 c phone w
  = (Ok None, w1,
     [EvListConsumers (ListParams.make 1 100 phone);
      EvWarn (JS.of_string "Search by phone failed, trying email search")]).
Proof.
  intros Ht Hl. unfold strategy1. rewrite Ht.
  unfold try_catch, bind, await_listConsumers, call. rewrite Hl. reflexivity.
Qed.

(** A search that throws in Strategy 2 leaves a warning and no match. *)
Lemma strategy2_search_fails phone email w e w1 :
  JS.truthy email = true ->
  listConsumers c (ListParams.make 1 100 email) w = (inr e, w1) ->
  strategy2 c phone email None w
  = (Ok None, w1,
     [EvListConsumers (ListParams.make 1 100 email);
      EvWarn (JS.of_string "Search by email failed, falling back to pagination")]).
Proof.
  intros Ht Hl. unfold strategy2. rewrite Ht. simpl.
  unfold try_catch, bind, await_listConsumers, call. rewrite Hl. reflexivity.
Qed.

(** A page fetch that throws ends the scan with that exception. *)
Lemma strategy3_fetch_fails fuel phone email w e w1 :
  JS.truthy phone || JS.truthy email = true ->
  listConsumers c (ListParams.make 1 pageSize None) w = (inr e, w1) ->
  strategy3 c (S fuel) phone email None w
  = (Throw e, w1, [EvListConsumers (ListParams.make 1 pageSize None)]).
Proof.
  intros Ht Hl. unfold strategy3. rewrite Ht. simpl.
  unfold bind, page_body, bind, await_listConsumers, call. simpl.
  rewrite Hl. reflexivity.
Qed.

Lemma strategy1_quiet phone w :
  same_behaviour (strategy1 c phone w) (strategy1 (quiet c) phone w).
Proof.
  unfold strategy1. destruct phone as [[| x r] |]; simpl;
    try apply same_behaviour_refl.
  unfold try_catch, bind, await_listConsumers, call. simpl.
  destruct (listConsumers c _ w) as [[res | e] w1]; simpl;
    repeat split.
Qed.

Lemma strategy2_quiet phone email existing w :
  same_behaviour (strategy2 c phone email existing w)
                 (strategy2 (quiet c) phone email existing w).
Proof.
  unfold strategy2. destruct existing as [found |]; simpl;
    try apply same_behaviour_refl.
  destruct email as [[| x r] |]; simpl; try apply same_behaviour_refl.
  unfold try_catch, bind, await_listConsumers, call. simpl.
  destruct (listConsumers c _ w) as [[res | e] w1]; simpl;
    repeat split.
Qed.

Lemma resolveConsumer_quiet fuel q w :
  same_behaviour (resolveConsumer c fuel q w) (resolveConsumer (quiet c) fuel q w).
Proof.
  unfold resolveConsumer.
  destruct (negb (JS.truthy (CheckoutQuery.customerId q))
            && (JS.truthy (CheckoutQuery.customerPhone q)
                || JS.truthy (CheckoutQuery.customerEmail q)));
    [| apply same_behaviour_refl].
  apply same_behaviour_bind; [| intros; apply same_behaviour_refl].
  unfold findConsumer.
  apply same_behaviour_bind; [apply strategy1_quiet |]. intros c1 w1.
  apply same_behaviour_bind; [apply strategy2_quiet |]. intros c2 w2.
  apply same_behaviour_refl.
Qed.

(** The first page fetch of the scan throws: the exception leaves the
    handler through [next], and no payment link is requested. *)
Lemma Checkout_fetch_fails fuel config q w e w1 t1 w2 :
  JS.truthy (CheckoutQuery.products q) = true ->
  JS.truthy (CheckoutQuery.customerId q) = false ->
  JS.truthy (CheckoutQuery.customerPhone q)
  || JS.truthy (CheckoutQuery.customerEmail q) = true ->
  (c1 <- strategy1 c (CheckoutQuery.customerPhone q) ;;
   strategy2 c (CheckoutQuery.customerPhone q) (CheckoutQuery.customerEmail q) c1)
    w = (Ok None, w1, t1) ->
  listConsumers c (ListParams.make 1 pageSize None) w1 = (inr e, w2) ->
  Checkout c b (S fuel) config q w
  = (Ok (RespNext e), w2,
     t1 ++ [EvListConsumers (ListParams.make 1 pageSize None)]).
Proof.
  intros Hprod Hid Hcontact Hsearch Hfetch.
  rewrite Checkout_run, Hprod. unfold resolveConsumer.
  rewrite Hid, Hcontact. cbn [negb andb].
  assert (findConsumer c (S fuel) (CheckoutQuery.customerPhone q)
            (CheckoutQuery.customerEmail q) w
          = (Throw e, w2,
             t1 ++ [EvListConsumers (ListParams.make 1 pageSize None)])) as Hfind.
  { assert (findConsumer c (S fuel) (CheckoutQuery.customerPhone q)
              (CheckoutQuery.customerEmail q) w
            = bind (c1 <- strategy1 c (CheckoutQuery.customerPhone q) ;;
                    strategy2 c (CheckoutQuery.customerPhone q)
                      (CheckoutQuery.customerEmail q) c1)
                (strategy3 c (S fuel) (CheckoutQuery.customerPhone q)
                   (CheckoutQuery.customerEmail q)) w) as ->
      by (symmetry; apply bind_assoc).
    rewrite (bind_ok _ _ w None w1 t1 Hsearch).
    now rewrite (strategy3_fetch_fails fuel _ _ w1 e w2 Hcontact Hfetch). }
  now rewrite (bind_throw _ _ w e w2 _ Hfind).
Qed.

(** C3 (amended): a search call (a listing call that carries a search
    term, as Strategy 1 and Strategy 2 make) that throws is handled as a
    search that found nothing.  The response, the remote state and the
    remote calls of a run are those of the same run against the client
    whose failing searches hand back an empty result instead; that client
    never throws on a search and is the given one on every page fetch.
    The page fetches are not recovered: when the two searches found nobody
    and the first page fetch throws, the exception goes to [next]. *)
Theorem C3_failed_search_is_no_match fuel config q w :
  same_behaviour (Checkout c b fuel config q w)
                 (Checkout (quiet c) b fuel config q w)
  /\ (forall term page size w0 e w1,
        listConsumers (quiet c) (ListParams.make page size (Some term)) w0
        <> (inr e, w1))
  /\ (forall page size w0,
        listConsumers (quiet c) (ListParams.make page size None) w0
        = listConsumers c (ListParams.make page size None) w0)
  /\ (forall e w1 t1 w2,
        (0 < fuel)%nat ->
        JS.truthy (CheckoutQuery.products q) = true ->
        JS.truthy (CheckoutQuery.customerId q) = false ->
        JS.truthy (CheckoutQuery.customerPhone q)
        || JS.truthy (CheckoutQuery.customerEmail q) = true ->
        (c1 <- strategy1 c (CheckoutQuery.customerPhone q) ;;
         strategy2 c (CheckoutQuery.customerPhone q)
           (CheckoutQuery.customerEmail q) c1) w = (Ok None, w1, t1) ->
        listConsumers c (ListParams.make 1 pageSize None) w1 = (inr e, w2) ->
        Checkout c b fuel config q w
        = (Ok (RespNext e), w2,
           t1 ++ [EvListConsumers (ListParams.make 1 pageSize None)])).
Proof.
  split; [| split; [| split]].
  4: { intros e w1 t1 w2 Hfuel. destruct fuel as [| fuel']; [lia |].
       apply Checkout_fetch_fails. }
  - rewrite !Checkout_run.
    destruct (JS.truthy (CheckoutQuery.products q));
      [| apply same_behaviour_refl].
    pose proof (resolveConsumer_quiet fuel q w) as H.
    destruct (resolveConsumer c fuel q w) as [[o w1] t1],
             (resolveConsumer (quiet c) fuel q w) as [[o' w1'] t1'].
    destruct H as [Ho [Hw Ht]]. simpl in Ho, Hw, Ht. subst o' w1'.
    destruct o as [cid | e |]; try (repeat split; assumption).
    cbv zeta.
    change (createPaymentLink (quiet c)) with (createPaymentLink c).
    change (respond (quiet c)) with (respond c).
    destruct (createPaymentLink c _ w1) as [[link | e] w2];
      (split; [reflexivity | split; [reflexivity |]]); simpl;
      rewrite !remote_calls_app, Ht; reflexivity.
  - intros term page size w0 e w1. simpl.
    destruct (listConsumers c _ w0) as [[res | e0] w2]; discriminate.
  - reflexivity.
Qed.

End FailedSearch.

(** C3, the claim as worded fails: when the listing call of the page scan
    throws, nothing recovers it.  The phone search fails and is recovered
    with a warning; the first page fetch fails and its exception goes to
    [next]; no payment link is requested. *)
Lemma C3_failed_page_fetch_fails_checkout :
  Demo.run 50 Sample.by_phone Sample.all_down
  = (Ok (RespNext (JS.of_string "listing unavailable")),
     Sample.all_down,
     [EvListConsumers (ListParams.make 1 100 (Demo.s "+966500000000"));
      EvWarn (JS.of_string "Search by phone failed, trying email search");
      EvListConsumers (ListParams.make 1 100 None)])
  /\ fst (Demo.demo_listConsumers (ListParams.make 1 100 None) Sample.all_down)
     = inr (JS.of_string "listing unavailable").
Proof. split; vm_compute; reflexivity. Qed.

Lemma C3_failed_search_is_no_match_witness :
  same_behaviour (Demo.run 50 Sample.by_phone Sample.all_down)
    (Checkout (quiet Demo.client) Demo.builtins 50 Demo.config Sample.by_phone
       Sample.all_down)
  /\ Checkout (quiet Demo.client) Demo.builtins 50 Demo.config Sample.by_phone
       Sample.all_down
     = (Ok (RespNext (JS.of_string "listing unavailable")), Sample.all_down,
        [EvListConsumers (ListParams.make 1 100 (Demo.s "+966500000000"));
         EvListConsumers (ListParams.make 1 100 None)]).
Proof.
  split; [| vm_compute; reflexivity].
  apply (C3_failed_search_is_no_match Demo.client Demo.builtins 50 Demo.config
           Sample.by_phone Sample.all_down).
Defined.

(** ** The page scan *)

Section PageScan.

Context {W JSError JSValue PaymentLink : Type}.
Variable c : StreamClient W JSError JSValue PaymentLink.
Variable b : Builtins W JSValue.

Lemma within_ret {A} (a : A) : within 0 (ret a : M W JSError (Event JSValue) A).
Proof. intros w. split; [discriminate | apply Nat.le_refl]. Qed.

Lemma within_call {A} ev (f : W -> (A + JSError) * W) :
  is_page_fetch ev = false -> within 0 (call ev f : M W JSError (Event JSValue) A).
Proof.
  intros H w. unfold call.
  destruct (f w) as [[a | e] w1]; simpl; unfold count; simpl; rewrite H;
    split; try discriminate; apply Nat.le_refl.
Qed.

Lemma within_emit ev : is_page_fetch ev = false -> within 0 (emit ev : M W JSError (Event JSValue) unit).
Proof.
  intros H w. unfold count. simpl. rewrite H.
  split; [discriminate | apply Nat.le_refl].
Qed.

Lemma within_bind {A B} n k (m : M W JSError (Event JSValue) A) (f : A -> M W JSError (Event JSValue) B) :
  within n m -> (forall a, within k (f a)) -> within (n + k) (bind m f).
Proof.
  intros Hm Hf w. unfold bind. destruct (Hm w) as [Ho Hn].
  destruct (m w) as [[[a | e |] w1] t1]; simpl in *.
  - destruct (Hf a w1) as [Ho2 Hk].
    destruct (f a w1) as [[o2 w2] t2]. simpl in *.
    split; [exact Ho2 | rewrite count_app; lia].
  - split; [discriminate | lia].
  - congruence.
Qed.

Lemma within_try_catch {A} n k (m : M W JSError (Event JSValue) A) (h : JSError -> M W JSError (Event JSValue) A) :
  within n m -> (forall e, within k (h e)) -> within (n + k) (try_catch m h).
Proof.
  intros Hm Hh w. unfold try_catch. destruct (Hm w) as [Ho Hn].
  destruct (m w) as [[[a | e |] w1] t1]; simpl in *.
  - split; [discriminate | lia].
  - destruct (Hh e w1) as [Ho2 Hk].
    destruct (h e w1) as [[o2 w2] t2]. simpl in *.
    split; [exact Ho2 | rewrite count_app; lia].
  - congruence.
Qed.

Lemma strategy1_within phone : within 0 (strategy1 c phone).
Proof.
  unfold strategy1. destruct phone as [[| x r] |]; simpl;
    try apply within_ret.
  apply (within_try_catch 0 0).
  - apply (within_bind 0 0); [apply within_call; reflexivity |].
    intros a. apply within_ret.
  - intros e. apply (within_bind 0 0); [apply within_emit; reflexivity |].
    intros a. apply within_ret.
Qed.

Lemma strategy2_within phone email existing :
  within 0 (strategy2 c phone email existing).
Proof.
  unfold strategy2. destruct existing as [found |]; simpl;
    try apply within_ret.
  destruct email as [[| x r] |]; simpl; try apply within_ret.
  apply (within_try_catch 0 0).
  - apply (within_bind 0 0); [apply within_call; reflexivity |].
    intros a. apply within_ret.
  - intros e. apply (within_bind 0 0); [apply within_emit; reflexivity |].
    intros a. apply within_ret.
Qed.

Lemma useOrCreate_within q consumerId existing :
  within 0 (useOrCreate c q consumerId existing).
Proof.
  unfold useOrCreate. destruct existing as [found |]; [apply within_ret |].
  destruct (JS.truthy (CheckoutQuery.customerName q)); [| apply within_ret].
  apply (within_bind 0 0); [apply within_call; reflexivity |].
  intros a. apply within_ret.
Qed.

(** One turn of the loop. *)
Lemma while_step {S} fuel cond (body : S -> M W JSError (Event JSValue) (LoopCtl S)) s w :
  while (Datatypes.S fuel) cond body s w =
  if cond s then
    match body s w with
    | (Ok (Break s'), w1, t1) => (Ok s', w1, t1)
    | (Ok (Continue s'), w1, t1) =>
        (fst (fst (while fuel cond body s' w1)),
         snd (fst (while fuel cond body s' w1)),
         t1 ++ snd (while fuel cond body s' w1))
    | (Throw e, w1, t1) => (Throw e, w1, t1)
    | (OutOfFuel, w1, t1) => (OutOfFuel, w1, t1)
    end
  else (Ok s, w, []).
Proof.
  simpl. destruct (cond s); [| reflexivity].
  unfold bind. destruct (body s w) as [[[[s' | s'] | e |] w1] t1]; try reflexivity.
  - destruct (while fuel cond body s' w1) as [[o w2] t2]. reflexivity.
  - simpl. now rewrite app_nil_r.
Qed.

(** One page: the fetch, the test of the page, the page count. *)
Lemma page_body_run phone email st w :
  page_body c phone email st w =
  let ev := EvListConsumers (ListParams.make (currentPage st) pageSize None) in
  match listConsumers c (ListParams.make (currentPage st) pageSize None) w with
  | (inl consumers, w1) =>
      match find_in (page_match phone email) (ListResponse.data consumers) with
      | Some x =>
          (Ok (Break (mkPageLoop (currentPage st) (hasMorePages st) (Some x))),
           w1, [ev])
      | None =>
          if (currentPage st + 1 >? 50)%Z then
            (Ok (Break (mkPageLoop (currentPage st + 1) (has_next consumers) None)),
             w1,
             [ev; EvWarn (JS.of_string
                   "Reached maximum page limit (50), stopping consumer search")])
          else
            (Ok (Continue (mkPageLoop (currentPage st + 1) (has_next consumers) None)),
             w1, [ev])
      end
  | (inr e, w1) => (Throw e, w1, [ev])
  end.
Proof.
  unfold page_body, bind, await_listConsumers, call. cbv zeta.
  destruct (listConsumers c _ w) as [[consumers | e] w1]; [| reflexivity].
  destruct (find_in _ _) as [x |]; simpl; [reflexivity |].
  destruct (currentPage st + 1 >? 50)%Z; reflexivity.
Qed.

(** From page [currentPage] on, the loop needs no more than
    [51 - currentPage] turns, one page fetch each. *)
Lemma while_pages_within phone email fuel :
  forall st,
    (1 <= currentPage st <= 50)%Z ->
    (Z.to_nat (51 - currentPage st) <= fuel)%nat ->
    within (Z.to_nat (51 - currentPage st))
      (while fuel page_cond (page_body c phone email) st).
Proof.
  induction fuel as [| fuel IH]; intros st Hcp Hfuel w; [lia |].
  assert (Z.to_nat (51 - currentPage st)
          = S (Z.to_nat (51 - (currentPage st + 1)))) as Hn by lia.
  rewrite Hn in *. clear Hn.
  rewrite while_step. destruct (page_cond st).
  2: { split; [discriminate | apply Nat.le_0_l]. }
  rewrite page_body_run. cbv zeta.
  destruct (listConsumers c _ w) as [[consumers | e] w1].
  2: { split; [discriminate | apply le_n_S, Nat.le_0_l]. }
  destruct (find_in _ _) as [x |].
  { split; [discriminate | apply le_n_S, Nat.le_0_l]. }
  destruct (currentPage st + 1 >? 50)%Z eqn:Hcap.
  { split; [discriminate | apply le_n_S, Nat.le_0_l]. }
  rewrite Z.gtb_ltb in Hcap. apply Z.ltb_ge in Hcap.
  set (st' := mkPageLoop (currentPage st + 1) (has_next consumers) None).
  assert (1 <= currentPage st' <= 50)%Z as Hcp'
    by (unfold st'; cbn [currentPage]; lia).
  assert (Z.to_nat (51 - currentPage st') <= fuel)%nat as Hfuel'
    by (unfold st'; cbn [currentPage]; lia).
  destruct (IH st' Hcp' Hfuel' w1) as [Ho Hk].
  split; [exact Ho |].
  cbn [snd]. rewrite count_app.
  apply (Nat.add_le_mono 1 1 _ _ (Nat.le_refl 1)). exact Hk.
Qed.

Lemma strategy3_within fuel phone email existing :
  (50 <= fuel)%nat -> within 50 (strategy3 c fuel phone email existing).
Proof.
  intros Hfuel. unfold strategy3.
  destruct (negb (is_some existing) && (JS.truthy phone || JS.truthy email)).
  2: { intros w. split; [discriminate | unfold count; simpl; lia]. }
  apply (within_bind 50 0); [| intros a; apply within_ret].
  apply (while_pages_within phone email fuel (mkPageLoop 1 true existing));
    simpl; lia.
Qed.

Lemma resolveConsumer_within fuel q :
  (50 <= fuel)%nat -> within 50 (resolveConsumer c fuel q).
Proof.
  intros Hfuel. unfold resolveConsumer.
  match goal with |- within _ (if ?g then _ else _) => destruct g end.
  2: { intros w. split; [discriminate | unfold count; simpl; lia]. }
  apply (within_bind 50 0); [| intros a; apply useOrCreate_within].
  unfold findConsumer.
  apply (within_bind 0 50); [apply strategy1_within |]. intros c1.
  apply (within_bind 0 50); [apply strategy2_within |]. intros c2.
  apply strategy3_within. exact Hfuel.
Qed.

End PageScan.

Section PaginationCap.

Context {W JSError JSValue PaymentLink : Type}.
Variable c : StreamClient W JSError JSValue PaymentLink.
Variable b : Builtins W JSValue.

Lemma pages_fetched_app (t1 t2 : list (Event JSValue)) :
  pages_fetched (t1 ++ t2) = pages_fetched t1 ++ pages_fetched t2.
Proof. apply flat_map_app. Qed.

(** More fuel than the pages left changes nothing. *)
Lemma while_pages_fuel phone email fuel :
  forall st w,
    (1 <= currentPage st <= 50)%Z ->
    (Z.to_nat (51 - currentPage st) <= fuel)%nat ->
    while fuel page_cond (page_body c phone email) st w
    = while (Z.to_nat (51 - currentPage st)) page_cond
        (page_body c phone email) st w.
Proof.
  induction fuel as [| fuel IH]; intros st w Hcp Hfuel; [lia |].
  assert (Z.to_nat (51 - currentPage st)
          = S (Z.to_nat (51 - (currentPage st + 1)))) as Hn by lia.
  rewrite Hn in *. clear Hn.
  rewrite !while_step. destruct (page_cond st); [| reflexivity].
  rewrite page_body_run. cbv zeta.
  destruct (listConsumers c _ w) as [[consumers | e] w1]; [| reflexivity].
  destruct (find_in _ _) as [x |]; [reflexivity |].
  destruct (currentPage st + 1 >? 50)%Z eqn:Hcap; [reflexivity |].
  rewrite Z.gtb_ltb in Hcap. apply Z.ltb_ge in Hcap.
  set (st' := mkPageLoop (currentPage st + 1) (has_next consumers) None).
  assert (1 <= currentPage st' <= 50)%Z as Hcp'
    by (unfold st'; cbn [currentPage]; lia).
  assert (Z.to_nat (51 - currentPage st') <= fuel)%nat as Hfuel'
    by (unfold st'; cbn [currentPage]; lia).
  rewrite (IH st' w1 Hcp' Hfuel'). reflexivity.
Qed.

Lemma strategy3_fuel fuel phone email existing w :
  (50 <= fuel)%nat ->
  strategy3 c fuel phone email existing w = strategy3 c 50 phone email existing w.
Proof.
  intros Hfuel. unfold strategy3.
  destruct (negb (is_some existing) && (JS.truthy phone || JS.truthy email));
    [| reflexivity].
  unfold bind.
  rewrite (while_pages_fuel phone email fuel (mkPageLoop 1 true existing) w);
    [reflexivity | simpl; lia | simpl; lia].
Qed.

Lemma resolveConsumer_fuel fuel q w :
  (50 <= fuel)%nat -> resolveConsumer c fuel q w = resolveConsumer c 50 q w.
Proof.
  intros Hfuel. unfold resolveConsumer.
  match goal with |- (if ?g then _ else _) _ = _ => destruct g end;
    [| reflexivity].
  apply bind_ext_l. unfold findConsumer.
  apply bind_ext. intros c1 w1. apply bind_ext. intros c2 w2.
  apply strategy3_fuel. exact Hfuel.
Qed.

(** The scan of a directory without end: the pages from [currentPage] to
    50 are fetched, one after the other, and the loop is left by the cap. *)
Lemma while_unbounded phone email fuel :
  unbounded c phone email ->
  forall st w,
    (1 <= currentPage st <= 50)%Z ->
    hasMorePages st = true ->
    found st = None ->
    (Z.to_nat (51 - currentPage st) <= fuel)%nat ->
    exists w2 t,
      while fuel page_cond (page_body c phone email) st w
      = (Ok (mkPageLoop 51 true None), w2, t)
      /\ pages_fetched t
         = pages_from (currentPage st) (Z.to_nat (51 - currentPage st))
      /\ count is_page_fetch t = Z.to_nat (51 - currentPage st).
Proof.
  intros Hun. induction fuel as [| fuel IH]; intros st w Hcp Hmore Hfound Hfuel;
    [lia |].
  assert (Z.to_nat (51 - currentPage st)
          = S (Z.to_nat (51 - (currentPage st + 1)))) as Hn by lia.
  rewrite Hn in *. clear Hn.
  rewrite while_step. unfold page_cond at 1. rewrite Hmore, Hfound.
  cbn [is_some negb andb].
  rewrite page_body_run. cbv zeta.
  destruct (Hun (currentPage st) w) as [r [w1 [Hl [Hnone Hnext]]]].
  rewrite Hl, Hnone, Hnext.
  destruct (currentPage st + 1 >? 50)%Z eqn:Hcap.
  - rewrite Z.gtb_ltb in Hcap. apply Z.ltb_lt in Hcap.
    assert (currentPage st = 50)%Z as H50 by lia.
    exists w1. eexists. split; [rewrite H50; reflexivity |].
    rewrite H50. split; reflexivity.
  - rewrite Z.gtb_ltb in Hcap. apply Z.ltb_ge in Hcap.
    set (st' := mkPageLoop (currentPage st + 1) true None).
    assert (1 <= currentPage st' <= 50)%Z as Hcp'
      by (unfold st'; cbn [currentPage]; lia).
    assert (Z.to_nat (51 - currentPage st') <= fuel)%nat as Hfuel'
      by (unfold st'; cbn [currentPage]; lia).
    destruct (IH st' w1 Hcp' eq_refl eq_refl Hfuel') as [w2 [t [Hw [Hp Hc]]]].
    exists w2. eexists. rewrite Hw. cbn [fst snd]. split; [reflexivity |].
    rewrite pages_fetched_app, count_app, Hp, Hc. split; reflexivity.
Qed.

(** C4: with fuel for 50 turns the handler never runs out of fuel, and more
    fuel changes nothing; a run fetches at most 50 pages.  Against a
    directory without end, a request whose two searches found nobody
    fetches the pages 1 to 50 and no other; the scan then ends without a
    consumer and without an exception, and the handler goes on to the
    creation of a consumer or to a checkout without consumer. *)
Theorem C4_pagination_bounded fuel config q w :
  (50 <= fuel)%nat ->
  let phone := CheckoutQuery.customerPhone q in
  let email := CheckoutQuery.customerEmail q in
  fst (fst (Checkout c b fuel config q w)) <> OutOfFuel
  /\ Checkout c b fuel config q w = Checkout c b 50 config q w
  /\ (count is_page_fetch (snd (Checkout c b fuel config q w)) <= 50)%nat
  /\ (unbounded c phone email ->
      JS.truthy (CheckoutQuery.customerId q) = false ->
      JS.truthy phone || JS.truthy email = true ->
      forall w1 t1,
        (c1 <- strategy1 c phone ;; strategy2 c phone email c1) w
        = (Ok None, w1, t1) ->
        exists w2 t2,
          pages_fetched t2 = pages_from 1 50
          /\ count is_page_fetch t2 = 50%nat
          /\ findConsumer c fuel phone email w = (Ok None, w2, t1 ++ t2)
          /\ resolveConsumer c fuel q w
             = (fst (fst (useOrCreate c q (CheckoutQuery.customerId q) None w2)),
                snd (fst (useOrCreate c q (CheckoutQuery.customerId q) None w2)),
                (t1 ++ t2)
                ++ snd (useOrCreate c q (CheckoutQuery.customerId q) None w2))).
Proof.
  intros Hfuel phone email.
  assert (fst (fst (Checkout c b fuel config q w)) <> OutOfFuel
          /\ (count is_page_fetch (snd (Checkout c b fuel config q w)) <= 50)%nat)
    as [Ho Hcount].
  { rewrite Checkout_run.
    destruct (JS.truthy (CheckoutQuery.products q)).
    2: { split; [discriminate | apply Nat.le_0_l]. }
    destruct (resolveConsumer_within c fuel q Hfuel w) as [Ho Hn].
    destruct (resolveConsumer c fuel q w) as [[[cid | e |] w1] t1];
      cbn [fst snd] in *; try (split; [discriminate | exact Hn]);
      [| congruence].
    cbv zeta. destruct (createPaymentLink c _ w1) as [[link | e] w2];
      cbn [fst snd]; (split; [discriminate |]);
      rewrite count_app; change (count is_page_fetch [_]) with 0%nat;
      rewrite Nat.add_0_r; exact Hn. }
  split; [exact Ho |]. split; [| split; [exact Hcount |]].
  { rewrite !Checkout_run, (resolveConsumer_fuel fuel q w Hfuel). reflexivity. }
  intros Hun Hid Hcontact w1 t1 Hsearch.
  destruct (while_unbounded phone email fuel Hun (mkPageLoop 1 true None) w1)
    as [w2 [t2 [Hw [Hp Hc]]]];
    [cbn [currentPage]; lia | reflexivity | reflexivity
    | cbn [currentPage]; lia |].
  exists w2, t2. split; [exact Hp |]. split; [exact Hc |].
  assert (findConsumer c fuel phone email w = (Ok None, w2, t1 ++ t2)) as Hfind.
  { assert (findConsumer c fuel phone email w
            = bind (c1 <- strategy1 c phone ;; strategy2 c phone email c1)
                (strategy3 c fuel phone email) w) as ->
      by (symmetry; apply bind_assoc).
    rewrite (bind_ok _ _ w None w1 t1 Hsearch).
    unfold strategy3. rewrite Hcontact. cbn [is_some negb andb].
    unfold bind at 1 2 3. rewrite Hw. cbn [fst snd found ret].
    now rewrite app_nil_r. }
  split; [exact Hfind |].
  unfold resolveConsumer. rewrite Hid. fold phone email. rewrite Hcontact.
  cbn [negb andb].
  apply (bind_ok _ _ w None w2 (t1 ++ t2) Hfind).
Qed.

End PaginationCap.

Lemma Demo_endless_unbounded :
  unbounded Demo.endless_client (Demo.s "+966500000000") None.
Proof.
  intros page w. do 2 eexists.
  split; [reflexivity |]. split; reflexivity.
Qed.

Lemma C4_pagination_bounded_witness :
  let q := Sample.by_phone in
  let w := Demo.world [Demo.ahmad] in
  (50 <= 50)%nat
  /\ fst (fst (Checkout Demo.endless_client Demo.builtins 50 Demo.config q w))
     <> OutOfFuel
  /\ (count is_page_fetch
        (snd (Checkout Demo.endless_client Demo.builtins 50 Demo.config q w))
      <= 50)%nat
  /\ exists w2 t2,
       pages_fetched t2 = pages_from 1 50
       /\ count is_page_fetch t2 = 50%nat
       /\ findConsumer Demo.endless_client 50 (CheckoutQuery.customerPhone q)
            (CheckoutQuery.customerEmail q) w
          = (Ok None, w2,
             [EvListConsumers
                (ListParams.make 1 100 (CheckoutQuery.customerPhone q))]
             ++ t2).
Proof.
  intros q w.
  destruct (C4_pagination_bounded Demo.endless_client Demo.builtins 50
              Demo.config q w (Nat.le_refl 50))
    as [Ho [_ [Hcount Hscan]]].
  split; [apply Nat.le_refl |]. split; [exact Ho |]. split; [exact Hcount |].
  destruct (Hscan Demo_endless_unbounded eq_refl eq_refl w
              [EvListConsumers
                 (ListParams.make 1 100 (CheckoutQuery.customerPhone q))])
    as [w2 [t2 [Hp [Hc [Hfind _]]]]]; [vm_compute; reflexivity |].
  exists w2, t2. split; [exact Hp |]. split; [exact Hc |]. exact Hfind.
Defined.

(** ** Webhook dispatch *)

Section WebhookFacts.

Context {W JSError Payload : Type}.
Variable hmac_sha256 : JSString -> JSString -> JSString.

Lemma event_callback_completed :
  Webhook.event_callback (JS.of_string "payment.completed")
  = Some Webhook.onPaymentCompleted.
Proof. reflexivity. Qed.

Lemma event_callback_paid :
  Webhook.event_callback (JS.of_string "payment.paid")
  = Some Webhook.onPaymentCompleted.
Proof. reflexivity. Qed.

(** C9: a delivery that passes the signature check and whose event is named
    [payment.completed] or [payment.paid] is routed to [onPaymentCompleted]:
    when that callback is configured, the delivery invokes it first, with the
    payload of the delivery, and it is the only event callback invoked, once;
    the rest of the run is at most the catch-all, and without catch-all the
    run leaves the world as the callback left it. *)
Theorem C9_completed_and_paid_same_callback
    (config : Webhook.WebhookConfig W JSError Payload)
    (req : Webhook.WebhookRequest Payload) (cb : Webhook.Callback W JSError Payload)
    (w : W) :
  Webhook.verified hmac_sha256 config req = true ->
  Webhook.callbacks config Webhook.onPaymentCompleted = Some cb ->
  Webhook.type req = JS.of_string "payment.completed"
  \/ Webhook.type req = JS.of_string "payment.paid" ->
  let tr := snd (Webhook.Webhooks hmac_sha256 config req w) in
  Webhook.event_callback (Webhook.type req) = Some Webhook.onPaymentCompleted
  /\ filter Webhook.is_specific tr
     = [Webhook.Specific Webhook.onPaymentCompleted (Webhook.data req)]
  /\ (exists rest,
        tr = Webhook.Specific Webhook.onPaymentCompleted (Webhook.data req) :: rest
        /\ (rest = []
            \/ rest = [Webhook.CatchAll (Webhook.type req) (Webhook.data req)]))
  /\ (Webhook.onWebhook config = None ->
      snd (fst (Webhook.Webhooks hmac_sha256 config req w))
      = snd (cb (Webhook.data req) w)).
Proof.
  intros Hver Hcb Htype tr.
  assert (Webhook.event_callback (Webhook.type req)
          = Some Webhook.onPaymentCompleted) as Hev.
  { destruct Htype as [-> | ->]; reflexivity. }
  split; [exact Hev |].
  assert (exists rest,
             tr = Webhook.Specific Webhook.onPaymentCompleted (Webhook.data req)
                  :: rest
             /\ (rest = []
                 \/ rest = [Webhook.CatchAll (Webhook.type req) (Webhook.data req)]))
    as Hshape.
  { unfold tr, Webhook.Webhooks. rewrite Hver.
    unfold Webhook.dispatch. rewrite Hev, Hcb.
    unfold Webhook.settle, try_catch, bind, call, ret.
    destruct (cb (Webhook.data req) w) as [[[] | e] w1];
      destruct (Webhook.onWebhook config) as [all |]; cbn;
      try (eexists; split; [reflexivity | left; reflexivity]);
      destruct (all (Webhook.type req) (Webhook.data req) w1) as [[[] | e'] w2];
      cbn; eexists; (split; [reflexivity | right; reflexivity]). }
  split; [| split; [exact Hshape |]].
  - destruct Hshape as [rest [-> [-> | ->]]]; reflexivity.
  - intros Hnone. unfold Webhook.Webhooks. rewrite Hver.
    unfold Webhook.dispatch. rewrite Hev, Hcb, Hnone.
    unfold Webhook.settle, try_catch, bind, call, ret.
    destruct (cb (Webhook.data req) w) as [[[] | e] w1]; reflexivity.
Qed.

End WebhookFacts.

Lemma C9_completed_and_paid_same_callback_witness :
  Webhook.Webhooks Sample.no_hmac Sample.webhook_config
    (Sample.delivery "payment.completed") []
  = (Ok Webhook.Ack, [JS.of_string "pay_1"],
     [Webhook.Specific Webhook.onPaymentCompleted (JS.of_string "pay_1")])
  /\ Webhook.Webhooks Sample.no_hmac Sample.webhook_config
       (Sample.delivery "payment.paid") []
     = (Ok Webhook.Ack, [JS.of_string "pay_1"],
        [Webhook.Specific Webhook.onPaymentCompleted (JS.of_string "pay_1")])
  /\ filter Webhook.is_specific
       (snd (Webhook.Webhooks Sample.no_hmac Sample.webhook_config
               (Sample.delivery "payment.completed") []))
     = [Webhook.Specific Webhook.onPaymentCompleted (JS.of_string "pay_1")]
  /\ filter Webhook.is_specific
       (snd (Webhook.Webhooks Sample.no_hmac Sample.webhook_config
               (Sample.delivery "payment.paid") []))
     = [Webhook.Specific Webhook.onPaymentCompleted (JS.of_string "pay_1")].
Proof.
  split; [reflexivity |]. split; [reflexivity |]. split.
  - apply (C9_completed_and_paid_same_callback Sample.no_hmac
             Sample.webhook_config (Sample.delivery "payment.completed")
             Sample.record_payment []);
      [reflexivity | reflexivity | left; reflexivity].
  - apply (C9_completed_and_paid_same_callback Sample.no_hmac
             Sample.webhook_config (Sample.delivery "payment.paid")
             Sample.record_payment []);
      [reflexivity | reflexivity | right; reflexivity].
Defined.

(** * Further facts about the checkout handler *)

(** ** Strings *)

Lemma eqb_eq a b : JS.eqb a b = true <-> a = b.
Proof.
  revert b. induction a as [| x a IH]; intros [| y b]; simpl;
    try (split; [discriminate | discriminate]); [split; reflexivity |].
  unfold JS.code_unit_eqb. rewrite andb_true_iff, N.eqb_eq, IH.
  split; [intros [-> ->]; reflexivity | intros H; inversion H; auto].
Qed.

Lemma strict_eq_string f p :
  strict_eq f (Some p) = true -> f = FString p.
Proof.
  destruct f as [| | s]; simpl; try discriminate.
  intros H. apply eqb_eq in H. now subst.
Qed.

Lemma split_no_sep sep s seg :
  In seg (JS.split sep s) -> ~ In sep seg.
Proof.
  revert seg. induction s as [| c r IH]; simpl; intros seg.
  - intros [<- | []]. intros [].
  - unfold JS.code_unit_eqb. destruct (N.eqb_spec c sep) as [-> | Hne].
    + intros [<- | H]; [intros [] | now apply IH].
    + pose proof (split_not_nil sep r) as Hnil.
      destruct (JS.split sep r) as [| seg0 segs]; [congruence |].
      intros [<- | H].
      * intros [Heq | Hin]; [congruence |].
        apply (IH seg0); [left; reflexivity | exact Hin].
      * apply IH. right. exact H.
Qed.

Lemma split_join sep s : join sep (JS.split sep s) = s.
Proof.
  induction s as [| c r IH]; [reflexivity |]. simpl.
  pose proof (split_not_nil sep r) as Hnil.
  unfold JS.code_unit_eqb. destruct (N.eqb_spec c sep) as [-> | Hne].
  - destruct (JS.split sep r) as [| seg0 segs] eqn:E; [congruence |].
    simpl in *. now rewrite IH.
  - destruct (JS.split sep r) as [| seg0 segs] eqn:E; [congruence |].
    destruct segs as [| seg1 segs]; simpl in *; now rewrite <- IH.
Qed.

Lemma trim_start_incl s x : In x (JS.trim_start s) -> In x s.
Proof.
  induction s as [| c r IH]; simpl; [auto |].
  destruct (JS.is_white_space c); [intros H; right; auto | auto].
Qed.

Lemma trim_incl s x : In x (JS.trim s) -> In x s.
Proof.
  unfold JS.trim, JS.trim_end. intros H.
  apply in_rev in H. apply trim_start_incl in H. apply in_rev in H.
  now apply trim_start_incl.
Qed.

Lemma trim_start_head s c r :
  JS.trim_start s = c :: r -> JS.is_white_space c = false.
Proof.
  induction s as [| x s IH]; simpl; [discriminate |].
  destruct (JS.is_white_space x) eqn:E; [exact IH |].
  intros H. inversion H. now subst.
Qed.

Lemma trim_start_fixed s :
  match s with
  | [] => True
  | c :: _ => JS.is_white_space c = false
  end ->
  JS.trim_start s = s.
Proof. destruct s as [| c r]; simpl; [reflexivity | now intros ->]. Qed.

(** Dropping white space at the front keeps the last character. *)
Lemma trim_start_last s d :
  JS.trim_start s <> [] -> last (JS.trim_start s) d = last s d.
Proof.
  induction s as [| x s IH]; simpl; [congruence |].
  destruct (JS.is_white_space x); [| reflexivity].
  intros H. rewrite (IH H).
  destruct s as [| y s]; [simpl in H; congruence | reflexivity].
Qed.

Lemma last_rev_head (s : JSString) c r d : rev s = c :: r -> last s d = c.
Proof.
  intros H. apply (f_equal (@rev N)) in H. rewrite rev_involutive in H.
  subst s. simpl. apply last_last.
Qed.

Lemma trim_trimmed s : trimmed (JS.trim s).
Proof.
  unfold trimmed. destruct (JS.trim s) as [| c r] eqn:E; [exact I |].
  unfold JS.trim, JS.trim_end in E.
  remember (JS.trim_start s) as a eqn:Ea.
  remember (JS.trim_start (rev a)) as b eqn:Eb.
  destruct b as [| x t]; [simpl in E; discriminate |].
  symmetry in Eb.
  pose proof (trim_start_head _ _ _ Eb) as Hx.
  assert (last (c :: r) c = x) as Hlast.
  { apply last_rev_head with (r := t). rewrite <- E. now rewrite rev_involutive. }
  split; [| now rewrite Hlast].
  assert (last (x :: t) c = c) as H1 by (apply (last_rev_head _ c r c E)).
  assert (last (rev a) c = c) as H2.
  { rewrite <- (trim_start_last (rev a) c) by (rewrite Eb; discriminate).
    rewrite Eb. exact H1. }
  destruct a as [| y u]; [simpl in Eb; discriminate |].
  simpl in H2. rewrite last_last in H2. subst y.
  symmetry in Ea. apply (trim_start_head s c u Ea).
Qed.

(** ** What the handler answers *)

Section Answers.

Context {W JSError JSValue PaymentLink : Type}.
Variable c : StreamClient W JSError JSValue PaymentLink.
Variable b : Builtins W JSValue.

Lemma respond_cases (link : PaymentLink) :
  (exists url, url <> [] /\ getPaymentUrl c link = Some url
               /\ respond c link = RespRedirect url)
  \/ (JS.truthy (getPaymentUrl c link) = false
      /\ respond c link = RespJson 500 error_no_url).
Proof.
  unfold respond. destruct (getPaymentUrl c link) as [[| x r] |].
  - right. split; reflexivity.
  - left. exists (x :: r). repeat split. discriminate.
  - right. split; reflexivity.
Qed.

(** X1: no exception leaves the handler, and the answer is the HTTP 400 with
    [At least one product ID is required] exactly when [products] is missing
    or empty. *)
Theorem Checkout_always_answers fuel config q w :
  (50 <= fuel)%nat ->
  exists resp,
    fst (fst (Checkout c b fuel config q w)) = Ok resp
    /\ (resp = RespJson 400 error_no_product
        <-> JS.truthy (CheckoutQuery.products q) = false).
Proof.
  intros Hfuel. rewrite Checkout_run.
  destruct (JS.truthy (CheckoutQuery.products q)).
  2: { eexists. split; [reflexivity |]. split; reflexivity. }
  destruct (resolveConsumer_within c fuel q Hfuel w) as [Ho _].
  destruct (resolveConsumer c fuel q w) as [[[cid | e |] w1] t1];
    cbn [fst snd] in *.
  - cbv zeta. destruct (createPaymentLink c _ w1) as [[link | e] w2].
    + eexists. split; [reflexivity |].
      split; [| discriminate].
      destruct (respond_cases link) as [[url [_ [_ ->]]] | [_ ->]];
        discriminate.
    + eexists. split; [reflexivity |]. split; discriminate.
  - eexists. split; [reflexivity |]. split; discriminate.
  - congruence.
Qed.

(** X2: a run asks for at most one payment link, and nothing follows that
    call; without it the answer is the HTTP 400 or goes to [next]; a
    redirect always goes to a non-empty URL. *)
Theorem Checkout_link_is_last fuel config q w :
  let r := Checkout c b fuel config q w in
  exists t,
    Forall (fun ev => is_link ev = false) t
    /\ ((snd r = t
         /\ forall resp, fst (fst r) = Ok resp ->
              resp = RespJson 400 error_no_product
              \/ exists e, resp = RespNext e)
        \/ (exists d, snd r = t ++ [EvCreatePaymentLink d]))
    /\ forall url, fst (fst r) = Ok (RespRedirect url) -> url <> [].
Proof.
  cbv zeta. rewrite Checkout_run.
  destruct (JS.truthy (CheckoutQuery.products q)).
  2: { exists []. split; [constructor |]. split.
       - left. split; [reflexivity |]. intros resp H. left.
         inversion H. reflexivity.
       - intros url H. discriminate H. }
  pose proof (resolveConsumer_no_link c fuel q w) as Hn.
  destruct (resolveConsumer c fuel q w) as [[[cid | e |] w1] t1];
    cbn [fst snd] in *; exists t1; (split; [exact Hn |]).
  - cbv zeta. destruct (createPaymentLink c _ w1) as [[link | e] w2];
      cbn [fst snd]; (split; [right; eexists; reflexivity |]).
    + intros url H. inversion H as [Hr].
      destruct (respond_cases link) as [[u [Hu [_ Hresp]]] | [_ Hresp]];
        rewrite Hresp in Hr; [| discriminate].
      inversion Hr. now subst.
    + intros url H. discriminate H.
  - split; [| intros url H; discriminate H].
    left. split; [reflexivity |]. intros resp H. right.
    inversion H. eexists. reflexivity.
  - split; [| intros url H; discriminate H].
    left. split; [reflexivity |]. intros resp H. discriminate H.
Qed.

Lemma requestData_name config q w consumerId :
  PaymentLinkData.name (requestData b config q w consumerId)
  = link_name b config (CheckoutQuery.name q) w.
Proof.
  unfold requestData, attachMetadata, attachConsumer.
  destruct (JS.truthy (CheckoutQuery.metadata q));
    [destruct (parsedMetadata b _) |];
    destruct (JS.truthy consumerId); reflexivity.
Qed.

Lemma requestData_fixed config q w consumerId :
  PaymentLinkData.success_redirect_url (requestData b config q w consumerId)
  = CheckoutConfig.successUrl config
  /\ PaymentLinkData.failure_redirect_url (requestData b config q w consumerId)
     = JS.or_else (CheckoutConfig.returnUrl config)
         (CheckoutConfig.successUrl config)
  /\ PaymentLinkData.coupons (requestData b config q w consumerId) = [].
Proof.
  unfold requestData, attachMetadata, attachConsumer.
  destruct (JS.truthy (CheckoutQuery.metadata q));
    [destruct (parsedMetadata b _) |];
    destruct (JS.truthy consumerId); repeat split.
Qed.

(** X3: the name of the payment link is the [name] of the query when it is
    not empty, else the [defaultName] of the configuration when it is not
    empty, else [Checkout ] followed by the clock reading taken before any
    remote call; it is never empty. *)
Theorem Checkout_link_name fuel config q w d :
  In (EvCreatePaymentLink d) (snd (Checkout c b fuel config q w)) ->
  PaymentLinkData.name d <> []
  /\ (forall n, CheckoutQuery.name q = Some n -> n <> [] ->
        PaymentLinkData.name d = n)
  /\ (forall n, JS.truthy (CheckoutQuery.name q) = false ->
        CheckoutConfig.defaultName config = Some n -> n <> [] ->
        PaymentLinkData.name d = n)
  /\ (JS.truthy (CheckoutQuery.name q) = false ->
      JS.truthy (CheckoutConfig.defaultName config) = false ->
      PaymentLinkData.name d
      = JS.of_string "Checkout " ++ JS.of_N (Date_now b w)).
Proof.
  intros Hin. apply Checkout_link_events in Hin. destruct Hin as [_ [cid ->]].
  rewrite requestData_name. unfold link_name.
  destruct (CheckoutQuery.name q) as [[| x r] |];
    destruct (CheckoutConfig.defaultName config) as [[| y r'] |];
    (split; [discriminate |]); (split; [| split]);
    try (intros n H; inversion H; subst; congruence);
    try (intros n _ H; inversion H; subst; congruence);
    try (intros n H; discriminate H);
    try (intros H; discriminate H);
    try (intros _ H; discriminate H);
    try reflexivity.
Qed.

(** X4: every payment-link request has the success URL of the
    configuration, an empty coupon list, and as failure URL the [returnUrl]
    of the configuration, or the success URL when [returnUrl] is missing or
    empty. *)
Theorem Checkout_link_urls fuel config q w d :
  In (EvCreatePaymentLink d) (snd (Checkout c b fuel config q w)) ->
  PaymentLinkData.success_redirect_url d = CheckoutConfig.successUrl config
  /\ PaymentLinkData.coupons d = []
  /\ (forall u, CheckoutConfig.returnUrl config = Some u -> u <> [] ->
        PaymentLinkData.failure_redirect_url d = u)
  /\ (JS.truthy (CheckoutConfig.returnUrl config) = false ->
      PaymentLinkData.failure_redirect_url d
      = CheckoutConfig.successUrl config).
Proof.
  intros Hin. apply Checkout_link_events in Hin. destruct Hin as [_ [cid ->]].
  destruct (requestData_fixed config q w cid) as [-> [-> ->]].
  split; [reflexivity |]. split; [reflexivity |]. split.
  - intros u -> Hu. destruct u; [congruence | reflexivity].
  - destruct (CheckoutConfig.returnUrl config) as [[| x r] |];
      [reflexivity | discriminate | reflexivity].
Qed.

(** X5: a [metadata] value that decodes and parses is attached, parsed, to
    every payment-link request; an empty [metadata] value is left out
    without being decoded. *)
Theorem Checkout_metadata_attached fuel config q w d :
  In (EvCreatePaymentLink d) (snd (Checkout c b fuel config q w)) ->
  (forall m s v,
      CheckoutQuery.metadata q = Some m -> m <> [] ->
      decodeURIComponent b m = Some s -> JSON_parse b s = Some v ->
      PaymentLinkData.metadata d = Some v)
  /\ (JS.truthy (CheckoutQuery.metadata q) = false ->
      PaymentLinkData.metadata d = None).
Proof.
  intros Hin. apply Checkout_link_events in Hin. destruct Hin as [_ [cid ->]].
  rewrite requestData_metadata. split.
  - intros m s v -> Hm Hs Hv. destruct m as [| x r]; [congruence |].
    simpl. unfold parsedMetadata. now rewrite Hs.
  - now intros ->.
Qed.

(** X6: every line item has quantity 1 and a product id without comma
    that neither starts nor ends with white space. *)
Theorem Checkout_item_ids_clean fuel config q w d it :
  In (EvCreatePaymentLink d) (snd (Checkout c b fuel config q w)) ->
  In it (PaymentLinkData.items d) ->
  Item.quantity it = 1%Z
  /\ ~ In JS.comma (Item.product_id it)
  /\ trimmed (Item.product_id it).
Proof.
  intros Hin Hit. apply Checkout_link_events in Hin.
  destruct Hin as [Hp [cid ->]]. rewrite requestData_items in Hit.
  destruct (CheckoutQuery.products q) as [p |]; [| discriminate].
  rewrite (productIds_truthy p Hp) in Hit. unfold line_items in Hit.
  rewrite map_map in Hit. apply in_map_iff in Hit.
  destruct Hit as [seg [<- Hseg]]. simpl.
  split; [reflexivity |]. split; [| apply trim_trimmed].
  intros Hc. apply trim_incl in Hc.
  exact (split_no_sep JS.comma p seg Hseg Hc).
Qed.

End Answers.

(** ** How a consumer is resolved *)

Section Resolution.

Context {W JSError JSValue PaymentLink : Type}.
Variable c : StreamClient W JSError JSValue PaymentLink.
Variable b : Builtins W JSValue.

Lemma bind_snd {A B} (m : M W JSError (Event JSValue) A)
    (f : A -> M W JSError (Event JSValue) B) w :
  snd (bind m f w)
  = snd (m w)
    ++ match m w with
       | (Ok a, w1, _) => snd (f a w1)
       | _ => []
       end.
Proof.
  unfold bind. destruct (m w) as [[[a | e |] w1] t1]; simpl;
    rewrite ?app_nil_r; try reflexivity.
  destruct (f a w1) as [[o w2] t2]. reflexivity.
Qed.

Lemma find_in_some p data x :
  find_in p data = Some x -> p x = true.
Proof.
  destruct data as [l |]; simpl; [| discriminate].
  intros H. now apply find_some in H.
Qed.

(** A phone search that hands back a match ends the resolution. *)
Lemma findConsumer_phone_hit fuel phone email w r w1 x :
  JS.truthy phone = true ->
  listConsumers c (ListParams.make 1 100 phone) w = (inl r, w1) ->
  find_in (fun y => strict_eq (Consumer.phone_number y) phone)
    (ListResponse.data r) = Some x ->
  findConsumer c fuel phone email w
  = (Ok (Some x), w1, [EvListConsumers (ListParams.make 1 100 phone)]).
Proof.
  intros Ht Hl Hf. unfold findConsumer.
  assert (strategy1 c phone w
          = (Ok (Some x), w1, [EvListConsumers (ListParams.make 1 100 phone)]))
    as H1.
  { unfold strategy1. rewrite Ht.
    unfold try_catch, bind, await_listConsumers, call. rewrite Hl.
    simpl. now rewrite Hf. }
  rewrite (bind_ok _ _ w (Some x) w1 _ H1).
  unfold strategy2, strategy3. simpl. reflexivity.
Qed.

(** X7: when the phone search hands back a consumer with exactly the phone
    number of the request, a consumer with exactly that number is used: the
    run is the search and the payment-link request, which carries that
    consumer's id; nobody is created and no page is fetched. *)
Theorem Checkout_phone_match_used fuel config q w p r w1 l x0 :
  JS.truthy (CheckoutQuery.products q) = true ->
  JS.truthy (CheckoutQuery.customerId q) = false ->
  CheckoutQuery.customerPhone q = Some p ->
  p <> [] ->
  listConsumers c (ListParams.make 1 100 (Some p)) w = (inl r, w1) ->
  ListResponse.data r = Some l ->
  In x0 l ->
  Consumer.phone_number x0 = FString p ->
  exists x d,
    In x l
    /\ Consumer.phone_number x = FString p
    /\ snd (Checkout c b fuel config q w)
       = [EvListConsumers (ListParams.make 1 100 (Some p));
          EvCreatePaymentLink d]
    /\ PaymentLinkData.organization_consumer_id d
       = own_property (Some (Consumer.id x)).
Proof.
  intros Hprod Hid Hphone Hp Hl Hdata Hin Hx0.
  assert (JS.truthy (Some p) = true) as Ht
    by (destruct p; [congruence | reflexivity]).
  destruct (find (fun y => strict_eq (Consumer.phone_number y) (Some p)) l)
    as [x |] eqn:Hfind.
  2: { pose proof (find_none _ _ Hfind x0 Hin) as Hcontra.
       simpl in Hcontra. rewrite Hx0 in Hcontra. simpl in Hcontra.
       assert (JS.eqb p p = true) as Hpp by (now apply eqb_eq).
       congruence. }
  pose proof (find_some _ _ Hfind) as [Hxin Hxp].
  apply strict_eq_string in Hxp.
  assert (findConsumer c fuel (Some p) (CheckoutQuery.customerEmail q) w
          = (Ok (Some x), w1,
             [EvListConsumers (ListParams.make 1 100 (Some p))])) as Hfc.
  { apply (findConsumer_phone_hit fuel (Some p) _ w r w1 x Ht Hl).
    rewrite Hdata. exact Hfind. }
  exists x. eexists. split; [exact Hxin |]. split; [exact Hxp |].
  rewrite Checkout_run, Hprod. unfold resolveConsumer.
  rewrite Hid, Hphone, Ht. cbn [negb andb orb].
  rewrite (bind_ok _ _ w (Some x) w1 _ Hfc). cbn [useOrCreate ret fst snd].
  cbv zeta.
  destruct (createPaymentLink c _ w1) as [[link | e] w2]; cbn [snd app];
    (split; [reflexivity | apply requestData_consumer]).
Qed.

(** The loop returns a consumer only from a page, where it passed the test
    of the page. *)
Lemma while_found phone email fuel :
  forall st w st' w' t x,
    found st = None ->
    while fuel page_cond (page_body c phone email) st w = (Ok st', w', t) ->
    found st' = Some x ->
    page_match phone email x = true.
Proof.
  induction fuel as [| fuel IH]; intros st w st' w' t x Hnone Hrun Hfound.
  - simpl in Hrun. destruct (page_cond st); [discriminate |].
    inversion Hrun. subst. congruence.
  - rewrite while_step in Hrun. destruct (page_cond st).
    2: { inversion Hrun. subst. congruence. }
    rewrite page_body_run in Hrun. cbv zeta in Hrun.
    destruct (listConsumers c _ w) as [[consumers | e] w1]; [| discriminate].
    destruct (find_in _ _) as [y |] eqn:Hy.
    { inversion Hrun. subst. simpl in Hfound. inversion Hfound. subst.
      exact (find_in_some _ _ _ Hy). }
    destruct (currentPage st + 1 >? 50)%Z.
    { inversion Hrun. subst. simpl in Hfound. discriminate. }
    destruct (while fuel page_cond (page_body c phone email)
                (mkPageLoop (currentPage st + 1) (has_next consumers) None) w1)
      as [[o w2] t2] eqn:Hrest.
    cbn [fst snd] in Hrun. inversion Hrun. subst.
    eapply IH; [| exact Hrest | exact Hfound]. reflexivity.
Qed.

Lemma page_match_exact phone email x :
  page_match phone email x = true ->
  (exists p, phone = Some p /\ p <> [] /\ Consumer.phone_number x = FString p)
  \/ (exists e, email = Some e /\ e <> [] /\ Consumer.email x = FString e).
Proof.
  unfold page_match. intros H. apply orb_prop in H.
  destruct H as [H | H]; apply andb_prop in H; destruct H as [Ht Hs].
  - left. destruct phone as [[| y r] |]; try discriminate.
    exists (y :: r). split; [reflexivity |]. split; [discriminate |].
    now apply strict_eq_string.
  - right. destruct email as [[| y r] |]; try discriminate.
    exists (y :: r). split; [reflexivity |]. split; [discriminate |].
    now apply strict_eq_string.
Qed.

(** X8: the phone search and the page scan accept exact matches only: a
    consumer returned by the phone search has the phone number of the
    request; one returned by the page scan has the phone number of the
    request or its email, the request having that field. *)
Theorem exact_matches_only fuel phone email w x w' t :
  (strategy1 c phone w = (Ok (Some x), w', t) ->
   exists p, phone = Some p /\ p <> [] /\ Consumer.phone_number x = FString p)
  /\ (strategy3 c fuel phone email None w = (Ok (Some x), w', t) ->
      (exists p, phone = Some p /\ p <> []
                 /\ Consumer.phone_number x = FString p)
      \/ (exists e, email = Some e /\ e <> []
                    /\ Consumer.email x = FString e)).
Proof.
  split.
  - unfold strategy1. destruct phone as [[| y r] |]; simpl; try discriminate.
    unfold try_catch, bind, await_listConsumers, call, console_warn, emit, ret.
    destruct (listConsumers c _ w) as [[res | e] w1]; simpl; [| discriminate].
    intros H. inversion H as [[Hf Hw Ht]].
    apply find_in_some in Hf.
    exists (y :: r). split; [reflexivity |]. split; [discriminate |].
    now apply strict_eq_string.
  - unfold strategy3. simpl.
    destruct (JS.truthy phone || JS.truthy email); [| discriminate].
    unfold bind.
    destruct (while fuel page_cond (page_body c phone email)
                (mkPageLoop 1 true None) w) as [[[st' | e |] w1] t1] eqn:Hrun;
      try discriminate.
    simpl. rewrite app_nil_r. intros H. inversion H as [[Hf Hw Ht]].
    apply page_match_exact.
    eapply while_found; [| exact Hrun | exact Hf]. reflexivity.
Qed.

(** The first page ends the scan when it holds a match or is the last. *)
Lemma strategy3_first_page fuel phone email w r w1 :
  JS.truthy phone || JS.truthy email = true ->
  listConsumers c (ListParams.make 1 pageSize None) w = (inl r, w1) ->
  find_in (page_match phone email) (ListResponse.data r) <> None
  \/ has_next r = false ->
  strategy3 c (S fuel) phone email None w
  = (Ok (find_in (page_match phone email) (ListResponse.data r)), w1,
     [EvListConsumers (ListParams.make 1 pageSize None)]).
Proof.
  intros Ht Hl Hstop. unfold strategy3. rewrite Ht. cbn [is_some negb andb].
  unfold bind. rewrite while_step. cbn [page_cond hasMorePages found is_some negb andb].
  rewrite page_body_run. cbv zeta. cbn [currentPage]. rewrite Hl.
  destruct (find_in (page_match phone email) (ListResponse.data r)) as [x |].
  { reflexivity. }
  destruct Hstop as [Hstop | Hstop]; [congruence |]. rewrite Hstop.
  change (1 + 1 >? 50)%Z with false. cbv iota.
  destruct fuel; reflexivity.
Qed.

End Resolution.

(** ** The page scan, turn by turn *)

Section Scan.

Context {W JSError JSValue PaymentLink : Type}.
Variable c : StreamClient W JSError JSValue PaymentLink.
Variable b : Builtins W JSValue.

(** X9: a turn of the scan that finds a match on its page, or whose page
    announces no further page, is the last one: the loop ends after that
    single fetch, with the match if there is one. *)
Theorem scan_turn_stops fuel phone email st w r w1 :
  page_cond st = true ->
  (currentPage st < 50)%Z ->
  listConsumers c (ListParams.make (currentPage st) pageSize None) w
  = (inl r, w1) ->
  find_in (page_match phone email) (ListResponse.data r) <> None
  \/ has_next r = false ->
  exists st',
    while (S fuel) page_cond (page_body c phone email) st w
    = (Ok st', w1,
       [EvListConsumers (ListParams.make (currentPage st) pageSize None)])
    /\ found st' = find_in (page_match phone email) (ListResponse.data r).
Proof.
  intros Hcond Hcp Hl Hstop. rewrite while_step, Hcond, page_body_run.
  cbv zeta. rewrite Hl.
  destruct (find_in (page_match phone email) (ListResponse.data r)) as [x |].
  { eexists. split; reflexivity. }
  destruct Hstop as [Hstop | Hstop]; [congruence |]. rewrite Hstop.
  assert ((currentPage st + 1 >? 50)%Z = false) as -> by lia.
  assert (while fuel page_cond (page_body c phone email)
            (mkPageLoop (currentPage st + 1) false None) w1
          = (Ok (mkPageLoop (currentPage st + 1) false None), w1, [])) as ->
    by (destruct fuel; reflexivity).
  eexists. split; reflexivity.
Qed.

Lemma no_fetch_pages (t : list (Event JSValue)) :
  Forall (fun ev => is_page_fetch ev = false) t ->
  pages_fetched t = [] /\ count is_page_fetch t = 0%nat.
Proof.
  intros H. split; [| now apply count_none].
  induction H as [| ev t Hev _ IH]; [reflexivity |].
  unfold pages_fetched in *. simpl. rewrite IH.
  destruct ev as [p | | |]; try reflexivity.
  simpl in Hev. destruct (is_some (ListParams.search_term p));
    [reflexivity | discriminate].
Qed.

(** The pages asked for by the loop follow one another. *)
Lemma while_pages_in_order phone email fuel :
  forall st w,
    pages_fetched (snd (while fuel page_cond (page_body c phone email) st w))
    = pages_from (currentPage st)
        (count is_page_fetch
           (snd (while fuel page_cond (page_body c phone email) st w))).
Proof.
  induction fuel as [| fuel IH]; intros st w.
  - simpl. destruct (page_cond st); reflexivity.
  - rewrite while_step. destruct (page_cond st); [| reflexivity].
    rewrite page_body_run. cbv zeta.
    destruct (listConsumers c _ w) as [[consumers | e] w1]; [| reflexivity].
    destruct (find_in _ _) as [x |]; [reflexivity |].
    destruct (currentPage st + 1 >? 50)%Z; [reflexivity |].
    cbn [snd]. rewrite pages_fetched_app, count_app, IH. reflexivity.
Qed.

Lemma strategy1_no_fetch phone :
  emits (fun ev : Event JSValue => is_page_fetch ev = false) (strategy1 c phone).
Proof.
  unfold strategy1, await_listConsumers, console_warn.
  destruct phone as [[| x r] |]; simpl; try apply emits_ret.
  repeat (emits_step; try reflexivity).
Qed.

Lemma strategy2_no_fetch phone email existing :
  emits (fun ev : Event JSValue => is_page_fetch ev = false)
    (strategy2 c phone email existing).
Proof.
  unfold strategy2, await_listConsumers, console_warn.
  destruct existing; simpl; try apply emits_ret.
  destruct email as [[| x r] |]; simpl; try apply emits_ret.
  repeat (emits_step; try reflexivity).
Qed.

Lemma useOrCreate_no_fetch q consumerId existing :
  emits (fun ev : Event JSValue => is_page_fetch ev = false)
    (useOrCreate c q consumerId existing).
Proof.
  unfold useOrCreate, await_createConsumer.
  repeat (emits_step; try reflexivity).
Qed.

Lemma scans_quiet {A} (m : M W JSError (Event JSValue) A) :
  emits (fun ev => is_page_fetch ev = false) m -> scans_in_order m.
Proof.
  intros H w. destruct (no_fetch_pages _ (H w)) as [-> ->]. reflexivity.
Qed.

Lemma scans_after_quiet {A B} (m : M W JSError (Event JSValue) A)
    (f : A -> M W JSError (Event JSValue) B) :
  emits (fun ev => is_page_fetch ev = false) m ->
  (forall a, scans_in_order (f a)) ->
  scans_in_order (bind m f).
Proof.
  intros Hm Hf w. rewrite bind_snd, pages_fetched_app, count_app.
  destruct (no_fetch_pages _ (Hm w)) as [-> ->]. cbn [app Nat.add].
  destruct (m w) as [[[a | e |] w1] t1]; try reflexivity. apply Hf.
Qed.

Lemma scans_then_quiet {A B} (m : M W JSError (Event JSValue) A)
    (f : A -> M W JSError (Event JSValue) B) :
  scans_in_order m ->
  (forall a, emits (fun ev => is_page_fetch ev = false) (f a)) ->
  scans_in_order (bind m f).
Proof.
  intros Hm Hf w. rewrite bind_snd, pages_fetched_app, count_app.
  assert (pages_fetched
            match m w with
            | (Ok a, w1, _) => snd (f a w1)
            | _ => []
            end = []
          /\ count is_page_fetch
               match m w with
               | (Ok a, w1, _) => snd (f a w1)
               | _ => []
               end = 0%nat) as [-> ->].
  { destruct (m w) as [[[a | e |] w1] t1]; try (split; reflexivity).
    apply no_fetch_pages, Hf. }
  rewrite app_nil_r, Nat.add_0_r. apply Hm.
Qed.

Lemma strategy3_scans fuel phone email existing :
  scans_in_order (strategy3 c fuel phone email existing).
Proof.
  unfold strategy3.
  match goal with |- context [if ?g then _ else _] => destruct g end.
  - apply scans_then_quiet; [| intros st; apply emits_ret].
    intros w. apply (while_pages_in_order phone email fuel
                       (mkPageLoop 1 true existing) w).
  - apply scans_quiet, emits_ret.
Qed.

Lemma resolveConsumer_scans fuel q : scans_in_order (resolveConsumer c fuel q).
Proof.
  unfold resolveConsumer.
  match goal with |- context [if ?g then _ else _] => destruct g end;
    [| apply scans_quiet, emits_ret].
  apply scans_then_quiet; [| intros ex; apply useOrCreate_no_fetch].
  unfold findConsumer.
  apply scans_after_quiet; [apply strategy1_no_fetch |]. intros c1.
  apply scans_after_quiet; [apply strategy2_no_fetch |]. intros c2.
  apply strategy3_scans.
Qed.

Lemma Checkout_listing_well_formed fuel config q :
  emits listing_well_formed (Checkout c b fuel config q).
Proof.
  unfold Checkout, checkout_try, paymentLinkName, resolveConsumer,
    findConsumer, useOrCreate, strategy1, strategy2, strategy3, page_body,
    await_listConsumers, await_createConsumer, await_createPaymentLink,
    console_warn.
  repeat (emits_step; try exact I;
          try (split; [reflexivity | intros; reflexivity]);
          try (split; [reflexivity | intros; discriminate])).
Qed.

(** X10: the page fetches of a run ask for the pages 1, 2, 3, ... in that
    order, without gap or repeat; every listing call asks for 100
    consumers, and every search asks for page 1. *)
Theorem Checkout_pages_in_order fuel config q w :
  let tr := snd (Checkout c b fuel config q w) in
  pages_fetched tr = pages_from 1 (count is_page_fetch tr)
  /\ forall p,
       In (EvListConsumers p) tr ->
       ListParams.size p = 100%Z
       /\ (is_some (ListParams.search_term p) = true -> ListParams.page p = 1%Z).
Proof.
  cbv zeta. split.
  - rewrite Checkout_run.
    destruct (JS.truthy (CheckoutQuery.products q)); [| reflexivity].
    pose proof (resolveConsumer_scans fuel q w) as H.
    destruct (resolveConsumer c fuel q w) as [[[cid | e |] w1] t1];
      cbn [snd] in *; try exact H.
    cbv zeta. destruct (createPaymentLink c _ w1) as [[link | e] w2];
      cbn [snd]; rewrite pages_fetched_app, count_app;
      cbn [pages_fetched flat_map count filter is_page_fetch length];
      rewrite app_nil_r, Nat.add_0_r; exact H.
  - intros p Hin.
    pose proof (Checkout_listing_well_formed fuel config q w) as H.
    rewrite Forall_forall in H. exact (H _ Hin).
Qed.

End Scan.

(** ** With or without a consumer *)

Section Outcome.

Context {W JSError JSValue PaymentLink : Type}.
Variable c : StreamClient W JSError JSValue PaymentLink.
Variable b : Builtins W JSValue.

(** X11: a request that passes validation, without usable [customerId] and
    without [customerName], for which nobody was found (or that has neither
    phone number nor email), is checked out as a guest: nobody is created
    and the payment-link request, which follows the lookups at once, has no
    consumer id. *)
Theorem Checkout_guest fuel config q w w1 t1 :
  JS.truthy (CheckoutQuery.products q) = true ->
  JS.truthy (CheckoutQuery.customerId q) = false ->
  JS.truthy (CheckoutQuery.customerName q) = false ->
  (JS.truthy (CheckoutQuery.customerPhone q)
   || JS.truthy (CheckoutQuery.customerEmail q) = false
   /\ w1 = w /\ t1 = [])
  \/ (JS.truthy (CheckoutQuery.customerPhone q)
      || JS.truthy (CheckoutQuery.customerEmail q) = true
      /\ findConsumer c fuel (CheckoutQuery.customerPhone q)
           (CheckoutQuery.customerEmail q) w = (Ok None, w1, t1)) ->
  exists d,
    PaymentLinkData.organization_consumer_id d = None
    /\ snd (Checkout c b fuel config q w) = t1 ++ [EvCreatePaymentLink d]
    /\ count is_create (snd (Checkout c b fuel config q w)) = 0%nat
    /\ fst (Checkout c b fuel config q w)
       = match createPaymentLink c d w1 with
         | (inl link, w2) => (Ok (respond c link), w2)
         | (inr e, w2) => (Ok (RespNext e), w2)
         end.
Proof.
  intros Hprod Hid Hname Hcase.
  assert (resolveConsumer c fuel q w = (Ok (CheckoutQuery.customerId q), w1, t1)
          /\ count is_create t1 = 0%nat) as [Hres Hnone].
  { destruct Hcase as [[Hc [-> ->]] | [Hc Hfind]].
    - split; [| reflexivity]. unfold resolveConsumer.
      rewrite Hc, andb_false_r. reflexivity.
    - split.
      + unfold resolveConsumer. rewrite Hid, Hc. cbn [negb andb].
        rewrite (bind_ok _ _ w None w1 t1 Hfind).
        unfold useOrCreate. rewrite Hname. cbn [ret fst snd].
        now rewrite app_nil_r.
      + pose proof (findConsumer_no_create c fuel
                      (CheckoutQuery.customerPhone q)
                      (CheckoutQuery.customerEmail q) w) as H.
        now rewrite Hfind in H. }
  exists (requestData b config q w (CheckoutQuery.customerId q)).
  split.
  { rewrite requestData_consumer. unfold own_property. now rewrite Hid. }
  rewrite Checkout_run, Hprod, Hres. cbv zeta.
  destruct (createPaymentLink c _ w1) as [[link | e] w2]; cbn [fst snd];
    (split; [reflexivity |]); (split; [| reflexivity]);
    rewrite count_app, Hnone; reflexivity.
Qed.

(** X12: when [createConsumer] throws, the exception goes to [next] and no
    payment link is requested. *)
Theorem Checkout_creation_failure fuel config q w w1 t1 e w2 :
  JS.truthy (CheckoutQuery.products q) = true ->
  JS.truthy (CheckoutQuery.customerId q) = false ->
  JS.truthy (CheckoutQuery.customerPhone q)
  || JS.truthy (CheckoutQuery.customerEmail q) = true ->
  JS.truthy (CheckoutQuery.customerName q) = true ->
  findConsumer c fuel (CheckoutQuery.customerPhone q)
    (CheckoutQuery.customerEmail q) w = (Ok None, w1, t1) ->
  createConsumer c
    (consumerData (CheckoutQuery.customerName q)
       (CheckoutQuery.customerPhone q) (CheckoutQuery.customerEmail q)) w1
  = (inr e, w2) ->
  Checkout c b fuel config q w
  = (Ok (RespNext e), w2,
     t1 ++ [EvCreateConsumer
              (consumerData (CheckoutQuery.customerName q)
                 (CheckoutQuery.customerPhone q)
                 (CheckoutQuery.customerEmail q))])
  /\ count is_link (snd (Checkout c b fuel config q w)) = 0%nat.
Proof.
  intros Hprod Hid Hcontact Hname Hfind Hcreate.
  pose proof (resolveConsumer_creates c fuel q w w1 t1 Hid Hcontact Hname Hfind)
    as Hres.
  cbv zeta in Hres. rewrite Hcreate in Hres.
  assert (Checkout c b fuel config q w
          = (Ok (RespNext e), w2,
             t1 ++ [EvCreateConsumer
                      (consumerData (CheckoutQuery.customerName q)
                         (CheckoutQuery.customerPhone q)
                         (CheckoutQuery.customerEmail q))])) as Hrun
    by (rewrite Checkout_run, Hprod, Hres; reflexivity).
  split; [exact Hrun |].
  apply count_none.
  pose proof (resolveConsumer_no_link c fuel q w) as Hn.
  rewrite Hres in Hn. rewrite Hrun. exact Hn.
Qed.

(** The trace of the last step of the consumer block. *)
Lemma useOrCreate_trace q consumerId existing w :
  snd (useOrCreate c q consumerId existing w) = []
  \/ (existing = None
      /\ JS.truthy (CheckoutQuery.customerName q) = true
      /\ snd (useOrCreate c q consumerId existing w)
         = [EvCreateConsumer
              (consumerData (CheckoutQuery.customerName q)
                 (CheckoutQuery.customerPhone q)
                 (CheckoutQuery.customerEmail q))]).
Proof.
  unfold useOrCreate. destruct existing as [x |]; [left; reflexivity |].
  destruct (JS.truthy (CheckoutQuery.customerName q)); [| left; reflexivity].
  right. split; [reflexivity |]. split; [reflexivity |].
  unfold bind, await_createConsumer, call.
  destruct (createConsumer c _ w) as [[nc | e] w1]; reflexivity.
Qed.

Lemma consumerData_fields q :
  JS.truthy (CheckoutQuery.customerName q) = true ->
  let d := consumerData (CheckoutQuery.customerName q)
             (CheckoutQuery.customerPhone q) (CheckoutQuery.customerEmail q) in
  CheckoutQuery.customerName q = Some (ConsumerData.name d)
  /\ ConsumerData.name d <> []
  /\ ConsumerData.phone_number d = own_property (CheckoutQuery.customerPhone q)
  /\ ConsumerData.email d = own_property (CheckoutQuery.customerEmail q).
Proof.
  intros Hn. unfold consumerData.
  destruct (CheckoutQuery.customerName q) as [[| x r] |]; try discriminate.
  simpl. repeat split. discriminate.
Qed.

(** The creations of the consumer block. *)
Lemma resolveConsumer_creation fuel q w :
  (count is_create (snd (resolveConsumer c fuel q w)) <= 1)%nat
  /\ forall d,
       In (EvCreateConsumer d) (snd (resolveConsumer c fuel q w)) ->
       JS.truthy (CheckoutQuery.customerId q) = false
       /\ JS.truthy (CheckoutQuery.customerPhone q)
          || JS.truthy (CheckoutQuery.customerEmail q) = true
       /\ JS.truthy (CheckoutQuery.customerName q) = true
       /\ d = consumerData (CheckoutQuery.customerName q)
                (CheckoutQuery.customerPhone q) (CheckoutQuery.customerEmail q).
Proof.
  unfold resolveConsumer.
  destruct (JS.truthy (CheckoutQuery.customerId q)) eqn:Hid.
  { split; [apply Nat.le_0_l | intros d []]. }
  destruct (JS.truthy (CheckoutQuery.customerPhone q)
            || JS.truthy (CheckoutQuery.customerEmail q)) eqn:Hc.
  2: { split; [apply Nat.le_0_l | intros d []]. }
  cbn [negb andb]. rewrite bind_snd.
  pose proof (findConsumer_emits c (fun ev => is_create ev = false) fuel
                (CheckoutQuery.customerPhone q) (CheckoutQuery.customerEmail q)
                (fun _ => eq_refl) (fun _ => eq_refl) w) as Hq.
  assert (forall d rest,
             In (EvCreateConsumer d)
                (snd (findConsumer c fuel (CheckoutQuery.customerPhone q)
                        (CheckoutQuery.customerEmail q) w) ++ rest) ->
             In (EvCreateConsumer d) rest) as Hin.
  { intros d rest H. apply in_app_or in H. destruct H as [H | H]; [| exact H].
    rewrite Forall_forall in Hq. specialize (Hq _ H). discriminate. }
  rewrite count_app, (count_none _ _ Hq). cbn [Nat.add].
  destruct (findConsumer c fuel _ _ w) as [[[ex | e |] w1] tf];
    try (split; [apply Nat.le_0_l | intros d H; apply Hin in H; destruct H]).
  destruct (useOrCreate_trace q (CheckoutQuery.customerId q) ex w1)
    as [-> | [_ [Hn ->]]].
  - split; [apply Nat.le_0_l | intros d H; apply Hin in H; destruct H].
  - split; [apply Nat.le_refl |].
    intros d H. apply Hin in H. destruct H as [H | []].
    inversion H. repeat split. exact Hn.
Qed.

(** X13: a run creates at most one consumer, and only for a request without
    usable [customerId] that has a phone number or an email; the consumer
    data carry the [customerName] of the request, which is not empty (the
    fallback name [Customer] is never used), and the phone number and the
    email of the request when these are not empty. *)
Theorem Checkout_creation_data fuel config q w :
  let tr := snd (Checkout c b fuel config q w) in
  (count is_create tr <= 1)%nat
  /\ forall d,
       In (EvCreateConsumer d) tr ->
       JS.truthy (CheckoutQuery.customerId q) = false
       /\ JS.truthy (CheckoutQuery.customerPhone q)
          || JS.truthy (CheckoutQuery.customerEmail q) = true
       /\ CheckoutQuery.customerName q = Some (ConsumerData.name d)
       /\ ConsumerData.name d <> []
       /\ ConsumerData.phone_number d
          = own_property (CheckoutQuery.customerPhone q)
       /\ ConsumerData.email d = own_property (CheckoutQuery.customerEmail q).
Proof.
  cbv zeta. rewrite Checkout_run.
  destruct (JS.truthy (CheckoutQuery.products q)).
  2: { split; [apply Nat.le_0_l | intros d []]. }
  destruct (resolveConsumer_creation fuel q w) as [Hcount Hdata].
  assert (forall d, In (EvCreateConsumer d) (snd (resolveConsumer c fuel q w)) ->
            JS.truthy (CheckoutQuery.customerId q) = false
            /\ JS.truthy (CheckoutQuery.customerPhone q)
               || JS.truthy (CheckoutQuery.customerEmail q) = true
            /\ CheckoutQuery.customerName q = Some (ConsumerData.name d)
            /\ ConsumerData.name d <> []
            /\ ConsumerData.phone_number d
               = own_property (CheckoutQuery.customerPhone q)
            /\ ConsumerData.email d
               = own_property (CheckoutQuery.customerEmail q)) as Hd.
  { intros d H. destruct (Hdata d H) as [H1 [H2 [H3 ->]]].
    split; [exact H1 |]. split; [exact H2 |].
    apply (consumerData_fields q H3). }
  destruct (resolveConsumer c fuel q w) as [[[cid | e |] w1] t1];
    cbn [snd] in *; try (split; [exact Hcount | exact Hd]).
  cbv zeta. destruct (createPaymentLink c _ w1) as [[link | e] w2]; cbn [snd];
    (split;
     [rewrite count_app; cbn [count filter is_create length];
      rewrite Nat.add_0_r; exact Hcount
     | intros d H; apply in_app_or in H; destruct H as [H | [H | []]];
       [exact (Hd d H) | discriminate H]]).
Qed.

End Outcome.

(** ** The order of the remote calls *)

Section CallOrder.

Context {W JSError JSValue PaymentLink : Type}.
Variable c : StreamClient W JSError JSValue PaymentLink.
Variable b : Builtins W JSValue.

Lemma strategy1_calls phone w :
  exists ts,
    remote_calls (snd (strategy1 c phone w)) = ts
    /\ Forall (fun ev => is_search ev = true) ts
    /\ (List.length ts <= 1)%nat.
Proof.
  unfold strategy1. destruct phone as [[| x r] |]; simpl;
    try (exists []; repeat split; [constructor | apply Nat.le_0_l]).
  unfold try_catch, bind, await_listConsumers, call.
  destruct (listConsumers c _ w) as [[res | e] w1]; simpl;
    (eexists; split; [reflexivity |]; split;
     [repeat constructor | apply Nat.le_refl]).
Qed.

Lemma strategy2_calls phone email existing w :
  exists ts,
    remote_calls (snd (strategy2 c phone email existing w)) = ts
    /\ Forall (fun ev => is_search ev = true) ts
    /\ (List.length ts <= 1)%nat.
Proof.
  unfold strategy2. destruct existing as [found |]; simpl;
    try (exists []; repeat split; [constructor | apply Nat.le_0_l]).
  destruct email as [[| x r] |]; simpl;
    try (exists []; repeat split; [constructor | apply Nat.le_0_l]).
  unfold try_catch, bind, await_listConsumers, call.
  destruct (listConsumers c _ w) as [[res | e] w1]; simpl;
    (eexists; split; [reflexivity |]; split;
     [repeat constructor | apply Nat.le_refl]).
Qed.

Lemma fetches_and_warnings (t : list (Event JSValue)) :
  Forall (fun ev => is_page_fetch ev = true \/ is_warn ev = true) t ->
  Forall (fun ev => is_page_fetch ev = true) (remote_calls t)
  /\ List.length (remote_calls t) = count is_page_fetch t.
Proof.
  unfold remote_calls, count.
  induction 1 as [| ev t Hev _ [IH1 IH2]]; simpl; [split; constructor |].
  destruct ev as [p | d | d | m]; simpl in *;
    try (destruct Hev as [Hev | Hev]; discriminate Hev).
  - destruct Hev as [Hev | Hev]; [| discriminate Hev]. rewrite Hev.
    split; [constructor; [exact Hev | exact IH1] | simpl; now rewrite IH2].
  - split; [exact IH1 | exact IH2].
Qed.

Lemma strategy3_calls fuel phone email existing w :
  (50 <= fuel)%nat ->
  exists tf,
    remote_calls (snd (strategy3 c fuel phone email existing w)) = tf
    /\ Forall (fun ev => is_page_fetch ev = true) tf
    /\ (List.length tf <= 50)%nat.
Proof.
  intros Hfuel. eexists. split; [reflexivity |].
  assert (emits (fun ev : Event JSValue =>
                   is_page_fetch ev = true \/ is_warn ev = true)
            (strategy3 c fuel phone email existing)) as He.
  { unfold strategy3, page_body, await_listConsumers, console_warn.
    repeat (emits_step; try (left; reflexivity); try (right; reflexivity)). }
  destruct (fetches_and_warnings _ (He w)) as [H1 H2].
  split; [exact H1 |]. rewrite H2.
  apply (strategy3_within c fuel phone email existing Hfuel w).
Qed.

Lemma findConsumer_calls fuel phone email w :
  (50 <= fuel)%nat ->
  exists ts tf,
    remote_calls (snd (findConsumer c fuel phone email w)) = ts ++ tf
    /\ Forall (fun ev => is_search ev = true) ts
    /\ (List.length ts <= 2)%nat
    /\ Forall (fun ev => is_page_fetch ev = true) tf
    /\ (List.length tf <= 50)%nat.
Proof.
  intros Hfuel. unfold findConsumer. rewrite bind_snd, remote_calls_app.
  destruct (strategy1_calls phone w) as [ts1 [-> [Hs1 Hl1]]].
  destruct (strategy1 c phone w) as [[[c1 | e |] w1] t1].
  2, 3: exists ts1, []; rewrite !app_nil_r;
    repeat split; [exact Hs1 | lia | constructor | apply Nat.le_0_l].
  rewrite bind_snd, remote_calls_app.
  destruct (strategy2_calls phone email c1 w1) as [ts2 [-> [Hs2 Hl2]]].
  destruct (strategy2 c phone email c1 w1) as [[[c2 | e |] w2] t2].
  2, 3: exists (ts1 ++ ts2), []; rewrite !app_nil_r;
    repeat split;
    [apply Forall_app; split; assumption | rewrite length_app; lia
    | constructor | apply Nat.le_0_l].
  destruct (strategy3_calls fuel phone email c2 w2 Hfuel) as [tf [-> [Hf Hl]]].
  exists (ts1 ++ ts2), tf. rewrite app_assoc.
  repeat split;
    [apply Forall_app; split; assumption | rewrite length_app; lia
    | exact Hf | exact Hl].
Qed.

Lemma resolveConsumer_calls fuel q w :
  (50 <= fuel)%nat ->
  exists ts tf tc,
    remote_calls (snd (resolveConsumer c fuel q w)) = ts ++ tf ++ tc
    /\ (Forall (fun ev => is_search ev = true) ts
        /\ (List.length ts <= 2)%nat)
    /\ (Forall (fun ev => is_page_fetch ev = true) tf
        /\ (List.length tf <= 50)%nat)
    /\ (Forall (fun ev => is_create ev = true) tc
        /\ (List.length tc <= 1)%nat).
Proof.
  intros Hfuel. unfold resolveConsumer.
  match goal with |- context [if ?g then _ else _] => destruct g end.
  2: { exists [], [], []. repeat split; try constructor; apply Nat.le_0_l. }
  rewrite bind_snd, remote_calls_app.
  destruct (findConsumer_calls fuel (CheckoutQuery.customerPhone q)
              (CheckoutQuery.customerEmail q) w Hfuel)
    as [ts [tf [-> [Hs [Hls [Hf Hlf]]]]]].
  exists ts, tf.
  destruct (findConsumer c fuel _ _ w) as [[[ex | e |] w1] t1].
  2, 3: exists []; rewrite !app_nil_r;
    repeat split; try assumption; try constructor; apply Nat.le_0_l.
  destruct (useOrCreate_trace c q (CheckoutQuery.customerId q) ex w1)
    as [-> | [_ [_ ->]]].
  - exists []. rewrite !app_nil_r.
    repeat split; try assumption; try constructor; apply Nat.le_0_l.
  - eexists. rewrite <- app_assoc. split; [reflexivity |].
    repeat split; try assumption; [repeat constructor | apply Nat.le_refl].
Qed.

(** X14: the remote calls of a run come in this order: the searches (at
    most two), then the page fetches (at most 50), then the creation of a
    consumer (at most one), then the request for the payment link (at most
    one). *)
Theorem Checkout_call_order fuel config q w :
  (50 <= fuel)%nat ->
  exists ts tf tc tl,
    remote_calls (snd (Checkout c b fuel config q w)) = ts ++ tf ++ tc ++ tl
    /\ (Forall (fun ev => is_search ev = true) ts
        /\ (List.length ts <= 2)%nat)
    /\ (Forall (fun ev => is_page_fetch ev = true) tf
        /\ (List.length tf <= 50)%nat)
    /\ (Forall (fun ev => is_create ev = true) tc
        /\ (List.length tc <= 1)%nat)
    /\ (Forall (fun ev => is_link ev = true) tl
        /\ (List.length tl <= 1)%nat).
Proof.
  intros Hfuel. rewrite Checkout_run.
  destruct (JS.truthy (CheckoutQuery.products q)).
  2: { exists [], [], [], [].
       repeat split; try constructor; apply Nat.le_0_l. }
  destruct (resolveConsumer_calls fuel q w Hfuel)
    as [ts [tf [tc [Hres [Hs [Hf Hc]]]]]].
  exists ts, tf, tc.
  destruct (resolveConsumer c fuel q w) as [[[cid | e |] w1] t1];
    cbn [snd] in *.
  2, 3: exists []; rewrite app_nil_r;
    (split; [exact Hres |]); (split; [exact Hs |]); (split; [exact Hf |]);
    (split; [exact Hc |]); split; [constructor | apply Nat.le_0_l].
  cbv zeta.
  exists [EvCreatePaymentLink (requestData b config q w cid)].
  assert (remote_calls
            (t1 ++ [EvCreatePaymentLink (requestData b config q w cid)])
          = ts ++ tf ++ tc
            ++ [EvCreatePaymentLink (requestData b config q w cid)]) as Htr.
  { rewrite remote_calls_app, Hres, <- !app_assoc. reflexivity. }
  destruct (createPaymentLink c _ w1) as [[link | e] w2]; cbn [snd];
    (split; [exact Htr |]); (split; [exact Hs |]); (split; [exact Hf |]);
    (split; [exact Hc |]); (split; [repeat constructor | apply Nat.le_refl]).
Qed.

End CallOrder.

(** * The example applications *)

(** ** Tables *)

Section MapFacts.

Context {V : Type}.

Lemma eqb_refl k : JS.eqb k k = true.
Proof. now apply eqb_eq. Qed.

Lemma eqb_neq a b : a <> b -> JS.eqb a b = false.
Proof.
  intros H. destruct (JS.eqb a b) eqn:E; [| reflexivity].
  apply eqb_eq in E. contradiction.
Qed.

Lemma get_set_same k (v : V) m : JSMap.get k (JSMap.set k v m) = Some v.
Proof.
  induction m as [| [k' v'] r IH]; simpl.
  - now rewrite eqb_refl.
  - destruct (JS.eqb k' k) eqn:E; simpl; rewrite E; [reflexivity | exact IH].
Qed.

Lemma get_set_other k k' (v : V) m :
  k' <> k -> JSMap.get k' (JSMap.set k v m) = JSMap.get k' m.
Proof.
  intros Hne. induction m as [| [k0 v0] r IH]; simpl.
  - rewrite eqb_neq; [reflexivity | congruence].
  - destruct (JS.eqb k0 k) eqn:E; simpl.
    + apply eqb_eq in E. subst k0. rewrite eqb_neq; [reflexivity | congruence].
    + destruct (JS.eqb k0 k'); [reflexivity | exact IH].
Qed.

Lemma set_known k (v : V) m :
  JSMap.get k m <> None ->
  JSMap.keys (JSMap.set k v m) = JSMap.keys m
  /\ List.length (JSMap.values (JSMap.set k v m))
     = List.length (JSMap.values m).
Proof.
  unfold JSMap.keys, JSMap.values.
  induction m as [| [k0 v0] r IH]; simpl; [congruence |].
  destruct (JS.eqb k0 k) eqn:E; simpl; [split; reflexivity |].
  intros H. destruct (IH H) as [-> ->]. split; reflexivity.
Qed.

Lemma set_in_place k (v : V) m :
  JSMap.get k m <> None ->
  exists pre old post,
    m = pre ++ (k, old) :: post
    /\ JSMap.get k pre = None
    /\ JSMap.set k v m = pre ++ (k, v) :: post.
Proof.
  induction m as [| [k0 v0] r IH]; simpl; [congruence |].
  destruct (JS.eqb k0 k) eqn:E.
  - intros _. apply eqb_eq in E. subst k0.
    exists [], v0, r. repeat split.
  - intros H. destruct (IH H) as [pre [old [post [Hm [Hpre Hset]]]]].
    exists ((k0, v0) :: pre), old, post. simpl. rewrite E.
    repeat split; [now rewrite Hm at 1 | exact Hpre | now rewrite Hset].
Qed.

Lemma set_new k (v : V) m :
  JSMap.get k m = None ->
  JSMap.set k v m = m ++ [(k, v)].
Proof.
  induction m as [| [k0 v0] r IH]; simpl; [reflexivity |].
  destruct (JS.eqb k0 k) eqn:E; [discriminate |].
  intros H. now rewrite IH.
Qed.

Lemma in_set k (v : V) m key x :
  In (key, x) (JSMap.set k v m) ->
  (key = k /\ x = v) \/ In (key, x) m.
Proof.
  induction m as [| [k0 v0] r IH]; simpl.
  - intros [H | []]. inversion H. left. split; reflexivity.
  - destruct (JS.eqb k0 k) eqn:E; simpl.
    + apply eqb_eq in E. subst k0.
      intros [H | H]; [inversion H; left; split; reflexivity | right; right; exact H].
    + intros [H | H]; [right; left; exact H |].
      destruct (IH H) as [H' | H']; [left; exact H' | right; right; exact H'].
Qed.

End MapFacts.

(** ** Decimal numbers and quoted strings *)

Lemma of_string_app a c :
  JS.of_string (a ++ c) = JS.of_string a ++ JS.of_string c.
Proof.
  unfold JS.of_string. induction a as [| x a IH]; simpl; [reflexivity |].
  now rewrite IH.
Qed.

Lemma string_of_uint_digits d :
  Forall (fun ch => (48 <= ch <= 57)%N)
    (JS.of_string (NilEmpty.string_of_uint d)).
Proof.
  induction d; simpl; constructor; try exact IHd; cbn; lia.
Qed.

Lemma of_N_digits n : Forall (fun ch => (48 <= ch <= 57)%N) (JS.of_N n).
Proof. apply string_of_uint_digits. Qed.

Lemma of_string_inj a c : JS.of_string a = JS.of_string c -> a = c.
Proof.
  unfold JS.of_string. revert c.
  induction a as [| x a IH]; intros [| y c]; simpl; try discriminate;
    [reflexivity |].
  intros H. inversion H as [[Hx Hrest]].
  apply (f_equal ascii_of_N) in Hx. rewrite !ascii_N_embedding in Hx.
  subst y. f_equal. now apply IH.
Qed.

(** Two clock readings print alike only when they are the same. *)
Lemma of_N_inj n m : JS.of_N n = JS.of_N m -> n = m.
Proof.
  unfold JS.of_N. intros H. apply of_string_inj in H.
  apply (f_equal NilEmpty.uint_of_string) in H.
  rewrite !NilEmpty.usu in H. inversion H as [Hu].
  apply (f_equal N.of_uint) in Hu.
  now rewrite !DecimalN.Unsigned.of_to in Hu.
Qed.

Lemma escape_plain ch : plain ch -> JSON.escape ch = [ch].
Proof.
  intros [H32 [H34 [H92 _]]]. unfold JSON.escape.
  repeat match goal with
         | |- context [(ch =? ?k)%N] =>
             destruct (N.eqb_spec ch k); [lia |]
         end.
  destruct (N.ltb_spec ch 32); [lia | reflexivity].
Qed.

Lemma quote_body_plain s : Forall plain s -> JSON.quote_body s = s.
Proof.
  induction 1 as [| ch s Hc _ IH]; [reflexivity |]. simpl.
  assert (JSON.is_lead ch = false /\ JSON.is_trail ch = false) as [-> ->].
  { destruct Hc as [_ [_ [_ Hlt]]]. unfold JSON.is_lead, JSON.is_trail.
    split; apply andb_false_intro1; apply N.leb_gt; lia. }
  rewrite (escape_plain ch Hc), IH. reflexivity.
Qed.

(** ** What a run without usable [customerId] starts with and ends in *)

Section Lookup.

Context {W JSError JSValue PaymentLink : Type}.
Variable c : StreamClient W JSError JSValue PaymentLink.
Variable b : Builtins W JSValue.







(** The line items of a payment-link request are those of the [products]
    that the handler read. *)
Lemma Checkout_link_items fuel config q w d :
  In (EvCreatePaymentLink d) (snd (Checkout c b fuel config q w)) ->
  exists p,
    CheckoutQuery.products q = Some p /\ p <> []
    /\ PaymentLinkData.items d = items_of_segments p.
Proof.
  intros Hin. apply Checkout_link_events in Hin.
  destruct Hin as [Hp [cid ->]]. rewrite requestData_items.
  destruct (CheckoutQuery.products q) as [[| ch rest] |]; try discriminate.
  exists (ch :: rest). split; [reflexivity |]. split; [discriminate |].
  unfold productIds, line_items, items_of_segments. now rewrite map_map.
Qed.

(** With fuel for the page scan, a request with products is answered, and
    not with the HTTP 400 of the handler. *)
Lemma Checkout_answers_products fuel config q w :
  (50 <= fuel)%nat ->
  JS.truthy (CheckoutQuery.products q) = true ->
  exists resp,
    fst (fst (Checkout c b fuel config q w)) = Ok resp
    /\ forall msg, resp <> RespJson 400 msg.
Proof.
  intros Hfuel Hprod. rewrite Checkout_run, Hprod.
  destruct (resolveConsumer_within c fuel q Hfuel w) as [Ho _].
  destruct (resolveConsumer c fuel q w) as [[[cid | e |] w1] t1];
    cbn [fst snd] in *.
  - cbv zeta. destruct (createPaymentLink c _ w1) as [[link | e] w2].
    + eexists. split; [reflexivity |]. intros msg.
      destruct (respond_cases c link) as [[url [_ [_ ->]]] | [_ ->]];
        discriminate.
    + eexists. split; [reflexivity |]. discriminate.
  - eexists. split; [reflexivity |]. discriminate.
  - congruence.
Qed.

End Lookup.

(** ** An empty [customerId] *)

Section EmptyId.

Context {W JSError JSValue PaymentLink : Type}.
Variable c : StreamClient W JSError JSValue PaymentLink.
Variable b : Builtins W JSValue.


End EmptyId.


(** ** The order table of the TypeScript application *)

Section OrderTable.

Context {Number : Type}.

(** X15: an order just stored is found under its id, the other ids keep their
    orders; a new id goes last in the list of orders; for a known id the
    new order takes the place of the old one, at the same position, the
    entries before and after it staying as they are. *)
Theorem createOrder_then_getOrder (order : TSApp.Order Number)
    (db : TSApp.Orders Number) :
  let db1 := snd (TSApp.db_createOrder order db) in
  TSApp.db_getOrder (TSApp.id order) db1 = Some order
  /\ (forall key, key <> TSApp.id order ->
        TSApp.db_getOrder key db1 = TSApp.db_getOrder key db)
  /\ (TSApp.db_getOrder (TSApp.id order) db = None ->
      TSApp.db_listOrders db1 = TSApp.db_listOrders db ++ [order])
  /\ (TSApp.db_getOrder (TSApp.id order) db <> None ->
      List.length (TSApp.db_listOrders db1)
      = List.length (TSApp.db_listOrders db)
      /\ exists pre old post,
           db = pre ++ (TSApp.id order, old) :: post
           /\ TSApp.db_getOrder (TSApp.id order) pre = None
           /\ db1 = pre ++ (TSApp.id order, order) :: post
           /\ TSApp.db_listOrders db
              = TSApp.db_listOrders pre ++ old :: TSApp.db_listOrders post
           /\ TSApp.db_listOrders db1
              = TSApp.db_listOrders pre ++ order :: TSApp.db_listOrders post).
Proof.
  cbv zeta. unfold TSApp.db_createOrder, TSApp.db_getOrder, TSApp.db_listOrders.
  cbn [snd]. split; [apply get_set_same |]. split.
  - intros key Hne. now apply get_set_other.
  - split.
    + intros Hnew. rewrite (set_new _ _ _ Hnew).
      unfold JSMap.values. now rewrite map_app.
    + intros Hknown. split; [apply (set_known _ order _ Hknown) |].
      destruct (set_in_place _ order _ Hknown)
        as [pre [old [post [Hdb [Hpre Hset]]]]].
      exists pre, old, post.
      split; [exact Hdb |]. split; [exact Hpre |]. split; [exact Hset |].
      unfold JSMap.values. rewrite Hset. rewrite Hdb at 1.
      rewrite !map_app. split; reflexivity.
Qed.

(** X16: updating an id that is not in the table changes nothing and returns
    nothing; updating a known id stores and returns the merged order, whose
    [updatedAt] is the clock reading of the update whatever the updates say,
    and leaves the other orders and the order of the list alone. *)
Theorem updateOrder_cases key updates now (db : TSApp.Orders Number) :
  (TSApp.db_getOrder key db = None ->
   TSApp.db_updateOrder key updates now db = (None, db))
  /\ (forall order,
        TSApp.db_getOrder key db = Some order ->
        exists updated db1,
          TSApp.db_updateOrder key updates now db = (Some updated, db1)
          /\ TSApp.db_getOrder key db1 = Some updated
          /\ TSApp.updatedAt updated = Some now
          /\ updated = TSApp.with_updatedAt Number
                         (TSApp.spread Number order updates) now
          /\ (forall k, k <> key ->
                TSApp.db_getOrder k db1 = TSApp.db_getOrder k db)
          /\ JSMap.keys db1 = JSMap.keys db).
Proof.
  unfold TSApp.db_updateOrder, TSApp.db_getOrder. split.
  - now intros ->.
  - intros order Hget. rewrite Hget. cbv zeta.
    eexists. eexists. split; [reflexivity |].
    split; [apply get_set_same |]. split; [reflexivity |].
    split; [reflexivity |]. split.
    + intros k Hne. now apply get_set_other.
    + apply set_known. congruence.
Qed.

(** X17: marking a stored order as paid sets its status and its payment id, and
    its [updatedAt] to the clock reading of the database; every other field
    is kept.  Marking it as failed sets the status and [updatedAt] only.
    For an id that is not in the table both do nothing. *)
Theorem markOrder_effect orderId payment t1 t2 (db : TSApp.Orders Number) :
  (TSApp.db_getOrder orderId db = None ->
   TSApp.markOrderAsPaid orderId payment t1 t2 db = (None, db)
   /\ TSApp.markOrderAsFailed orderId t1 t2 db = (None, db))
  /\ (forall o,
        TSApp.db_getOrder orderId db = Some o ->
        let paid_order :=
          TSApp.mkOrder Number (TSApp.id o) (TSApp.productId o)
            (TSApp.customerId o) (TSApp.customerName o) (TSApp.customerPhone o)
            (TSApp.customerEmail o) (TSApp.amount o) TSApp.paid (Some payment)
            (TSApp.createdAt o) (Some t2) in
        let failed_order :=
          TSApp.mkOrder Number (TSApp.id o) (TSApp.productId o)
            (TSApp.customerId o) (TSApp.customerName o) (TSApp.customerPhone o)
            (TSApp.customerEmail o) (TSApp.amount o) TSApp.failed
            (TSApp.paymentId o) (TSApp.createdAt o) (Some t2) in
        TSApp.markOrderAsPaid orderId payment t1 t2 db
        = (Some paid_order, JSMap.set orderId paid_order db)
        /\ TSApp.markOrderAsFailed orderId t1 t2 db
           = (Some failed_order, JSMap.set orderId failed_order db)).
Proof.
  unfold TSApp.markOrderAsPaid, TSApp.markOrderAsFailed, TSApp.db_updateOrder,
    TSApp.db_getOrder.
  split.
  - intros ->. split; reflexivity.
  - intros o ->. cbv zeta. split; reflexivity.
Qed.

Lemma keyed_set key (order : TSApp.Order Number) (db : TSApp.Orders Number) :
  TSApp.keyed_by_id db -> TSApp.id order = key ->
  TSApp.keyed_by_id (JSMap.set key order db).
Proof.
  intros Hdb Hid k o Hin. apply in_set in Hin.
  destruct Hin as [[-> ->] | Hin]; [exact Hid | exact (Hdb k o Hin)].
Qed.

Lemma get_in key (db : TSApp.Orders Number) o :
  JSMap.get key db = Some o -> exists k, In (k, o) db /\ k = key.
Proof.
  induction db as [| [k0 v0] r IH]; simpl; [discriminate |].
  destruct (JS.eqb k0 key) eqn:E.
  - intros H. inversion H. subst. apply eqb_eq in E.
    exists k0. split; [left; reflexivity | exact E].
  - intros H. destruct (IH H) as [k [Hin Hk]]. exists k.
    split; [right |]; assumption.
Qed.

(** X18: the order service keeps every order under its own id: creating an
    order and marking one as paid or failed preserve that, starting from
    the empty table. *)
Theorem service_keeps_orders_keyed data t_id t_created orderId payment t1 t2
    (db : TSApp.Orders Number) :
  TSApp.keyed_by_id (JSMap.empty : TSApp.Orders Number)
  /\ (TSApp.keyed_by_id db ->
      TSApp.keyed_by_id (snd (TSApp.createOrder data t_id t_created db))
      /\ TSApp.keyed_by_id (snd (TSApp.markOrderAsPaid orderId payment t1 t2 db))
      /\ TSApp.keyed_by_id (snd (TSApp.markOrderAsFailed orderId t1 t2 db))).
Proof.
  split; [intros k o [] |]. intros Hdb.
  split; [apply keyed_set; [exact Hdb | reflexivity] |].
  unfold TSApp.markOrderAsPaid, TSApp.markOrderAsFailed, TSApp.db_updateOrder.
  destruct (JSMap.get orderId db) as [o |] eqn:Hget; cbn [snd];
    [| split; exact Hdb].
  destruct (get_in _ _ _ Hget) as [k [Hin Hk]].
  pose proof (Hdb k o Hin) as Hid. subst k.
  split; apply keyed_set; try exact Hdb; exact Hid.
Qed.

(** X19: two orders created on the same reading of [Date.now()] get the same
    id: the second takes the place of the first, and the table does not
    grow.  On different readings the ids differ and both orders are kept. *)
Theorem order_ids_by_clock data1 data2 t t' c1 c2 (db : TSApp.Orders Number) :
  let r1 := TSApp.createOrder data1 t c1 db in
  let r2 := TSApp.createOrder data2 t' c2 (snd r1) in
  (t = t' ->
   TSApp.id (fst r1) = TSApp.id (fst r2)
   /\ TSApp.db_getOrder (TSApp.id (fst r1)) (snd r2) = Some (fst r2)
   /\ List.length (TSApp.db_listOrders (snd r2))
      = List.length (TSApp.db_listOrders (snd r1)))
  /\ (t <> t' ->
      TSApp.id (fst r1) <> TSApp.id (fst r2)
      /\ TSApp.db_getOrder (TSApp.id (fst r1)) (snd r2) = Some (fst r1)
      /\ TSApp.db_getOrder (TSApp.id (fst r2)) (snd r2) = Some (fst r2)).
Proof.
  cbv zeta. unfold TSApp.createOrder, TSApp.db_createOrder, TSApp.db_getOrder,
    TSApp.db_listOrders. cbn [fst snd TSApp.id].
  split.
  - intros <-. split; [reflexivity |]. split; [apply get_set_same |].
    apply set_known. rewrite get_set_same. discriminate.
  - intros Hne.
    assert (TSApp.order_id t <> TSApp.order_id t') as Hids.
    { unfold TSApp.order_id. intros H. apply app_inv_head in H.
      apply of_N_inj in H. contradiction. }
    split; [exact Hids |]. split; [| apply get_set_same].
    rewrite get_set_other; [apply get_set_same | exact Hids].
Qed.

End OrderTable.
(** ** The route [GET /checkout/:productId] of the TypeScript application *)

Section Route.

Context {Number W JSError JSValue PaymentLink : Type}.
Variable c : StreamClient W JSError JSValue PaymentLink.
Variable b : Builtins W JSValue.

(** X20: without a customer name or without a phone number the route answers
    HTTP 400 itself: no order is stored, the checkout handler is not
    reached and no remote call is made. *)
Theorem route_rejects_missing_fields express fuel env productId q t_id
    t_created w (db : TSApp.Orders Number) :
  JS.truthy (CheckoutQuery.customerName q) = false
  \/ JS.truthy (CheckoutQuery.customerPhone q) = false ->
  TSApp.checkout_route c b express fuel env productId q t_id t_created w db
  = (Ok (RespJson 400 TSApp.error_missing_fields), w, db, []).
Proof.
  intros H. unfold TSApp.checkout_route.
  destruct H as [-> | ->]; [reflexivity | now rewrite orb_true_r].
Qed.

(** The route for a request with a name and a phone number: the order is
    stored, and the checkout handler runs on the query that the framework
    hands over. *)
Lemma route_run express fuel env (productId : JSString) q t_id t_created w
    (db : TSApp.Orders Number) :
  JS.truthy (CheckoutQuery.customerName q) = true ->
  JS.truthy (CheckoutQuery.customerPhone q) = true ->
  let order :=
    TSApp.route_order (Number := Number) productId q t_id t_created in
  let run :=
    Checkout c b fuel (TSApp.checkoutConfig env)
      (TSApp.forwarded_query express productId q order) w in
  TSApp.checkout_route c b express fuel env productId q t_id t_created w db
  = (fst (fst run), snd (fst run), JSMap.set (TSApp.order_id t_id) order db,
     snd run).
Proof.
  intros Hn Hp. cbv zeta. unfold TSApp.checkout_route. rewrite Hn, Hp.
  cbn [negb orb].
  unfold TSApp.createOrder, TSApp.db_createOrder.
  fold (@TSApp.route_order Number productId q t_id t_created).
  cbn [TSApp.id TSApp.route_order].
  destruct (Checkout c b fuel _ _ w) as [[o w1] tr]. reflexivity.
Qed.

(** X21: the route stores the order before the checkout handler runs, and
    whatever that handler answers: the order, with status [pending], is in
    the table under [ORD-] followed by the clock reading, also when the
    checkout ends in an error.  What the checkout handler then works on
    depends on the framework: under Express 4 it is the query with the
    path parameter as [products] and the text of the order id as
    [metadata], the other parameters unchanged; under Express 5 it is the
    query of the URL, the two writes being lost. *)
Theorem route_stores_order express fuel env (productId : JSString) q t_id
    t_created w (db : TSApp.Orders Number) :
  JS.truthy (CheckoutQuery.customerName q) = true ->
  JS.truthy (CheckoutQuery.customerPhone q) = true ->
  let r :=
    TSApp.checkout_route c b express fuel env productId q t_id t_created w db in
  let order :=
    TSApp.route_order (Number := Number) productId q t_id t_created in
  let seen :=
    match express with
    | Express4 =>
        CheckoutQuery.make (Some productId) (CheckoutQuery.name q)
          (CheckoutQuery.customerId q) (CheckoutQuery.customerEmail q)
          (CheckoutQuery.customerName q) (CheckoutQuery.customerPhone q)
          (Some (TSApp.order_metadata (TSApp.order_id t_id)))
    | Express5 => q
    end in
  TSApp.db_getOrder (TSApp.order_id t_id) (snd (fst r)) = Some order
  /\ (forall key, key <> TSApp.order_id t_id ->
        TSApp.db_getOrder key (snd (fst r)) = TSApp.db_getOrder key db)
  /\ TSApp.status order = TSApp.pending
  /\ CheckoutQuery.customerName q = Some (TSApp.customerName order)
  /\ CheckoutQuery.customerPhone q = Some (TSApp.customerPhone order)
  /\ (fst (fst r), snd r)
     = (fst (Checkout c b fuel (TSApp.checkoutConfig env) seen w),
        snd (Checkout c b fuel (TSApp.checkoutConfig env) seen w)).
Proof.
  intros Hn Hp. cbv zeta.
  rewrite (route_run express fuel env productId q t_id t_created w db Hn Hp).
  cbv zeta. cbn [fst snd]. unfold TSApp.db_getOrder.
  split; [apply get_set_same |].
  split; [intros key Hne; now apply get_set_other |].
  split; [reflexivity |].
  split; [| split].
  - cbn. destruct (CheckoutQuery.customerName q) as [[| x r] |];
      try discriminate. reflexivity.
  - cbn. destruct (CheckoutQuery.customerPhone q) as [[| x r] |];
      try discriminate. reflexivity.
  - destruct express; cbn [TSApp.forwarded_query handed_over];
      destruct (Checkout c b fuel _ _ w) as [[o w1] tr]; reflexivity.
Qed.

(** X22: where the line items of the route come from depends on the
    framework.  Under Express 4 they come from the path parameter alone:
    the [products] of the query is not looked at, and the answer is never
    one of the two validation answers.  Under Express 5 the write of the
    path parameter is lost: the line items are those of the [products] of
    the query, and a request without it, whose order is stored all the
    same, is answered with the HTTP 400 of the checkout handler, no remote
    call being made. *)
Theorem route_products_from_path fuel env (productId : JSString) q t_id
    t_created w (db : TSApp.Orders Number) :
  (50 <= fuel)%nat ->
  productId <> [] ->
  JS.truthy (CheckoutQuery.customerName q) = true ->
  JS.truthy (CheckoutQuery.customerPhone q) = true ->
  let r4 :=
    TSApp.checkout_route c b Express4 fuel env productId q t_id t_created w db in
  let r5 :=
    TSApp.checkout_route c b Express5 fuel env productId q t_id t_created w db in
  (exists resp,
      fst (fst (fst r4)) = Ok resp
      /\ resp <> RespJson 400 error_no_product
      /\ resp <> RespJson 400 TSApp.error_missing_fields)
  /\ (forall d, In (EvCreatePaymentLink d) (snd r4) ->
        PaymentLinkData.items d = items_of_segments productId)
  /\ (forall products,
        r4 = TSApp.checkout_route c b Express4 fuel env productId
               (CheckoutQuery.make products (CheckoutQuery.name q)
                  (CheckoutQuery.customerId q) (CheckoutQuery.customerEmail q)
                  (CheckoutQuery.customerName q)
                  (CheckoutQuery.customerPhone q) (CheckoutQuery.metadata q))
               t_id t_created w db)
  /\ (forall d, In (EvCreatePaymentLink d) (snd r5) ->
        exists p,
          CheckoutQuery.products q = Some p /\ p <> []
          /\ PaymentLinkData.items d = items_of_segments p)
  /\ (JS.truthy (CheckoutQuery.products q) = false ->
      r5 = (Ok (RespJson 400 error_no_product), w,
            JSMap.set (TSApp.order_id t_id)
              (TSApp.route_order (Number := Number) productId q t_id
                 t_created)
              db,
            [])).
Proof.
  intros Hfuel Hprod Hn Hp. cbv zeta.
  rewrite (route_run Express4 fuel env productId q t_id t_created w db Hn Hp).
  rewrite (route_run Express5 fuel env productId q t_id t_created w db Hn Hp).
  cbv zeta. cbn [fst snd TSApp.forwarded_query handed_over].
  set (order := TSApp.route_order (Number := Number) productId q t_id
                  t_created).
  assert (JS.truthy (CheckoutQuery.products
                       (TSApp.written_query productId q order)) = true)
    as Htp by (destruct productId; [congruence | reflexivity]).
  split; [| split; [| split; [| split]]].
  - destruct (Checkout_answers_products c b fuel (TSApp.checkoutConfig env)
                (TSApp.written_query productId q order) w Hfuel Htp)
      as [resp [Hresp Hno]].
    exists resp. split; [exact Hresp |]. split; apply Hno.
  - intros d Hin. apply Checkout_link_items in Hin.
    destruct Hin as [p [Hq [_ ->]]]. cbn in Hq. now inversion Hq.
  - intros products.
    rewrite (route_run Express4 fuel env productId
               (CheckoutQuery.make products (CheckoutQuery.name q)
                  (CheckoutQuery.customerId q) (CheckoutQuery.customerEmail q)
                  (CheckoutQuery.customerName q)
                  (CheckoutQuery.customerPhone q) (CheckoutQuery.metadata q))
               t_id t_created w db Hn Hp).
    reflexivity.
  - intros d Hin. now apply Checkout_link_items in Hin.
  - intros Hfalse. rewrite Checkout_run, Hfalse. reflexivity.
Qed.

Lemma order_id_plain t :
  Forall plain (TSApp.order_id t) /\ ~ In 37%N (TSApp.order_id t).
Proof.
  unfold TSApp.order_id. pose proof (of_N_digits t) as Hd. split.
  - apply Forall_app. split.
    + cbv. repeat constructor; try discriminate.
    + eapply Forall_impl; [| exact Hd]. intros ch Hch. cbv beta in Hch.
      unfold plain. repeat split; lia.
  - intros Hin. apply in_app_or in Hin. destruct Hin as [Hin | Hin].
    + cbv in Hin. repeat (destruct Hin as [Hin | Hin]; [discriminate |]).
      exact Hin.
    + rewrite Forall_forall in Hd. specialize (Hd _ Hin). cbv beta in Hd. lia.
Qed.

(** The metadata text of an order: no character of the id needs an escape. *)
Lemma order_metadata_text t :
  TSApp.order_metadata (TSApp.order_id t)
  = [123%N; 34%N] ++ JS.of_string "orderId" ++ [34%N; 58%N; 34%N]
    ++ TSApp.order_id t ++ [34%N; 44%N; 34%N] ++ JS.of_string "source"
    ++ [34%N; 58%N; 34%N] ++ JS.of_string "typescript-app" ++ [34%N; 125%N].
Proof.
  unfold TSApp.order_metadata, JSON.stringify_object, JSON.members.
  destruct (order_id_plain t) as [Hplain _].
  assert (JSON.quote (TSApp.order_id t) = 34%N :: TSApp.order_id t ++ [34%N])
    as -> by (unfold JSON.quote; now rewrite quote_body_plain).
  change (JSON.quote (JS.of_string "orderId"))
    with (34%N :: JS.of_string "orderId" ++ [34%N]).
  change (JSON.quote (JS.of_string "source"))
    with (34%N :: JS.of_string "source" ++ [34%N]).
  change (JSON.quote (JS.of_string "typescript-app"))
    with (34%N :: JS.of_string "typescript-app" ++ [34%N]).
  cbn [app]. repeat (rewrite <- app_assoc; cbn [app]). reflexivity.
Qed.

Lemma order_metadata_no_percent t :
  ~ In 37%N (TSApp.order_metadata (TSApp.order_id t)).
Proof.
  rewrite order_metadata_text. destruct (order_id_plain t) as [_ Hid].
  intros Hin.
  repeat (apply in_app_or in Hin; destruct Hin as [Hin | Hin];
          [try (cbv in Hin;
                repeat (destruct Hin as [Hin | Hin]; [discriminate |]);
                exact Hin);
           try (exact (Hid Hin)) |]).
  cbv in Hin. repeat (destruct Hin as [Hin | Hin]; [discriminate |]).
  exact Hin.
Qed.

(** X23: under Express 4 the id of the stored order reaches the payment
    link: the route puts the JSON text [{orderId, source}] in [metadata]
    without URL-encoding it.  The text holds no percent sign, so decoding
    has nothing to replace; when [decodeURIComponent] returns it as it is,
    every payment-link request carries what [JSON.parse] makes of it.
    Under Express 5 the write is lost: a request without [metadata] of its
    own gets payment-link requests without metadata. *)
Theorem route_metadata_reaches_link fuel env (productId : JSString) q t_id
    t_created w (db : TSApp.Orders Number) :
  decodeURIComponent b (TSApp.order_metadata (TSApp.order_id t_id))
  = Some (TSApp.order_metadata (TSApp.order_id t_id)) ->
  JS.truthy (CheckoutQuery.customerName q) = true ->
  JS.truthy (CheckoutQuery.customerPhone q) = true ->
  (forall d,
      In (EvCreatePaymentLink d)
         (snd (TSApp.checkout_route c b Express4 fuel env productId q t_id
                 t_created w db)) ->
      PaymentLinkData.metadata d
      = JSON_parse b (TSApp.order_metadata (TSApp.order_id t_id)))
  /\ ~ In 37%N (TSApp.order_metadata (TSApp.order_id t_id))
  /\ TSApp.order_metadata (TSApp.order_id t_id)
     = [123%N; 34%N] ++ JS.of_string "orderId" ++ [34%N; 58%N; 34%N]
       ++ TSApp.order_id t_id ++ [34%N; 44%N; 34%N] ++ JS.of_string "source"
       ++ [34%N; 58%N; 34%N] ++ JS.of_string "typescript-app"
       ++ [34%N; 125%N]
  /\ (JS.truthy (CheckoutQuery.metadata q) = false ->
      forall d,
        In (EvCreatePaymentLink d)
           (snd (TSApp.checkout_route c b Express5 fuel env productId q t_id
                   t_created w db)) ->
        PaymentLinkData.metadata d = None).
Proof.
  intros Hdecode Hn Hp.
  rewrite (route_run Express4 fuel env productId q t_id t_created w db Hn Hp).
  rewrite (route_run Express5 fuel env productId q t_id t_created w db Hn Hp).
  cbv zeta. cbn [fst snd TSApp.forwarded_query handed_over].
  split; [| split; [apply order_metadata_no_percent
                   | split; [apply order_metadata_text |]]].
  - intros d Hin.
    apply Checkout_link_events in Hin. destruct Hin as [_ [cid ->]].
    rewrite requestData_metadata.
    change (CheckoutQuery.metadata (TSApp.written_query _ _ _))
      with (Some (TSApp.order_metadata (TSApp.order_id t_id))).
    change (JS.truthy (Some (TSApp.order_metadata (TSApp.order_id t_id))))
      with true.
    cbv iota.
    change (JS.or_else (Some (TSApp.order_metadata (TSApp.order_id t_id))) [])
      with (TSApp.order_metadata (TSApp.order_id t_id)).
    unfold parsedMetadata.
    now rewrite Hdecode.
  - intros Hm d Hin.
    apply Checkout_link_events in Hin. destruct Hin as [_ [cid ->]].
    rewrite requestData_metadata. now rewrite Hm.
Qed.


End Route.
(** ** The routes of the comprehensive application *)

Section ComprehensiveRoutes.

Context {W JSError JSValue PaymentLink : Type}.
Variable c : StreamClient W JSError JSValue PaymentLink.
Variable b : Builtins W JSValue.

(** The query that the cart route hands over. *)
Lemma cart_route_run express fuel env q t_id t_created w db ch rest :
  CheckoutQuery.products q = Some (ch :: rest) ->
  let q1 :=
    handed_over express q
      (CheckoutQuery.make (Some (ch :: rest)) (CheckoutQuery.name q)
         (CheckoutQuery.customerId q) (CheckoutQuery.customerEmail q)
         (CheckoutQuery.customerName q) (CheckoutQuery.customerPhone q)
         (Some (Comprehensive.cart_metadata
                  (Comprehensive.cart_order_id t_id)))) in
  let run :=
    Checkout c b fuel (Comprehensive.config env "Shopping Cart Checkout") q1 w in
  Comprehensive.cart_route c b express fuel env q t_id t_created w db
  = (fst (fst run), snd (fst run),
     JSMap.set (Comprehensive.cart_order_id t_id)
       (Comprehensive.CartOrder (Comprehensive.cart_order_id t_id)
          (JS.split JS.comma (ch :: rest)) (CheckoutQuery.customerName q)
          (CheckoutQuery.customerPhone q) (CheckoutQuery.customerEmail q)
          (JS.of_string "pending") t_created)
       db,
     snd run).
Proof.
  intros Hq. cbv zeta. unfold Comprehensive.cart_route. rewrite Hq. cbv zeta.
  destruct (Checkout c b fuel _ _ w) as [[o w1] tr]. reflexivity.
Qed.

(** X25: the cart route answers HTTP 400 [Products are required] itself when
    [products] is missing or empty, storing nothing and calling nobody.
    Otherwise it stores a cart order whose product ids are the segments of
    [products], untrimmed: joined with commas they give [products] back,
    and every payment-link request has one line item per stored id, in the
    same order, with that id trimmed.  The checkout handler then never
    answers that a product is missing.  All this holds under Express 4 and
    under Express 5 alike: the route does not write [products]. *)
Theorem cart_route_products express fuel env q t_id t_created w db :
  (50 <= fuel)%nat ->
  let r := Comprehensive.cart_route c b express fuel env q t_id t_created w db in
  (JS.truthy (CheckoutQuery.products q) = false ->
   r = (Ok (RespJson 400 Comprehensive.error_no_products), w, db, []))
  /\ (forall products,
        CheckoutQuery.products q = Some products -> products <> [] ->
        exists ids,
          JSMap.get (Comprehensive.cart_order_id t_id) (snd (fst r))
          = Some (Comprehensive.CartOrder (Comprehensive.cart_order_id t_id)
                    ids (CheckoutQuery.customerName q)
                    (CheckoutQuery.customerPhone q)
                    (CheckoutQuery.customerEmail q) (JS.of_string "pending")
                    t_created)
          /\ join JS.comma ids = products
          /\ (forall d, In (EvCreatePaymentLink d) (snd r) ->
                PaymentLinkData.items d
                = map (fun id => Item.make (JS.trim id) 1) ids)
          /\ exists resp,
               fst (fst (fst r)) = Ok resp
               /\ resp <> RespJson 400 error_no_product).
Proof.
  intros Hfuel. cbv zeta. split.
  - unfold Comprehensive.cart_route.
    destruct (CheckoutQuery.products q) as [[| ch rest] |];
      [reflexivity | discriminate | reflexivity].
  - intros products Hq Hne.
    destruct products as [| ch rest]; [congruence |].
    rewrite (cart_route_run express fuel env q t_id t_created w db ch rest Hq).
    cbv zeta. cbn [fst snd].
    set (q1 := handed_over express q _).
    assert (CheckoutQuery.products q1 = Some (ch :: rest)) as Hq1
      by (destruct express; [reflexivity | exact Hq]).
    exists (JS.split JS.comma (ch :: rest)).
    split; [apply get_set_same |].
    split; [apply split_join |]. split.
    + intros d Hin. apply Checkout_link_items in Hin.
      destruct Hin as [p [Hp [_ ->]]]. rewrite Hq1 in Hp.
      inversion Hp. reflexivity.
    + destruct (Checkout_answers_products c b fuel
                  (Comprehensive.config env "Shopping Cart Checkout") q1 w
                  Hfuel) as [resp [Hresp Hno]].
      * now rewrite Hq1.
      * exists resp. split; [exact Hresp | apply Hno].
Qed.

(** A request with products and without customer id, phone number and
    email is a single payment-link request. *)
Lemma Checkout_without_contact fuel config q w :
  JS.truthy (CheckoutQuery.products q) = true ->
  CheckoutQuery.customerId q = None ->
  JS.truthy (CheckoutQuery.customerPhone q) = false ->
  JS.truthy (CheckoutQuery.customerEmail q) = false ->
  snd (Checkout c b fuel config q w)
  = [EvCreatePaymentLink (requestData b config q w None)].
Proof.
  intros Hprod Hid Hp He. rewrite Checkout_run, Hprod.
  rewrite (resolveConsumer_no_contact c fuel q w Hp He), Hid.
  cbv zeta. destruct (createPaymentLink c _ w) as [[link | e] w2]; reflexivity.
Qed.

(** X26: the product route checks nothing: a request without any customer field
    and without [customerId] still stores an order, whose customer fields
    are missing, and is checked out as a guest.  Under Express 4 the run
    is a single payment-link request without consumer id, for the product
    of the path.  Under Express 5, where the write of the path parameter
    is lost, it is such a request for the [products] of the query, and
    without them the HTTP 400 of the checkout handler, the order being
    stored all the same. *)
Theorem product_route_without_customer fuel env (productId : JSString) q t_id
    t_created w db :
  productId <> [] ->
  CheckoutQuery.customerId q = None ->
  CheckoutQuery.customerName q = None ->
  CheckoutQuery.customerPhone q = None ->
  CheckoutQuery.customerEmail q = None ->
  let r4 := Comprehensive.product_route c b Express4 fuel env productId q t_id
              t_created w db in
  let r5 := Comprehensive.product_route c b Express5 fuel env productId q t_id
              t_created w db in
  let order :=
    Comprehensive.ProductOrder (Comprehensive.product_order_id t_id)
      productId None None None (JS.of_string "pending") t_created in
  JSMap.get (Comprehensive.product_order_id t_id) (snd (fst r4)) = Some order
  /\ (exists d,
        snd r4 = [EvCreatePaymentLink d]
        /\ PaymentLinkData.organization_consumer_id d = None
        /\ PaymentLinkData.items d = items_of_segments productId)
  /\ JSMap.get (Comprehensive.product_order_id t_id) (snd (fst r5))
     = Some order
  /\ (forall p,
        CheckoutQuery.products q = Some p -> p <> [] ->
        exists d,
          snd r5 = [EvCreatePaymentLink d]
          /\ PaymentLinkData.organization_consumer_id d = None
          /\ PaymentLinkData.items d = items_of_segments p)
  /\ (JS.truthy (CheckoutQuery.products q) = false ->
      fst (fst (fst r5)) = Ok (RespJson 400 error_no_product)
      /\ snd r5 = []).
Proof.
  intros Hprod Hid Hn Hp He. cbv zeta. unfold Comprehensive.product_route.
  cbv zeta. cbn [handed_over]. rewrite Hn, Hp, He.
  set (config := Comprehensive.config env "Product Checkout").
  set (q1 := CheckoutQuery.make (Some productId) (CheckoutQuery.name q)
               (CheckoutQuery.customerId q) None None None
               (Some (Comprehensive.product_metadata
                        (Comprehensive.product_order_id t_id)))).
  assert (JS.truthy (CheckoutQuery.products q1) = true) as Htp
    by (unfold q1; destruct productId; [congruence | reflexivity]).
  pose proof (Checkout_without_contact fuel config q1 w Htp Hid eq_refl
                eq_refl) as Htr4.
  assert (forall p, CheckoutQuery.products q = Some p -> p <> [] ->
            snd (Checkout c b fuel config q w)
            = [EvCreatePaymentLink (requestData b config q w None)]) as Htr5.
  { intros p Hq Hne. apply Checkout_without_contact.
    - rewrite Hq. destruct p; [congruence | reflexivity].
    - exact Hid.
    - now rewrite Hp.
    - now rewrite He. }
  assert (JS.truthy (CheckoutQuery.products q) = false ->
          Checkout c b fuel config q w
          = (Ok (RespJson 400 error_no_product), w, [])) as Hbad
    by (intros Hf; now rewrite Checkout_run, Hf).
  destruct (Checkout c b fuel config q1 w) as [[o4 w4] tr4].
  destruct (Checkout c b fuel config q w) as [[o5 w5] tr5].
  cbn [fst snd] in *.
  split; [apply get_set_same |]. split; [| split; [apply get_set_same |]].
  - eexists. split; [exact Htr4 |]. split.
    + now rewrite requestData_consumer.
    + rewrite requestData_items. unfold q1. cbn [CheckoutQuery.products].
      destruct productId as [| ch rest]; [congruence |].
      unfold productIds, line_items, items_of_segments. now rewrite map_map.
  - split.
    + intros p Hq Hne. eexists. split; [exact (Htr5 p Hq Hne) |]. split.
      * now rewrite requestData_consumer.
      * rewrite requestData_items, Hq.
        destruct p as [| ch rest]; [congruence |].
        unfold productIds, line_items, items_of_segments. now rewrite map_map.
    + intros Hf. specialize (Hbad Hf). inversion Hbad. split; reflexivity.
Qed.

End ComprehensiveRoutes.

(** * Runs *)

Lemma Checkout_always_answers_witness :
  (50 <= 50)%nat
  /\ exists resp,
       fst (fst (Demo.run 50 Sample.no_products (Demo.world []))) = Ok resp
       /\ (resp = RespJson 400 error_no_product
           <-> JS.truthy (CheckoutQuery.products Sample.no_products) = false).
Proof.
  split; [apply Nat.le_refl |].
  apply (Checkout_always_answers Demo.client Demo.builtins 50 Demo.config
           Sample.no_products (Demo.world [])).
  apply Nat.le_refl.
Defined.

Lemma Checkout_link_name_witness :
  exists d,
    In (EvCreatePaymentLink d)
       (snd (Demo.run 50 Sample.with_id (Demo.world [])))
    /\ PaymentLinkData.name d = JS.of_string "Store Checkout".
Proof.
  eexists. split; [vm_compute; left; reflexivity |].
  match goal with
  | |- PaymentLinkData.name ?d = _ =>
      destruct (Checkout_link_name Demo.client Demo.builtins 50 Demo.config
                  Sample.with_id (Demo.world []) d) as [_ [_ [H _]]]
  end.
  - vm_compute. left. reflexivity.
  - apply H; [reflexivity | reflexivity | discriminate].
Defined.

Lemma Checkout_link_urls_witness :
  exists d,
    In (EvCreatePaymentLink d)
       (snd (Demo.run 50 Sample.with_id (Demo.world [])))
    /\ PaymentLinkData.success_redirect_url d
       = JS.of_string "https://shop.example/success"
    /\ PaymentLinkData.coupons d = [].
Proof.
  eexists. split; [vm_compute; left; reflexivity |].
  match goal with
  | |- PaymentLinkData.success_redirect_url ?d = _ /\ _ =>
      destruct (Checkout_link_urls Demo.client Demo.builtins 50 Demo.config
                  Sample.with_id (Demo.world []) d) as [H1 [H2 _]]
  end.
  - vm_compute. left. reflexivity.
  - split; [exact H1 | exact H2].
Defined.

Lemma Checkout_metadata_attached_witness :
  exists d,
    In (EvCreatePaymentLink d)
       (snd (Demo.run 50 Sample2.good_metadata (Demo.world [])))
    /\ PaymentLinkData.metadata d = Some (JS.of_string "{}").
Proof.
  eexists. split; [vm_compute; left; reflexivity |].
  match goal with
  | |- PaymentLinkData.metadata ?d = _ =>
      destruct (Checkout_metadata_attached Demo.client Demo.builtins 50
                  Demo.config Sample2.good_metadata (Demo.world []) d)
        as [H _]
  end.
  - vm_compute. left. reflexivity.
  - apply (H (JS.of_string "{}") (JS.of_string "{}"));
      [reflexivity | discriminate | reflexivity | reflexivity].
Defined.

Lemma Checkout_item_ids_clean_witness :
  exists d it,
    In (EvCreatePaymentLink d)
       (snd (Demo.run 50 Sample2.good_metadata (Demo.world [])))
    /\ In it (PaymentLinkData.items d)
    /\ Item.product_id it = JS.of_string "prod_1"
    /\ Item.quantity it = 1%Z
    /\ ~ In JS.comma (Item.product_id it)
    /\ trimmed (Item.product_id it).
Proof.
  exists (requestData Demo.builtins Demo.config Sample2.good_metadata
            (Demo.world []) None).
  exists (Item.make (JS.of_string "prod_1") 1).
  split; [vm_compute; left; reflexivity |].
  split; [vm_compute; left; reflexivity |].
  split; [reflexivity |].
  apply (Checkout_item_ids_clean Demo.client Demo.builtins 50 Demo.config
           Sample2.good_metadata (Demo.world [])
           (requestData Demo.builtins Demo.config Sample2.good_metadata
              (Demo.world []) None)
           (Item.make (JS.of_string "prod_1") 1)).
  - vm_compute. left. reflexivity.
  - vm_compute. left. reflexivity.
Defined.

Lemma Checkout_phone_match_used_witness :
  exists x d,
    In x [Demo.ahmad]
    /\ Consumer.phone_number x = FString (JS.of_string "+966501234567")
    /\ snd (Demo.run 50 Sample2.known_phone (Demo.world [Demo.ahmad]))
       = [Sample2.search_for "+966501234567"; EvCreatePaymentLink d]
    /\ PaymentLinkData.organization_consumer_id d
       = own_property (Some (Consumer.id x)).
Proof.
  apply (Checkout_phone_match_used Demo.client Demo.builtins 50 Demo.config
           Sample2.known_phone (Demo.world [Demo.ahmad])
           (JS.of_string "+966501234567")
           (ListResponse.make (Some [Demo.ahmad])
              (Some (Pagination.make (Some false))))
           (Demo.world [Demo.ahmad]) [Demo.ahmad] Demo.ahmad);
    try reflexivity.
  - discriminate.
  - left. reflexivity.
Defined.

Lemma scan_turn_stops_witness :
  exists st',
    while 1 page_cond
      (page_body Demo.client (Demo.s "+966500000000") None)
      (mkPageLoop 1 true None) (Demo.world [Demo.ahmad])
    = (Ok st', Demo.world [Demo.ahmad], [Sample2.fetch_page 1])
    /\ found st' = None.
Proof.
  destruct (scan_turn_stops Demo.client 0 (Demo.s "+966500000000") None
              (mkPageLoop 1 true None) (Demo.world [Demo.ahmad])
              (ListResponse.make (Some [Demo.ahmad])
                 (Some (Pagination.make (Some false))))
              (Demo.world [Demo.ahmad]))
    as [st' [Hrun Hfound]].
  - reflexivity.
  - reflexivity.
  - reflexivity.
  - right. reflexivity.
  - exists st'. split; [exact Hrun | exact Hfound].
Defined.

Lemma Checkout_guest_witness :
  exists d,
    PaymentLinkData.organization_consumer_id d = None
    /\ snd (Demo.run 50 Sample2.unnamed_phone (Demo.world [Demo.ahmad]))
       = [Sample2.search_for "+966500000000"; Sample2.fetch_page 1]
         ++ [EvCreatePaymentLink d].
Proof.
  destruct (Checkout_guest Demo.client Demo.builtins 50 Demo.config
              Sample2.unnamed_phone (Demo.world [Demo.ahmad])
              (Demo.world [Demo.ahmad])
              [Sample2.search_for "+966500000000"; Sample2.fetch_page 1])
    as [d [Hd [Htr _]]].
  - reflexivity.
  - reflexivity.
  - reflexivity.
  - right. split; [reflexivity | vm_compute; reflexivity].
  - exists d. split; [exact Hd | exact Htr].
Defined.

Lemma Checkout_creation_failure_witness :
  Checkout Sample2.no_signup_client Demo.builtins 50 Demo.config
    Sample.by_phone (Demo.world [Demo.ahmad])
  = (Ok (RespNext (JS.of_string "creation refused")), Demo.world [Demo.ahmad],
     [Sample2.search_for "+966500000000"; Sample2.fetch_page 1]
     ++ [EvCreateConsumer
           (consumerData (CheckoutQuery.customerName Sample.by_phone)
              (CheckoutQuery.customerPhone Sample.by_phone)
              (CheckoutQuery.customerEmail Sample.by_phone))]).
Proof.
  apply (Checkout_creation_failure Sample2.no_signup_client Demo.builtins 50
           Demo.config Sample.by_phone (Demo.world [Demo.ahmad])
           (Demo.world [Demo.ahmad])
           [Sample2.search_for "+966500000000"; Sample2.fetch_page 1]
           (JS.of_string "creation refused") (Demo.world [Demo.ahmad]));
    reflexivity.
Defined.

Lemma Checkout_call_order_witness :
  (50 <= 50)%nat
  /\ exists ts tf tc tl,
       remote_calls (snd (Demo.run 50 Sample.by_phone (Demo.world [Demo.ahmad])))
       = ts ++ tf ++ tc ++ tl
       /\ (List.length ts <= 2)%nat /\ (List.length tf <= 50)%nat
       /\ (List.length tc <= 1)%nat /\ (List.length tl <= 1)%nat.
Proof.
  split; [apply Nat.le_refl |].
  destruct (Checkout_call_order Demo.client Demo.builtins 50 Demo.config
              Sample.by_phone (Demo.world [Demo.ahmad]) (Nat.le_refl 50))
    as [ts [tf [tc [tl [Htr [[_ Hs] [[_ Hf] [[_ Hc] [_ Hl]]]]]]]]].
  exists ts, tf, tc, tl. repeat split; assumption.
Defined.

Lemma route_rejects_missing_fields_witness :
  TSSample.route Express4 TSSample.no_phone JSMap.empty
  = (Ok (RespJson 400 TSApp.error_missing_fields), Demo.world [Demo.ahmad],
     JSMap.empty, []).
Proof.
  apply (route_rejects_missing_fields Demo.client Demo.builtins Express4 50
           TSSample.env (JS.of_string "prod_9") TSSample.no_phone
           1700000000000 1700000000001 (Demo.world [Demo.ahmad])
           (JSMap.empty : TSApp.Orders Z)).
  right. reflexivity.
Defined.

Lemma route_stores_order_witness :
  TSApp.db_getOrder (JS.of_string "ORD-1700000000000")
    (snd (fst (TSSample.route Express5 TSSample.query JSMap.empty)))
  = Some TSSample.order.
Proof.
  destruct (route_stores_order Demo.client Demo.builtins Express5 50
              TSSample.env (JS.of_string "prod_9") TSSample.query
              1700000000000 1700000000001 (Demo.world [Demo.ahmad])
              (JSMap.empty : TSApp.Orders Z))
    as [H _].
  - reflexivity.
  - reflexivity.
  - exact H.
Defined.

Lemma route_products_from_path_witness :
  exists resp,
    fst (fst (fst (TSSample.route Express4 TSSample.query JSMap.empty)))
    = Ok resp
    /\ resp <> RespJson 400 error_no_product
    /\ resp <> RespJson 400 TSApp.error_missing_fields.
Proof.
  destruct (route_products_from_path Demo.client Demo.builtins 50 TSSample.env
              (JS.of_string "prod_9") TSSample.query 1700000000000
              1700000000001 (Demo.world [Demo.ahmad])
              (JSMap.empty : TSApp.Orders Z))
    as [H _].
  - apply Nat.le_refl.
  - discriminate.
  - reflexivity.
  - reflexivity.
  - exact H.
Defined.

Lemma route_metadata_reaches_link_witness :
  exists d,
    In (EvCreatePaymentLink d)
       (snd (TSSample.route Express4 TSSample.query JSMap.empty))
    /\ PaymentLinkData.metadata d
       = Some (TSApp.order_metadata (JS.of_string "ORD-1700000000000")).
Proof.
  eexists. split; [vm_compute; do 3 right; left; reflexivity |].
  match goal with
  | |- PaymentLinkData.metadata ?d = _ =>
      destruct (route_metadata_reaches_link Demo.client Demo.builtins 50
                  TSSample.env (JS.of_string "prod_9") TSSample.query
                  1700000000000 1700000000001 (Demo.world [Demo.ahmad])
                  (JSMap.empty : TSApp.Orders Z))
        as [H _];
        [vm_compute; reflexivity | reflexivity | reflexivity
        | apply (H d); vm_compute; do 3 right; left; reflexivity]
  end.
Defined.


Lemma cart_route_products_witness :
  (50 <= 50)%nat
  /\ exists ids,
       join JS.comma ids = JS.of_string "prod_1, prod_2"
       /\ forall d,
            In (EvCreatePaymentLink d)
               (snd (Comprehensive.cart_route Demo.client Demo.builtins
                       Express5 50 TSSample.env Sample2.cart 1700000000000
                       1700000000001 (Demo.world []) JSMap.empty)) ->
            PaymentLinkData.items d
            = map (fun id => Item.make (JS.trim id) 1) ids.
Proof.
  split; [apply Nat.le_refl |].
  destruct (cart_route_products Demo.client Demo.builtins Express5 50
              TSSample.env Sample2.cart 1700000000000 1700000000001
              (Demo.world []) JSMap.empty (Nat.le_refl 50))
    as [_ H].
  destruct (H (JS.of_string "prod_1, prod_2")) as [ids [_ [Hj [Hd _]]]].
  - reflexivity.
  - discriminate.
  - exists ids. split; [exact Hj | exact Hd].
Defined.

Lemma product_route_without_customer_witness :
  exists d,
    snd (Comprehensive.product_route Demo.client Demo.builtins Express4 50
           TSSample.env (JS.of_string "prod_9") Sample2.cart 1700000000000
           1700000000001 (Demo.world []) JSMap.empty)
    = [EvCreatePaymentLink d]
    /\ PaymentLinkData.organization_consumer_id d = None
    /\ PaymentLinkData.items d = [Item.make (JS.of_string "prod_9") 1].
Proof.
  destruct (product_route_without_customer Demo.client Demo.builtins 50
              TSSample.env (JS.of_string "prod_9") Sample2.cart 1700000000000
              1700000000001 (Demo.world []) JSMap.empty)
    as [_ [H _]].
  - discriminate.
  - reflexivity.
  - reflexivity.
  - reflexivity.
  - reflexivity.
  - exact H.
Defined.
